(** * PID_Interfaz: the control step and the socket ingestion of
    [PID_GUI_Experimental.py], embedded and verified.

    The program keeps one pandas DataFrame ([simulation_data]) that a periodic
    timer callback ([update_plot]) reads and rewrites row by row, and that the
    socket handler ([process_received_data]) extends with the records it
    receives.  The embedding follows the methods of [MainWindow]:

    - Python floats are IEEE 754 binary64 numbers, here the primitive [float]
      with the same rounding;
    - the DataFrame is a set of column labels and a list of rows, each row a
      finite map from column label to cell;
    - the dictionaries [fixed_pid_values], [pid_enabled] and [pid_sliders]
      keep their keys;
    - a method is a function from the window to an outcome (a value or the
      exception raised) and the window it leaves behind;
    - what the socket delivers is a list of chunks, each told apart by what
      [bytes.decode] and [json.loads] make of it; the records of [server.py]
      are given as the feed of the examples.

    Of the rendering the embedding keeps what a method depends on: which plot
    lines are shown, and the columns a shown line reads, whose absence raises
    [KeyError].  The curves themselves, the table items and the enabled flags
    of buttons are left out: no value of the engine depends on them. *)

From Stdlib Require Import Floats ZArith.
From stdpp Require Import gmap strings list fin_maps.

(** ** Python values *)

(** [float(n)] for a Python [int] that fits 63 bits, as a timer interval (a C
    [int]) does. *)
Definition float_of_Z (z : Z) : float :=
  match z with
  | Z0 => 0%float
  | Zpos _ => PrimFloat.of_uint63 (Uint63.of_Z z)
  | Zneg p => (- PrimFloat.of_uint63 (Uint63.of_Z (Zpos p)))%float
  end.

(** The exceptions the modelled methods can meet. *)
Inductive exn :=
| KeyError (label : string)
| ZeroDivisionError
| UnicodeDecodeError.

Inductive result (A : Type) :=
| Ok (a : A)
| Raise (e : exn).
Arguments Ok {A} a.
Arguments Raise {A} e.

(** [x / y] on floats: Python raises when the divisor is zero (of either
    sign), and follows IEEE 754 otherwise. *)
Definition truediv (x y : float) : result float :=
  if (y =? 0)%float then Raise ZeroDivisionError else Ok (x / y)%float.

(** What [json.loads] returns, as far as the embedding follows it: a [dict]
    whose values are all floats (JSON numbers written with a fraction or an
    exponent, as every field of the records of [server.py] is), or a value
    that is no [dict].  A [dict] with a value of another kind (an integer, a
    string, [null]) has no value here: what pandas makes of its column
    depends on dtypes that the frames below do not carry, so every statement
    about records is about records of floats. *)
Inductive json :=
| json_dict (d : gmap string float)
| json_other.

(** ** pandas.DataFrame *)

Module DataFrame.

(** The frames of this program carry the default index [0 .. n-1], so a row
    label is a position in [rows].  Every cell is a float64; a cell that was
    never given a value holds NaN. *)
Record t := mk {
  columns : gset string;
  rows : list (gmap string float)
}.

(** [pd.DataFrame()] *)
Definition new : t := mk ∅ [].

(** [len(df)] *)
Definition len (df : t) : nat := length (rows df).

(** [df.empty]: no row or no column. *)
Definition empty (df : t) : bool :=
  bool_decide (rows df = []) || bool_decide (columns df = ∅).

(** A row laid out on the column set [cols]: cells it lacks are NaN. *)
Definition reindex (cols : gset string) (r : gmap string float) : gmap string float :=
  r ∪ gset_to_gmap nan cols.

(** [pd.DataFrame([d])]: one row, the keys of [d] as columns. *)
Definition of_record (d : gmap string float) : t := mk (dom d) [d].

(** [pd.concat([df, new_row], ignore_index=True)]: the union of the
    columns, the rows of [df] followed by those of [new_row], NaN where a
    row has no value for a column. *)
Definition concat (df new_row : t) : t :=
  let cols := columns df ∪ columns new_row in
  mk cols (reindex cols <$> (rows df ++ rows new_row)).

(** [df.at[i, c]] read: [None] stands for the [KeyError] of a missing label. *)
Definition at_ (df : t) (i : nat) (c : string) : option float :=
  if decide (c ∈ columns df) then rows df !! i ≫= (.!! c) else None.

(** [df.at[i, c] = v] for a row [i] of the frame: the cell is overwritten;
    a new label [c] makes a new column, NaN in the other rows.  (For a row
    label past the end pandas grows the frame; [update_plot], the only
    caller, returns before it gets there, and the model leaves the rows as
    they are in that case.) *)
Definition set_at (df : t) (i : nat) (c : string) (v : float) : t :=
  let cols := {[c]} ∪ columns df in
  mk cols (alter (insert c v) i (reindex cols <$> rows df)).

(** [df[c] = [v] * len(df)] *)
Definition set_column (df : t) (c : string) (v : float) : t :=
  mk ({[c]} ∪ columns df) (insert c v <$> rows df).

(** [df.iloc[:k]]: the first [k] rows, with every column. *)
Definition iloc_to (df : t) (k : nat) : t := mk (columns df) (take k (rows df)).

(** [df[c]] read: the cells of the column; [None] stands for the [KeyError]
    of a missing label. *)
Definition getitem (df : t) (c : string) : option (list float) :=
  if decide (c ∈ columns df)
  then Some ((λ r : gmap string float, default nan (r !! c)) <$> rows df)
  else None.

End DataFrame.

Arguments DataFrame.len : simpl never.
Arguments DataFrame.empty : simpl never.
Arguments DataFrame.at_ : simpl never.
Arguments DataFrame.set_at : simpl never.
Arguments DataFrame.set_column : simpl never.
Arguments DataFrame.concat : simpl never.
Arguments DataFrame.iloc_to : simpl never.
Arguments DataFrame.getitem : simpl never.

(** ** The window *)

Inductive param := param_P | param_I | param_D.

(** The keys ['P'], ['I'], ['D'] of [pid_sliders], [pid_enabled] and
    [fixed_pid_values], also the labels of the gain columns. *)
Definition param_name (p : param) : string :=
  match p with
  | param_P => "P"
  | param_I => "I"
  | param_D => "D"
  end.

(** The two text fields of [pid_sliders[param]] that [get_pid_value_from_ui]
    reads, each as [float(text)] reads it: [None] when it raises
    [ValueError]. *)
Record slider := {
  value_label : option float;
  value_input : option float
}.

(** [QTimer]: the interval in milliseconds and whether it is firing. *)
Record QTimer := {
  interval : Z;
  isActive : bool
}.

(** One line per [print] of the modelled methods. *)
Inductive message :=
| msg_no_data               (* No hay datos para simular. *)
| msg_connecting            (* Intentando conectar a host:port... *)
| msg_connected             (* Conexión establecida. *)
| msg_waiting               (* Esperando datos... *)
| msg_closed_by_server      (* Conexión cerrada por el servidor. *)
| msg_chunk                 (* Datos recibidos: <text> (line 711) *)
| msg_json_error            (* Error al decodificar JSON *)
| msg_refused               (* Error: No se pudo conectar ... *)
| msg_socket_error (e : exn) (* Error en la conexión de socket: <e> *)
| msg_invalid_format        (* Formato de datos inválido *)
| msg_record.               (* Datos recibidos: <dict> (line 729) *)

(** The keys of [plot_lines] (line 392), and for each line whether it is
    shown (['visible']); every line is shown at first. *)
Inductive plot_name := plot_Esperado | plot_Real | plot_Error.

Record PlotLines := {
  Esperado_visible : bool;
  Real_visible : bool;
  Error_visible : bool
}.

(** [plot_lines[name]['visible']] *)
Definition visible (lines : PlotLines) (name : plot_name) : bool :=
  match name with
  | plot_Esperado => Esperado_visible lines
  | plot_Real => Real_visible lines
  | plot_Error => Error_visible lines
  end.

(** [plot_lines[name]['visible'] = b] *)
Definition set_visible (name : plot_name) (b : bool) (lines : PlotLines) : PlotLines :=
  match name with
  | plot_Esperado =>
      {| Esperado_visible := b; Real_visible := Real_visible lines;
         Error_visible := Error_visible lines |}
  | plot_Real =>
      {| Esperado_visible := Esperado_visible lines; Real_visible := b;
         Error_visible := Error_visible lines |}
  | plot_Error =>
      {| Esperado_visible := Esperado_visible lines;
         Real_visible := Real_visible lines; Error_visible := b |}
  end.

(** The attributes of [MainWindow] the engine uses, and the lines printed so
    far ([console], oldest first). *)
Record MainWindow := {
  simulation_data : DataFrame.t;
  fixed_pid_values : gmap string float;
  current_index : nat;
  previous_error : float;
  integral_error : float;
  timer : QTimer;
  pid_enabled : param → bool;
  pid_sliders : param → slider;
  plot_lines : PlotLines;
  running : bool;
  console : list message
}.

Definition set_simulation_data (df : DataFrame.t) (w : MainWindow) : MainWindow :=
  {| simulation_data := df; fixed_pid_values := fixed_pid_values w;
     current_index := current_index w; previous_error := previous_error w;
     integral_error := integral_error w; timer := timer w;
     pid_enabled := pid_enabled w; pid_sliders := pid_sliders w;
     plot_lines := plot_lines w;
     running := running w; console := console w |}.

Definition set_fixed_pid_values (m : gmap string float) (w : MainWindow) : MainWindow :=
  {| simulation_data := simulation_data w; fixed_pid_values := m;
     current_index := current_index w; previous_error := previous_error w;
     integral_error := integral_error w; timer := timer w;
     pid_enabled := pid_enabled w; pid_sliders := pid_sliders w;
     plot_lines := plot_lines w;
     running := running w; console := console w |}.

Definition set_current_index (i : nat) (w : MainWindow) : MainWindow :=
  {| simulation_data := simulation_data w; fixed_pid_values := fixed_pid_values w;
     current_index := i; previous_error := previous_error w;
     integral_error := integral_error w; timer := timer w;
     pid_enabled := pid_enabled w; pid_sliders := pid_sliders w;
     plot_lines := plot_lines w;
     running := running w; console := console w |}.

Definition set_previous_error (e : float) (w : MainWindow) : MainWindow :=
  {| simulation_data := simulation_data w; fixed_pid_values := fixed_pid_values w;
     current_index := current_index w; previous_error := e;
     integral_error := integral_error w; timer := timer w;
     pid_enabled := pid_enabled w; pid_sliders := pid_sliders w;
     plot_lines := plot_lines w;
     running := running w; console := console w |}.

Definition set_integral_error (e : float) (w : MainWindow) : MainWindow :=
  {| simulation_data := simulation_data w; fixed_pid_values := fixed_pid_values w;
     current_index := current_index w; previous_error := previous_error w;
     integral_error := e; timer := timer w;
     pid_enabled := pid_enabled w; pid_sliders := pid_sliders w;
     plot_lines := plot_lines w;
     running := running w; console := console w |}.

Definition set_timer_active (b : bool) (w : MainWindow) : MainWindow :=
  {| simulation_data := simulation_data w; fixed_pid_values := fixed_pid_values w;
     current_index := current_index w; previous_error := previous_error w;
     integral_error := integral_error w;
     timer := {| interval := interval (timer w); isActive := b |};
     pid_enabled := pid_enabled w; pid_sliders := pid_sliders w;
     plot_lines := plot_lines w;
     running := running w; console := console w |}.

Definition set_running (b : bool) (w : MainWindow) : MainWindow :=
  {| simulation_data := simulation_data w; fixed_pid_values := fixed_pid_values w;
     current_index := current_index w; previous_error := previous_error w;
     integral_error := integral_error w; timer := timer w;
     pid_enabled := pid_enabled w; pid_sliders := pid_sliders w;
     plot_lines := plot_lines w;
     running := b; console := console w |}.

Definition set_plot_lines (lines : PlotLines) (w : MainWindow) : MainWindow :=
  {| simulation_data := simulation_data w; fixed_pid_values := fixed_pid_values w;
     current_index := current_index w; previous_error := previous_error w;
     integral_error := integral_error w; timer := timer w;
     pid_enabled := pid_enabled w; pid_sliders := pid_sliders w;
     plot_lines := lines;
     running := running w; console := console w |}.

Definition print (m : message) (w : MainWindow) : MainWindow :=
  {| simulation_data := simulation_data w; fixed_pid_values := fixed_pid_values w;
     current_index := current_index w; previous_error := previous_error w;
     integral_error := integral_error w; timer := timer w;
     pid_enabled := pid_enabled w; pid_sliders := pid_sliders w;
     plot_lines := plot_lines w;
     running := running w; console := console w ++ [m] |}.

(** ** Methods as state transformers that may raise *)

Definition action (A : Type) : Type := MainWindow → result A * MainWindow.

#[export] Instance action_ret : MRet action := λ A a w, (Ok a, w).
#[export] Instance action_bind : MBind action := λ A B f m w,
  match m w with
  | (Ok a, w') => f a w'
  | (Raise e, w') => (Raise e, w')
  end.

Definition get : action MainWindow := λ w, (Ok w, w).
Definition modify (f : MainWindow → MainWindow) : action unit := λ w, (Ok tt, f w).
Definition raise {A} (e : exn) : action A := λ w, (Raise e, w).
Definition lift {A} (r : result A) : action A := λ w, (r, w).

(** [self.simulation_data.at[i, c]] *)
Definition read_at (i : nat) (c : string) : action float := λ w,
  match DataFrame.at_ (simulation_data w) i c with
  | Some v => (Ok v, w)
  | None => (Raise (KeyError c), w)
  end.

(** [self.simulation_data.at[i, c] = v] *)
Definition write_at (i : nat) (c : string) (v : float) : action unit :=
  modify (λ w, set_simulation_data (DataFrame.set_at (simulation_data w) i c v) w).

(** [self.fixed_pid_values.get(key, 0.0)] *)
Definition fixed_gain (w : MainWindow) (p : param) : float :=
  default 0%float (fixed_pid_values w !! param_name p).

(** ** MainWindow.update_plot (lines 491-567) *)

(** [update_plot] returns [None] on both of its paths; the embedding says
    which one was taken: the early [return] of line 505 ([Done]), or the end
    of the body after the row at [index] was processed and the cursor moved
    ([Advanced]). *)
Inductive TickResult :=
| Done
| Advanced (index : nat).

(** Line 523. *)
Definition derivative_error (dt error previous : float) : result float :=
  if (0 <? dt)%float then truediv (error - previous) dt else Ok 0%float.

(** Line 527. *)
Definition pid_output (Kp Ki Kd error integral derivative : float) : float :=
  ((Kp * error) + (Ki * integral) + (Kd * derivative))%float.

(** [line.setData(data[x], data[y])]: the two columns are looked up, [x]
    first; a missing one raises [KeyError].  (The curve is not kept.) *)
Definition setData (data : DataFrame.t) (x y : string) : action unit :=
  match DataFrame.getitem data x with
  | None => raise (KeyError x)
  | Some _ =>
      match DataFrame.getitem data y with
      | None => raise (KeyError y)
      | Some _ => mret tt
      end
  end.

(** Lines 547-560: the rows up to the one just processed are drawn on every
    line that is shown.  (The call of [update_table_row] that follows formats
    the floats of the row and cannot fail.) *)
Definition plot_current_data (index : nat) : action unit :=
  w ← get;
  let current_plot_data := DataFrame.iloc_to (simulation_data w) (index + 1) in
  (if visible (plot_lines w) plot_Esperado
   then setData current_plot_data "Time" "Setpoint" else mret tt);;
  (if visible (plot_lines w) plot_Real
   then setData current_plot_data "Time" "Valor Medido" else mret tt);;
  (if visible (plot_lines w) plot_Error
   then setData current_plot_data "Time" "Error" else mret tt).

(** The body of [update_plot] for a time step [dt]. *)
Definition update_plot_with (dt : float) : action TickResult :=
  w ← get;
  if DataFrame.empty (simulation_data w)
     || bool_decide (DataFrame.len (simulation_data w) ≤ current_index w)
  then
    modify (set_timer_active false);;
    mret Done
  else
    let index := current_index w in
    setpoint ← read_at index "Setpoint";
    measured_value ← read_at index "Valor Medido";
    let error := (setpoint - measured_value)%float in
    let Kp := fixed_gain w param_P in
    let Ki := fixed_gain w param_I in
    let Kd := fixed_gain w param_D in
    modify (λ w, set_integral_error (integral_error w + error * dt)%float w);;
    w1 ← get;
    derivative ← lift (derivative_error dt error (previous_error w1));
    let output := pid_output Kp Ki Kd error (integral_error w1) derivative in
    let new_measured_value := (measured_value + output * dt)%float in
    write_at index "Valor Medido" new_measured_value;;
    modify (set_previous_error error);;
    write_at index "Error" error;;
    plot_current_data index;;
    modify (set_current_index (index + 1));;
    mret (Advanced index).

(** Line 521: [dt = self.timer.interval() / 1000.0]. *)
Definition timer_dt (w : MainWindow) : float :=
  (float_of_Z (interval (timer w)) / 1000)%float.

(** [update_plot]: the step at the timer's interval.  (The source computes
    [dt] after the guard; the division by the constant 1000.0 neither fails
    nor changes anything, so it is taken first.) *)
Definition update_plot : action TickResult :=
  λ w, update_plot_with (timer_dt w) w.

(** ** The simulation controls (lines 307-325 and 599-679) *)

(** [get_pid_value_from_ui(param)]: the value shown for an enabled axis (the
    label, the input field when the label is no number, 0.0 when neither is),
    and 0.0 for a disabled one. *)
Definition get_pid_value_from_ui (w : MainWindow) (p : param) : float :=
  if pid_enabled w p then
    match value_label (pid_sliders w p) with
    | Some v => v
    | None =>
        match value_input (pid_sliders w p) with
        | Some v => v
        | None => 0%float
        end
    end
  else 0%float.

(** The items of the dict comprehension of lines 619-621, in its order. *)
Definition ui_pid_items (w : MainWindow) : list (param * float) :=
  (λ p, (p, get_pid_value_from_ui w p)) <$> [param_P; param_I; param_D].

(** The body of the loop of lines 624-626. *)
Definition fix_column (df : DataFrame.t) (item : param * float) : DataFrame.t :=
  if decide (param_name item.1 ∈ DataFrame.columns df)
  then DataFrame.set_column df (param_name item.1) item.2
  else df.

Definition start_simulation (w : MainWindow) : MainWindow :=
  if DataFrame.empty (simulation_data w) then print msg_no_data w
  else
    let w := set_timer_active true w in
    let items := ui_pid_items w in
    let w := set_fixed_pid_values (list_to_map (prod_map param_name id <$> items)) w in
    let w := set_simulation_data (foldl fix_column (simulation_data w) items) w in
    let w := set_previous_error 0%float w in
    let w := set_integral_error 0%float w in
    set_current_index 0 w.

Definition pause_simulation (w : MainWindow) : MainWindow :=
  set_timer_active false w.

(** [bool(state)] of an [int], and a [bool] as the [int] it is. *)
Definition truthy (state : Z) : bool := negb (state =? 0)%Z.

(** The column a line of the plot shows. *)
Definition line_column (name : plot_name) : string :=
  match name with
  | plot_Esperado => "Setpoint"
  | plot_Real => "Valor Medido"
  | plot_Error => "Error"
  end.

(** [toggle_plot_visibility(name, state)] (lines 359-373): the flag is set; a
    line that is shown is drawn from the rows before the cursor (from all
    rows for a cursor at 0) when the frame has the column of the line, with
    [Time] looked up first. *)
Definition toggle_plot_visibility (name : plot_name) (state : Z) : action unit :=
  modify (λ w, set_plot_lines (set_visible name (truthy state) (plot_lines w)) w);;
  w ← get;
  if negb (visible (plot_lines w) name) then mret tt
  else if bool_decide (0 < current_index w)
          || negb (DataFrame.empty (simulation_data w)) then
    let data_to_plot :=
      if bool_decide (0 < current_index w)
      then DataFrame.iloc_to (simulation_data w) (current_index w)
      else simulation_data w in
    if decide (line_column name ∈ DataFrame.columns data_to_plot)
    then setData data_to_plot "Time" (line_column name)
    else mret tt
  else mret tt.

(** Lines 677-679 of [reset_simulation]: every line is toggled to the state
    it has. *)
Definition redraw_plot_lines : action unit :=
  w ← get;
  toggle_plot_visibility plot_Esperado (Z.b2z (visible (plot_lines w) plot_Esperado));;
  w ← get;
  toggle_plot_visibility plot_Real (Z.b2z (visible (plot_lines w) plot_Real));;
  w ← get;
  toggle_plot_visibility plot_Error (Z.b2z (visible (plot_lines w) plot_Error)).

(** [reset_simulation]; the calls of its last three lines find an empty
    frame and the cursor at 0, so that none of them reads a column (lemma
    [reset_simulation_returns]). *)
Definition reset_simulation (w : MainWindow) : MainWindow :=
  let w := set_timer_active false w in
  let w := set_current_index 0 w in
  let w := set_previous_error 0%float w in
  let w := set_integral_error 0%float w in
  let w := set_fixed_pid_values ∅ w in
  let w := set_simulation_data DataFrame.new w in
  (redraw_plot_lines w).2.

(** ** The socket client (lines 686-737) *)

(** [process_received_data(json_data)]: a dict becomes a new last row of the
    frame, and [update_plot] is called on the result. *)
Definition process_received_data (json_data : json) : action unit :=
  match json_data with
  | json_other =>
      modify (print msg_invalid_format)
  | json_dict d =>
      modify (print msg_record);;
      let new_row := DataFrame.of_record d in
      modify (λ w, set_simulation_data
                     (DataFrame.concat (simulation_data w) new_row) w);;
      update_plot;;
      mret tt
  end.

(** What one [recv(1024)] returned, told apart by what the two library calls
    of the loop body make of it. *)
Inductive chunk :=
| chunk_empty             (* b'': the peer closed the stream *)
| chunk_not_utf8          (* data.decode('utf-8') raises UnicodeDecodeError *)
| chunk_not_json          (* the text decodes, json.loads raises JSONDecodeError *)
| chunk_json (v : json).  (* the text decodes and json.loads returns v *)

(** The [while self.running] loop over the chunks the socket delivers; when
    there are no more, the loop is left waiting in [recv]. *)
Fixpoint receive_loop (chunks : list chunk) : action unit :=
  w ← get;
  if running w then
    modify (print msg_waiting);;
    match chunks with
    | [] => mret tt
    | chunk_empty :: _ => modify (print msg_closed_by_server)
    | chunk_not_utf8 :: _ => raise UnicodeDecodeError
    | chunk_not_json :: rest =>
        modify (print msg_chunk);;
        modify (print msg_json_error);;
        receive_loop rest
    | chunk_json v :: rest =>
        modify (print msg_chunk);;
        process_received_data v;;
        receive_loop rest
    end
  else mret tt.

(** The outcome of [client_socket.connect]. *)
Inductive connection :=
| refused
| connected (chunks : list chunk).

(** [receive_data(host, port)]: both handlers of the outer [try] print and
    let the method return. *)
Definition receive_data (c : connection) (w : MainWindow) : MainWindow :=
  let w := print msg_connecting w in
  match c with
  | refused => print msg_refused w
  | connected chunks =>
      match receive_loop chunks (print msg_connected w) with
      | (Ok _, w') => w'
      | (Raise e, w') => print (msg_socket_error e) w'
      end
  end.

(** [start_socket_connection] followed by the body of the thread it starts. *)
Definition start_socket_connection (c : connection) (w : MainWindow) : MainWindow :=
  receive_data c (set_running true w).

(** [MainWindow.__init__] with [setup_simulation]: an empty frame, a timer of
    100 ms that is not started, every axis enabled with the label 0.50. *)
Definition init : MainWindow :=
  {| simulation_data := DataFrame.new; fixed_pid_values := ∅;
     current_index := 0; previous_error := 0%float; integral_error := 0%float;
     timer := {| interval := 100; isActive := false |};
     pid_enabled := λ _, true;
     pid_sliders := λ _, {| value_label := Some 0.5%float; value_input := Some 0.5%float |};
     plot_lines := {| Esperado_visible := true; Real_visible := true;
                     Error_visible := true |};
     running := false; console := [] |}.

(** ** server.py (lines 13-27) *)

(** The record [start_server] sends at the step [time_step]; the literals
    0.1, 0.05 and 0.01 are the binary64 numbers nearest to them, which the
    correctly rounded quotients below are. *)
Definition server_record (time_step : Z) : gmap string float :=
  let step := float_of_Z time_step in
  <["Time" := (step * (1 / 10))%float]>
    (<["Setpoint" := 50%float]>
       (<["Valor Medido" := (50 - step * 0.5)%float]>
          (<["Error" := (step * 0.5)%float]>
             (<["P" := (1 / 10)%float]>
                (<["I" := (5 / 100)%float]>
                   (<["D" := (1 / 100)%float]> ∅)))))).

(** * Derived definitions: the values of a step, runs, and the windows of the
    examples *)

(** The guard of line 493. *)
Definition finished (w : MainWindow) : bool :=
  DataFrame.empty (simulation_data w)
  || bool_decide (DataFrame.len (simulation_data w) ≤ current_index w).

(** The values of one pass through lines 507-532 on a row with the given
    set point and measured value, named after the variables of the source. *)
Section step_values.
Variables (dt setpoint measured_value : float) (w : MainWindow).

Definition step_error : float := (setpoint - measured_value)%float.

Definition step_integral : float :=
  (integral_error w + step_error * dt)%float.

Definition step_derivative : float :=
  if (0 <? dt)%float then ((step_error - previous_error w) / dt)%float
  else 0%float.

Definition step_output : float :=
  pid_output (fixed_gain w param_P) (fixed_gain w param_I) (fixed_gain w param_D)
             step_error step_integral step_derivative.

Definition step_measured : float := (measured_value + step_output * dt)%float.

(** The window that lines 522-544 leave behind: the row written, the cursor
    where it was. *)
Definition step_written : MainWindow :=
  let index := current_index w in
  let df := DataFrame.set_at (simulation_data w) index "Valor Medido" step_measured in
  let df := DataFrame.set_at df index "Error" step_error in
  set_simulation_data df
    (set_previous_error step_error
       (set_integral_error step_integral w)).

(** The window that lines 522-567 leave behind. *)
Definition step_window : MainWindow :=
  set_current_index (current_index w + 1) step_written.
End step_values.

(** Some line of the plot is shown. *)
Definition plots_shown (w : MainWindow) : bool :=
  visible (plot_lines w) plot_Esperado
  || visible (plot_lines w) plot_Real
  || visible (plot_lines w) plot_Error.

(** The lines that are shown find the column [Time]: the frame has it, or no
    line is shown. *)
Definition plot_reads_ok (w : MainWindow) : bool :=
  negb (plots_shown w) || bool_decide ("Time" ∈ DataFrame.columns (simulation_data w)).

(** [n] firings of the timer, each calling the step with the time step [dt].
    (An exception of the slot does not stop the Qt event loop; the window is
    as the step left it.) *)
Fixpoint run_ticks (dt : float) (n : nat) (w : MainWindow) : MainWindow :=
  match n with
  | 0 => w
  | S n' => run_ticks dt n' (update_plot_with dt w).2
  end.

(** The frame after the loop of lines 624-626. *)
Definition fixed_frame (w : MainWindow) : DataFrame.t :=
  foldl fix_column (simulation_data w) (ui_pid_items w).

(** The window a start on a frame with data leaves behind. *)
Definition started (w : MainWindow) : MainWindow :=
  {| simulation_data := fixed_frame w;
     fixed_pid_values :=
       list_to_map (prod_map param_name id <$> ui_pid_items w);
     current_index := 0; previous_error := 0%float; integral_error := 0%float;
     timer := {| interval := interval (timer w); isActive := true |};
     pid_enabled := pid_enabled w; pid_sliders := pid_sliders w;
     plot_lines := plot_lines w;
     running := running w; console := console w |}.

(** The window after lines 729-733: the record printed and appended. *)
Definition appended (d : gmap string float) (w : MainWindow) : MainWindow :=
  set_simulation_data (DataFrame.concat (simulation_data w) (DataFrame.of_record d))
                      (print msg_record w).

(** The column of a gain holds the gain of the run in every row. *)
Definition gain_recorded (p : param) (w : MainWindow) : Prop :=
  ∀ i, i < DataFrame.len (simulation_data w) →
       DataFrame.at_ (simulation_data w) i (param_name p) = Some (fixed_gain w p).

(** The cursor is never past the end of the frame. *)
Definition cursor_in_range (w : MainWindow) : Prop :=
  current_index w ≤ DataFrame.len (simulation_data w).

(** [n] additions of [e * dt] to an accumulator, each one rounded: what
    line 522 does over [n] steps that see the error [e]. *)
Definition accumulate (e dt : float) (n : nat) (acc : float) : float :=
  Nat.iter n (λ a, (a + e * dt)%float) acc.

(** ** Windows and records of the examples *)

(** A frame of one row [{Time: 0, Setpoint: 50, Valor Medido: 40}], P enabled
    with the label 1.00, I and D disabled (their labels show 0.00), the timer
    at its 100 ms. *)
Definition scenario_row : gmap string float :=
  <["Time" := 0%float]>
    (<["Setpoint" := 50%float]> (<["Valor Medido" := 40%float]> ∅)).

Definition scenario_window : MainWindow :=
  {| simulation_data := DataFrame.of_record scenario_row;
     fixed_pid_values := ∅;
     current_index := 0; previous_error := 0%float; integral_error := 0%float;
     timer := {| interval := 100; isActive := false |};
     pid_enabled := λ p, match p with param_P => true | _ => false end;
     pid_sliders := λ p,
       match p with
       | param_P => {| value_label := Some 1%float; value_input := Some 1%float |}
       | _ => {| value_label := Some 0%float; value_input := Some 0%float |}
       end;
     plot_lines := {| Esperado_visible := true; Real_visible := true;
                     Error_visible := true |};
     running := false; console := [] |}.

(** A second row for the scenario, and the frame of both. *)
Definition second_row : gmap string float :=
  <["Time" := 1%float]>
    (<["Setpoint" := 50%float]> (<["Valor Medido" := 45%float]> ∅)).

Definition two_row_window : MainWindow :=
  set_simulation_data
    (DataFrame.concat (DataFrame.of_record scenario_row)
                      (DataFrame.of_record second_row))
    scenario_window.

(** The first record the test server sends. *)
Definition full_record : gmap string float := server_record 0.

(** A record without the gain fields. *)
Definition partial_record : gmap string float :=
  <["Time" := 1%float]>
    (<["Setpoint" := 50%float]>
       (<["Valor Medido" := 45%float]> (<["Error" := 5%float]> ∅))).

(** The first two records of the server as a frame of two rows, which carry
    gain fields of their own. *)
Definition second_full_record : gmap string float := server_record 1.

Definition full_window : MainWindow :=
  set_simulation_data
    (DataFrame.concat (DataFrame.of_record full_record)
                      (DataFrame.of_record second_full_record))
    scenario_window.

(** Six rows with the set point 1 and the measured value 0; only I enabled,
    with the label 1.00. *)
Definition constant_error_row (k : nat) : gmap string float :=
  <["Time" := float_of_Z (Z.of_nat k)]>
    (<["Setpoint" := 1%float]> (<["Valor Medido" := 0%float]> ∅)).

Definition constant_error_window : MainWindow :=
  {| simulation_data :=
       DataFrame.mk (list_to_set ["Time"; "Setpoint"; "Valor Medido"])
                    (constant_error_row <$> seq 0 6);
     fixed_pid_values := ∅;
     current_index := 0; previous_error := 0%float; integral_error := 0%float;
     timer := {| interval := 100; isActive := false |};
     pid_enabled := λ p, match p with param_I => true | _ => false end;
     pid_sliders := λ p,
       match p with
       | param_I => {| value_label := Some 1%float; value_input := Some 1%float |}
       | _ => {| value_label := Some 0%float; value_input := Some 0%float |}
       end;
     plot_lines := {| Esperado_visible := true; Real_visible := true;
                     Error_visible := true |};
     running := false; console := [] |}.

(** ** The control law as a recurrence over samples *)

(** The errors and measured values that lines 512-532 produce over a list of
    samples (set point, measured value), from a previous error and an
    integral: one pair (error, new measured value) per sample. *)
Fixpoint pid_trace (Kp Ki Kd dt previous integral : float)
    (samples : list (float * float)) : list (float * float) :=
  match samples with
  | [] => []
  | (setpoint, measured) :: rest =>
      let error := (setpoint - measured)%float in
      let integral' := (integral + error * dt)%float in
      let derivative :=
        if (0 <? dt)%float then ((error - previous) / dt)%float else 0%float in
      let output := pid_output Kp Ki Kd error integral' derivative in
      (error, (measured + output * dt)%float)
        :: pid_trace Kp Ki Kd dt error integral' rest
  end.

(** The previous error and the integral after the samples. *)
Fixpoint pid_final (dt previous integral : float)
    (samples : list (float * float)) : float * float :=
  match samples with
  | [] => (previous, integral)
  | (setpoint, measured) :: rest =>
      let error := (setpoint - measured)%float in
      pid_final dt error (integral + error * dt)%float rest
  end.

(** ** What a stream of chunks amounts to *)

(** The frame has the two columns a step reads and the one the shown lines
    read, and the cursor is within it. *)
Definition feed_ready (w : MainWindow) : Prop :=
  cursor_in_range w
  ∧ "Setpoint" ∈ DataFrame.columns (simulation_data w)
  ∧ "Valor Medido" ∈ DataFrame.columns (simulation_data w)
  ∧ plot_reads_ok w = true.

(** The dicts among the chunks that come before the first empty chunk or
    chunk that is not UTF-8. *)
Fixpoint records_before_stop (chunks : list chunk) : nat :=
  match chunks with
  | [] => 0
  | chunk_empty :: _ => 0
  | chunk_not_utf8 :: _ => 0
  | chunk_not_json :: rest => records_before_stop rest
  | chunk_json (json_dict _) :: rest => S (records_before_stop rest)
  | chunk_json json_other :: rest => records_before_stop rest
  end.

(** Whether a chunk that is not UTF-8 comes before any empty chunk. *)
Fixpoint stops_undecodable (chunks : list chunk) : bool :=
  match chunks with
  | [] => false
  | chunk_empty :: _ => false
  | chunk_not_utf8 :: _ => true
  | _ :: rest => stops_undecodable rest
  end.

(** The chunks of the records the server sends at the given steps. *)
Definition server_feed (steps : list Z) : list chunk :=
  (λ k, chunk_json (json_dict (server_record k))) <$> steps.

(** What a connection may change of a window: the frame only grows, the
    cursor only moves forward, the rows before the cursor keep their cells,
    the console only gets longer, and the gains, the timer's interval, the
    UI, the lines shown and the socket flag are untouched. *)
Definition extended_by (w w' : MainWindow) : Prop :=
  DataFrame.len (simulation_data w) ≤ DataFrame.len (simulation_data w')
  ∧ current_index w ≤ current_index w'
  ∧ (∀ i c v, i < current_index w →
       DataFrame.at_ (simulation_data w) i c = Some v →
       DataFrame.at_ (simulation_data w') i c = Some v)
  ∧ DataFrame.columns (simulation_data w) ⊆ DataFrame.columns (simulation_data w')
  ∧ console w `prefix_of` console w'
  ∧ fixed_pid_values w' = fixed_pid_values w
  ∧ interval (timer w') = interval (timer w)
  ∧ pid_enabled w' = pid_enabled w
  ∧ pid_sliders w' = pid_sliders w
  ∧ plot_lines w' = plot_lines w
  ∧ running w' = running w.

(** No line of the messages reports a socket error. *)
Definition no_socket_error (msgs : list message) : Prop :=
  Forall (λ m, ∀ e, m ≠ msg_socket_error e) msgs.

(** ** The PID controls (lines 142-325) *)

(** *** Texts and numbers *)

(** [float(f"{v:.2f}")]: the number a label shows for [v].  The format
    rounds the exact value of [v] to hundredths, ties to even, and [float]
    reads the nearest binary64 back; NaN, the infinities and the zeros are
    shown as such. *)
Definition hundredths (m : positive) (e : Z) : Z :=
  let scaled := (100 * Zpos m)%Z in
  match e with
  | Zneg k =>
      let unit := Z.pow_pos 2 k in
      let q := (scaled / unit)%Z in
      let r := (scaled mod unit)%Z in
      match (2 * r ?= unit)%Z with
      | Lt => q
      | Gt => (q + 1)%Z
      | Eq => if Z.even q then q else (q + 1)%Z
      end
  | _ => (scaled * 2 ^ e)%Z
  end.

Definition two_decimals (v : float) : float :=
  match Prim2SF v with
  | S754_finite s m e =>
      match hundredths m e with
      | Zpos n =>
          SF2Prim (SFdiv prec emax (S754_finite s n 0) (S754_finite false 100 0))
      | _ => if s then (-0)%float else 0%float
      end
  | _ => v
  end.

(** [int(v)] of a float: the integer part, [ValueError] for NaN and
    [OverflowError] for an infinity. *)
Inductive int_result :=
| int_ok (n : Z)
| int_value_error
| int_overflow_error.

Definition int_of_float (v : float) : int_result :=
  match Prim2SF v with
  | S754_zero _ => int_ok 0
  | S754_finite s m e =>
      let n := match e with
               | Zneg k => (Zpos m / Z.pow_pos 2 k)%Z
               | _ => (Zpos m * 2 ^ e)%Z
               end in
      int_ok (if s then (- n)%Z else n)
  | S754_nan => int_value_error
  | S754_infinity _ => int_overflow_error
  end.

(** The content of a min or max field as lines 216-220 read it: empty, a text
    [float] accepts (with its value), or any other text. *)
Inductive text :=
| text_empty
| text_number (v : float)
| text_other.

(** [float(s) if s else default]; [None] is the [ValueError]. *)
Definition read_bound (s : text) (default : float) : option float :=
  match s with
  | text_empty => Some default
  | text_number v => Some v
  | text_other => None
  end.

(** *** The widgets *)

(** What the handlers use of the widgets of one axis besides the label and
    the value field (which [pid_sliders] of the window holds): the position
    of the slider, whether its signals are blocked, and the two bounds. *)
Record axis_widgets := {
  slider_value : Z;
  slider_blocked : bool;
  min_input : text;
  max_input : text
}.

Record Controls := {
  window : MainWindow;
  widgets : param → axis_widgets
}.

#[export] Instance param_eq_dec : EqDecision param.
Proof. solve_decision. Defined.

Definition set_pid_enabled (p : param) (b : bool) (w : MainWindow) : MainWindow :=
  {| simulation_data := simulation_data w; fixed_pid_values := fixed_pid_values w;
     current_index := current_index w; previous_error := previous_error w;
     integral_error := integral_error w; timer := timer w;
     pid_enabled := λ q, if decide (q = p) then b else pid_enabled w q;
     pid_sliders := pid_sliders w;
     plot_lines := plot_lines w;
     running := running w; console := console w |}.

Definition set_pid_slider (p : param) (s : slider) (w : MainWindow) : MainWindow :=
  {| simulation_data := simulation_data w; fixed_pid_values := fixed_pid_values w;
     current_index := current_index w; previous_error := previous_error w;
     integral_error := integral_error w; timer := timer w;
     pid_enabled := pid_enabled w;
     pid_sliders := λ q, if decide (q = p) then s else pid_sliders w q;
     plot_lines := plot_lines w;
     running := running w; console := console w |}.

Definition set_window (w : MainWindow) (c : Controls) : Controls :=
  {| window := w; widgets := widgets c |}.

Definition set_axis_widgets (p : param) (a : axis_widgets) (c : Controls) : Controls :=
  {| window := window c;
     widgets := λ q, if decide (q = p) then a else widgets c q |}.

(** [value_label.setText(f"{v:.2f}")] *)
Definition set_value_label (p : param) (v : float) (w : MainWindow) : MainWindow :=
  set_pid_slider p {| value_label := Some (two_decimals v);
                      value_input := value_input (pid_sliders w p) |} w.

(** [value_input.setText(f"{v:.2f}")] *)
Definition set_value_input (p : param) (v : float) (w : MainWindow) : MainWindow :=
  set_pid_slider p {| value_label := value_label (pid_sliders w p);
                      value_input := Some (two_decimals v) |} w.

(** [slider.blockSignals(b)] *)
Definition block_slider (p : param) (b : bool) (c : Controls) : Controls :=
  set_axis_widgets p {| slider_value := slider_value (widgets c p);
                        slider_blocked := b;
                        min_input := min_input (widgets c p);
                        max_input := max_input (widgets c p) |} c.

(** [slider.setValue(n)]: Qt keeps the value within the range 0..100 of
    line 171.  (An integer too large for the C [int] of the call is kept
    within the range as well here.) *)
Definition set_slider_value (p : param) (n : Z) (c : Controls) : Controls :=
  set_axis_widgets p {| slider_value := Z.max 0 (Z.min 100 n);
                        slider_blocked := slider_blocked (widgets c p);
                        min_input := min_input (widgets c p);
                        max_input := max_input (widgets c p) |} c.

(** *** The handlers *)

(** [update_pid_in_simulation_data(param_name, value)] (lines 287-293): the
    column of the axis is set to the value in every row, and made if the
    frame lacks it; an empty frame is left alone. *)
Definition update_pid_in_simulation_data (p : param) (value : float)
    (w : MainWindow) : MainWindow :=
  if DataFrame.empty (simulation_data w) then w
  else set_simulation_data
         (DataFrame.set_column (simulation_data w) (param_name p) value) w.

(** Lines 216-222: the two bounds, read and put in order; [None] when one of
    them is no number. *)
Definition read_bounds (a : axis_widgets) : option (float * float) :=
  match read_bound (min_input a) 0%float, read_bound (max_input a) 1%float with
  | Some min_val, Some max_val =>
      Some (if (max_val <? min_val)%float then (max_val, min_val)
            else (min_val, max_val))
  | _, _ => None
  end.

(** Line 224, and line 236 when a bound cannot be read. *)
Definition slider_to_value (a : axis_widgets) (slider_position : Z) : float :=
  match read_bounds a with
  | Some (min_val, max_val) =>
      (min_val + (float_of_Z slider_position / 100) * (max_val - min_val))%float
  | None => (float_of_Z slider_position / 100)%float
  end.

(** [update_pid_from_slider(param, slider_position_0_100)] (lines 207-241).
    For a disabled axis both texts become 0.00; the change of the value
    field calls [update_pid_from_value_input], which returns at once for a
    disabled axis.  For an enabled axis the value field is set with its
    signals blocked. *)
Definition update_pid_from_slider (p : param) (slider_position : Z)
    (c : Controls) : Controls :=
  let w := window c in
  if pid_enabled w p then
    let value := slider_to_value (widgets c p) slider_position in
    let w := set_value_label p value w in
    let w := set_value_input p value w in
    set_window (update_pid_in_simulation_data p value w) c
  else
    let w := set_value_label p 0%float w in
    let w := set_value_input p 0%float w in
    set_window (update_pid_in_simulation_data p 0%float w) c.

(** How a slot ends: it returns, or an exception leaves it. *)
Inductive slot_end :=
| slot_returned
| slot_raised_overflow_error
| slot_raised_zero_division_error.

(** What lines 263-271 make of a typed value: a position for the slider, or
    the exception of line 270 or 271. *)
Inductive position :=
| position_at (n : Z)
| position_value_error
| position_overflow_error
| position_zero_division_error.

Definition value_to_position (min_val max_val actual_value : float) : position :=
  if (max_val =? min_val)%float then
    position_at (if (actual_value <=? min_val)%float then 0 else 100)
  else if (actual_value <=? min_val)%float then position_at 0
  else if (max_val <=? actual_value)%float then position_at 100
  else
    match truediv (actual_value - min_val) (max_val - min_val) with
    | Raise _ => position_zero_division_error
    | Ok proportion =>
        match int_of_float (proportion * 100) with
        | int_ok n => position_at n
        | int_value_error => position_value_error
        | int_overflow_error => position_overflow_error
        end
    end.

(** [update_pid_from_value_input(param, text_value)] (lines 243-279), with
    [text_value] as [float] reads it.  A [ValueError] anywhere in the [try]
    ends the handler where it stands: after the label was set when a bound
    cannot be read, and with the signals of the slider still blocked when
    the position is no number; the other exceptions leave the handler from
    the same place. *)
Definition update_pid_from_value_input (p : param) (text_value : option float)
    (c : Controls) : slot_end * Controls :=
  if pid_enabled (window c) p then
    match text_value with
    | None => (slot_returned, c)
    | Some actual_value =>
        let c := set_window (set_value_label p actual_value (window c)) c in
        match read_bounds (widgets c p) with
        | None => (slot_returned, c)
        | Some (min_val, max_val) =>
            let c := block_slider p true c in
            match value_to_position min_val max_val actual_value with
            | position_at n =>
                let c := set_slider_value p n c in
                let c := block_slider p false c in
                (slot_returned,
                 set_window
                   (update_pid_in_simulation_data p actual_value (window c)) c)
            | position_value_error => (slot_returned, c)
            | position_overflow_error => (slot_raised_overflow_error, c)
            | position_zero_division_error =>
                (slot_raised_zero_division_error, c)
            end
        end
    end
  else (slot_returned, c).

(** [update_pid_from_settings(param)] (lines 281-285) *)
Definition update_pid_from_settings (p : param) (c : Controls) : Controls :=
  update_pid_from_slider p (slider_value (widgets c p)) c.

(** [toggle_pid_component(param, state)] (lines 296-304); [bool(state)] is
    whether the state is not 0. *)
Definition toggle_pid_component (p : param) (state : Z) (c : Controls) : Controls :=
  let is_checked := negb (state =? 0)%Z in
  let c := set_window (set_pid_enabled p is_checked (window c)) c in
  update_pid_from_slider p (slider_value (widgets c p)) c.



(** The user changes the text of the value field: the signal [textChanged]
    of line 178 calls [update_pid_from_value_input] with the new text. *)
Definition value_input_edited (p : param) (text_value : option float)
    (c : Controls) : slot_end * Controls :=
  let w := window c in
  let w := set_pid_slider p {| value_label := value_label (pid_sliders w p);
                               value_input := text_value |} w in
  update_pid_from_value_input p text_value (set_window w c).

(** The controls as [create_control_section] leaves them around a window:
    the sliders at 50, no bound given. *)
Definition init_controls (w : MainWindow) : Controls :=
  {| window := w;
     widgets := λ _, {| slider_value := 50; slider_blocked := false;
                        min_input := text_empty; max_input := text_empty |} |}.

(** ** The lines of the plot *)

(** The user unchecks the three lines, one after the other (the state of an
    unchecked box is 0). *)
Definition hide_every_line : action unit :=
  toggle_plot_visibility plot_Esperado 0;;
  toggle_plot_visibility plot_Real 0;;
  toggle_plot_visibility plot_Error 0.

(** One more pass of lines 507-544 over the same row, whose set point is
    [setpoint]: from the measured value, the previous error and the integral
    to the next ones. *)
Definition reprocess (Kp Ki Kd dt setpoint : float)
    (state : float * float * float) : float * float * float :=
  let '(measured, previous, integral) := state in
  let error := (setpoint - measured)%float in
  let integral' := (integral + error * dt)%float in
  let derivative :=
    if (0 <? dt)%float then ((error - previous) / dt)%float else 0%float in
  ((measured + pid_output Kp Ki Kd error integral' derivative * dt)%float,
   error, integral').

(** The scenario received without a time stamp. *)
Definition row_without_time : gmap string float :=
  <["Setpoint" := 50%float]> (<["Valor Medido" := 40%float]> ∅).

Definition window_without_time : MainWindow :=
  set_simulation_data (DataFrame.of_record row_without_time) scenario_window.

(** ** Shapes of frames and of numbers *)

(** Every row has a cell for every column of the frame, and no other. *)
Definition rectangular (df : DataFrame.t) : Prop :=
  Forall (λ r : gmap string float, dom r = DataFrame.columns df) (DataFrame.rows df).

(** A zero or another finite number, and a zero. *)
Definition is_finite (x : float) : bool :=
  match Prim2SF x with
  | S754_zero _ | S754_finite _ _ _ => true
  | _ => false
  end.

Definition is_zero (x : float) : bool :=
  match Prim2SF x with
  | S754_zero _ => true
  | _ => false
  end.

(** The bounds with their texts exchanged. *)
Definition exchange_bounds (p : param) (c : Controls) : Controls :=
  set_axis_widgets p {| slider_value := slider_value (widgets c p);
                        slider_blocked := slider_blocked (widgets c p);
                        min_input := max_input (widgets c p);
                        max_input := min_input (widgets c p) |} c.

(** A frame whose first row was received without a set point, and a second
    row: the window of a run on it. *)
Definition row_without_setpoint : gmap string float :=
  <["Time" := 0%float]> (<["Valor Medido" := 40%float]> ∅).

Definition window_without_setpoint : MainWindow :=
  set_simulation_data
    (DataFrame.concat (DataFrame.of_record row_without_setpoint)
                      (DataFrame.of_record second_row))
    scenario_window.

(** * Properties *)

(** ** Comparisons of floats *)

Section float_order.

(** A time step that is greater than zero is not zero: the division of
    line 523 is only reached with a divisor Python accepts. *)
Lemma positive_not_zero (dt : float) :
  (0 <? dt)%float = true → (dt =? 0)%float = false.
Proof.
  rewrite FloatAxioms.ltb_spec, FloatAxioms.eqb_spec.
  change (Prim2SF 0) with (S754_zero false).
  destruct (Prim2SF dt) as [s|s| |s m e]; try destruct s; cbn; congruence.
Qed.

(** [dt <= 0] excludes [dt > 0]. *)
Lemma nonpositive_not_positive (dt : float) :
  (dt <=? 0)%float = true → (0 <? dt)%float = false.
Proof.
  rewrite FloatAxioms.ltb_spec, FloatAxioms.leb_spec.
  change (Prim2SF 0) with (S754_zero false).
  destruct (Prim2SF dt) as [s|s| |s m e]; try destruct s; cbn; congruence.
Qed.

Lemma truediv_positive (x dt : float) :
  (0 <? dt)%float = true → truediv x dt = Ok (x / dt)%float.
Proof. intros H. unfold truediv. by rewrite (positive_not_zero _ H). Qed.

(** Line 523 always yields a number. *)
Lemma derivative_error_total (dt error previous : float) :
  derivative_error dt error previous =
  Ok (if (0 <? dt)%float then ((error - previous) / dt)%float else 0%float).
Proof.
  unfold derivative_error.
  destruct (0 <? dt)%float eqn:Hdt; [by apply truediv_positive | done].
Qed.

End float_order.

(** ** Cells of a frame under the operations of the program *)

Module DataFrameFacts.
Import DataFrame.

Lemma reindex_lookup_Some cols (r : gmap string float) c v :
  r !! c = Some v → reindex cols r !! c = Some v.
Proof. intros H. unfold reindex. by apply lookup_union_Some_l. Qed.

Lemma reindex_lookup_nan cols (r : gmap string float) c :
  r !! c = None → c ∈ cols → reindex cols r !! c = Some nan.
Proof.
  intros H Hc. unfold reindex. rewrite lookup_union_r by done.
  by apply lookup_gset_to_gmap_Some.
Qed.

Lemma reindex_lookup_None cols (r : gmap string float) c :
  r !! c = None → c ∉ cols → reindex cols r !! c = None.
Proof.
  intros H Hc. unfold reindex. rewrite lookup_union_r by done.
  by apply lookup_gset_to_gmap_None.
Qed.

Lemma at_Some df i c v :
  at_ df i c = Some v ↔
  c ∈ columns df ∧ ∃ r, rows df !! i = Some r ∧ r !! c = Some v.
Proof.
  unfold at_. case_decide as Hc.
  - destruct (rows df !! i) as [r|] eqn:Hr; unfold concat, set_at, set_column, of_record; cbn.
    + split; [intros Hv; eauto | by intros (_ & r' & [= <-] & Hv)].
    + split; [done | by intros (_ & r' & [=] & _)].
  - split; [done | by intros [? _]].
Qed.

Lemma at_lt df i c v : at_ df i c = Some v → i < len df.
Proof.
  rewrite at_Some. intros (_ & r & Hr & _). by eapply lookup_lt_Some.
Qed.

Lemma at_absent df i c : c ∉ columns df → at_ df i c = None.
Proof. intros H. unfold at_. by case_decide. Qed.

Lemma len_concat df d : len (concat df (of_record d)) = S (len df).
Proof.
  unfold len, concat. unfold concat, set_at, set_column, of_record; cbn. rewrite length_fmap, length_app. unfold concat, set_at, set_column, of_record; cbn. lia.
Qed.

Lemma columns_concat df d :
  columns (concat df (of_record d)) = columns df ∪ dom d.
Proof. unfold concat, of_record. done. Qed.

(** Appending keeps the cells of the rows already there. *)
Lemma at_concat_old df d i c v :
  at_ df i c = Some v → at_ (concat df (of_record d)) i c = Some v.
Proof.
  rewrite !at_Some. intros (Hc & r & Hr & Hv). split; [set_solver |].
  exists (reindex (columns df ∪ dom d) r). split.
  - unfold concat, set_at, set_column, of_record; cbn. rewrite list_lookup_fmap, lookup_app_l by by eapply lookup_lt_Some.
    by rewrite Hr.
  - by apply reindex_lookup_Some.
Qed.

Lemma concat_last_row df d :
  rows (concat df (of_record d)) !! len df =
  Some (reindex (columns df ∪ dom d) d).
Proof.
  unfold concat, set_at, set_column, of_record; cbn. rewrite list_lookup_fmap. unfold len.
  by rewrite lookup_app_r, Nat.sub_diag by lia.
Qed.

(** The appended row: the values of the record ... *)
Lemma at_concat_new_given df d c v :
  d !! c = Some v → at_ (concat df (of_record d)) (len df) c = Some v.
Proof.
  intros Hv. apply at_Some. split.
  - rewrite columns_concat. apply elem_of_union_r, elem_of_dom. by eexists.
  - eexists. split; [apply concat_last_row |]. by apply reindex_lookup_Some.
Qed.

(** ... NaN in a column of the frame the record has no value for ... *)
Lemma at_concat_new_missing df d c :
  d !! c = None → c ∈ columns df →
  at_ (concat df (of_record d)) (len df) c = Some nan.
Proof.
  intros Hv Hc. apply at_Some. split; [set_solver |].
  eexists. split; [apply concat_last_row |].
  apply reindex_lookup_nan; [done | set_solver].
Qed.

(** ... and no cell where neither has the column. *)
Lemma at_concat_new_absent df d c i :
  d !! c = None → c ∉ columns df →
  at_ (concat df (of_record d)) i c = None.
Proof.
  intros Hv Hc. apply at_absent. rewrite columns_concat.
  apply not_elem_of_dom in Hv. by rewrite not_elem_of_union.
Qed.

Lemma len_set_at df i c v : len (set_at df i c v) = len df.
Proof. unfold len, set_at. unfold concat, set_at, set_column, of_record; cbn. by rewrite length_alter, length_fmap. Qed.

Lemma at_set_at_eq df i c v :
  i < len df → at_ (set_at df i c v) i c = Some v.
Proof.
  intros Hi. apply at_Some. split; [set_solver |].
  destruct (lookup_lt_is_Some_2 (rows df) i Hi) as [r Hr].
  exists (<[c:=v]> (reindex ({[c]} ∪ columns df) r)). split.
  - unfold concat, set_at, set_column, of_record; cbn. by rewrite list_lookup_alter_eq, list_lookup_fmap, Hr.
  - by rewrite lookup_insert_eq.
Qed.

(** A write leaves every other cell with its value. *)
Lemma at_set_at_other df i c v j c' x :
  j ≠ i ∨ c' ≠ c →
  at_ df j c' = Some x → at_ (set_at df i c v) j c' = Some x.
Proof.
  intros Hne. rewrite !at_Some. intros (Hc & r & Hr & Hx).
  split; [by apply elem_of_union_r |]. unfold concat, set_at, set_column, of_record; cbn.
  destruct (decide (j = i)) as [->|Hji].
  - exists (<[c:=v]> (reindex ({[c]} ∪ columns df) r)). split.
    + by rewrite list_lookup_alter_eq, list_lookup_fmap, Hr.
    + destruct Hne as [|Hcc]; [done |].
      rewrite lookup_insert_ne by done. by apply reindex_lookup_Some.
  - exists (reindex ({[c]} ∪ columns df) r). split.
    + by rewrite list_lookup_alter_ne, list_lookup_fmap, Hr by done.
    + by apply reindex_lookup_Some.
Qed.

(** A write makes no column but its own. *)
Lemma at_set_at_absent df i c v j c' :
  c' ≠ c → c' ∉ columns df → at_ (set_at df i c v) j c' = None.
Proof.
  intros Hne Hc. apply at_absent. unfold concat, set_at, set_column, of_record; cbn.
  by rewrite not_elem_of_union, elem_of_singleton.
Qed.

Lemma len_set_column df c v : len (set_column df c v) = len df.
Proof. unfold len, set_column. unfold concat, set_at, set_column, of_record; cbn. by rewrite length_fmap. Qed.

Lemma at_set_column_eq df c v i :
  i < len df → at_ (set_column df c v) i c = Some v.
Proof.
  intros Hi. apply at_Some. split; [set_solver |].
  destruct (lookup_lt_is_Some_2 (rows df) i Hi) as [r Hr].
  exists (<[c:=v]> r). split.
  - unfold concat, set_at, set_column, of_record; cbn. by rewrite list_lookup_fmap, Hr.
  - by rewrite lookup_insert_eq.
Qed.

Lemma at_set_column_ne df c v i c' :
  c' ≠ c → at_ (set_column df c v) i c' = at_ df i c'.
Proof.
  intros Hne. unfold at_, set_column. unfold concat, set_at, set_column, of_record; cbn.
  assert (c' ∈ {[c]} ∪ columns df ↔ c' ∈ columns df) as Hcols.
  { rewrite elem_of_union, elem_of_singleton. tauto. }
  rewrite list_lookup_fmap.
  destruct (rows df !! i) as [r|]; unfold concat, set_at, set_column, of_record; cbn.
  - rewrite lookup_insert_ne by done. repeat case_decide; tauto.
  - repeat case_decide; tauto.
Qed.

Lemma empty_false df :
  empty df = false ↔ rows df ≠ [] ∧ columns df ≠ ∅.
Proof.
  unfold empty. rewrite orb_false_iff, !bool_decide_eq_false. done.
Qed.

End DataFrameFacts.

(** ** One control step *)

Section update_plot_facts.
Import DataFrame DataFrameFacts.

Lemma at_not_empty df i c v : at_ df i c = Some v → empty df = false.
Proof.
  rewrite at_Some, empty_false. intros (Hc & r & Hr & _). split.
  - intros Hnil. by rewrite Hnil in Hr.
  - intros Hnil. rewrite Hnil in Hc. by apply not_elem_of_empty in Hc.
Qed.

Lemma finished_false_of_at w c v :
  at_ (simulation_data w) (current_index w) c = Some v → finished w = false.
Proof.
  intros H. unfold finished.
  rewrite (at_not_empty _ _ _ _ H). cbn.
  apply bool_decide_eq_false. apply at_lt in H. lia.
Qed.

(** Past the last row, or on an empty frame: the timer is stopped and
    nothing else happens. *)
Lemma update_plot_with_done dt w :
  finished w = true →
  update_plot_with dt w = (Ok Done, set_timer_active false w).
Proof.
  intros H. unfold update_plot_with, finished in *.
  unfold mbind, action_bind, get. by rewrite H.
Qed.

Lemma columns_iloc_to df k : columns (iloc_to df k) = columns df.
Proof. done. Qed.

Lemma getitem_Some df c : c ∈ columns df → is_Some (getitem df c).
Proof. intros H. unfold getitem. by rewrite decide_True. Qed.

Lemma getitem_None df c : c ∉ columns df → getitem df c = None.
Proof. intros H. unfold getitem. by rewrite decide_False. Qed.

Lemma setData_ok data x y w :
  x ∈ columns data → y ∈ columns data → setData data x y w = (Ok tt, w).
Proof.
  intros Hx Hy. unfold setData.
  destruct (getitem_Some _ _ Hx) as [xs ->].
  by destruct (getitem_Some _ _ Hy) as [ys ->].
Qed.

Lemma setData_key_error data x y w :
  x ∉ columns data → setData data x y w = (Raise (KeyError x), w).
Proof. intros Hx. unfold setData. by rewrite (getitem_None _ _ Hx). Qed.

Lemma plot_reads_ok_false w :
  plot_reads_ok w = false →
  plots_shown w = true ∧ "Time" ∉ columns (simulation_data w).
Proof.
  unfold plot_reads_ok. rewrite orb_false_iff, negb_false_iff.
  intros [H1 H2]. split; [done |]. by apply bool_decide_eq_false in H2.
Qed.

Lemma plot_reads_ok_true w :
  plot_reads_ok w = true →
  plots_shown w = false ∨ "Time" ∈ columns (simulation_data w).
Proof.
  unfold plot_reads_ok. rewrite orb_true_iff, negb_true_iff.
  intros [H | H]; [by left | right]. by apply bool_decide_eq_true in H.
Qed.

Lemma plot_reads_ok_intro w :
  plots_shown w = false ∨ "Time" ∈ columns (simulation_data w) →
  plot_reads_ok w = true.
Proof.
  unfold plot_reads_ok. rewrite orb_true_iff, negb_true_iff, bool_decide_eq_true.
  done.
Qed.

(** The lines that are shown are drawn when the frame has the column [Time]
    beside the three of the lines ... *)
Lemma plot_current_data_ok index w :
  plot_reads_ok w = true →
  "Setpoint" ∈ columns (simulation_data w) →
  "Valor Medido" ∈ columns (simulation_data w) →
  "Error" ∈ columns (simulation_data w) →
  plot_current_data index w = (Ok tt, w).
Proof.
  intros Hok Hsp Hmv Herr. unfold plot_current_data, plots_shown.
  unfold mbind, action_bind, get.
  destruct (plot_reads_ok_true w Hok) as [Hnone | Htime].
  - unfold plots_shown in Hnone.
    apply orb_false_iff in Hnone as [Hnone H3].
    apply orb_false_iff in Hnone as [H1 H2].
    by rewrite H1, H2, H3.
  - destruct (visible (plot_lines w) plot_Esperado),
      (visible (plot_lines w) plot_Real), (visible (plot_lines w) plot_Error).
    all: cbn; rewrite ?setData_ok by (by rewrite ?columns_iloc_to); done.
Qed.

(** ... and the first of them raises [KeyError] for [Time] when it does
    not. *)
Lemma plot_current_data_time index w :
  plot_reads_ok w = false →
  plot_current_data index w = (Raise (KeyError "Time"), w).
Proof.
  intros Hno. apply plot_reads_ok_false in Hno as [Hshown Htime].
  unfold plot_current_data, plots_shown in *.
  unfold mbind, action_bind, get.
  destruct (visible (plot_lines w) plot_Esperado),
    (visible (plot_lines w) plot_Real), (visible (plot_lines w) plot_Error);
    try done.
  all: cbn; rewrite ?setData_key_error by (by rewrite ?columns_iloc_to); done.
Qed.

Lemma step_written_columns dt sp mv w :
  columns (simulation_data (step_written dt sp mv w)) =
  {["Error"]} ∪ ({["Valor Medido"]} ∪ columns (simulation_data w)).
Proof. done. Qed.

(** The two columns a step writes are not the one the lines read. *)
Lemma plot_reads_ok_step_written dt sp mv w :
  plot_reads_ok (step_written dt sp mv w) = plot_reads_ok w.
Proof.
  unfold plot_reads_ok. f_equal. apply bool_decide_ext.
  rewrite step_written_columns, !elem_of_union, !elem_of_singleton.
  split; [| tauto]. by intros [? | [? | ?]].
Qed.

Lemma plot_reads_ok_step_window dt sp mv w :
  plot_reads_ok (step_window dt sp mv w) = plot_reads_ok w.
Proof. apply plot_reads_ok_step_written. Qed.

(** A row whose set point and measured value can be read is written, and
    the window is then drawn. *)
Lemma update_plot_with_written dt w sp mv :
  at_ (simulation_data w) (current_index w) "Setpoint" = Some sp →
  at_ (simulation_data w) (current_index w) "Valor Medido" = Some mv →
  update_plot_with dt w =
  match plot_current_data (current_index w) (step_written dt sp mv w) with
  | (Ok _, w') =>
      (Ok (Advanced (current_index w)), set_current_index (current_index w + 1) w')
  | (Raise e, w') => (Raise e, w')
  end.
Proof.
  intros Hsp Hmv. pose proof (finished_false_of_at _ _ _ Hsp) as Hfin.
  unfold update_plot_with, finished in *.
  unfold mbind, action_bind, get. rewrite Hfin.
  unfold read_at. rewrite Hsp, Hmv. cbn.
  unfold lift. rewrite derivative_error_total. cbn.
  unfold step_written, step_measured, step_output, step_derivative,
    step_integral, step_error, pid_output.
  by destruct (plot_current_data _ _) as [[[]|e] w'].
Qed.

(** It is processed when the lines that are shown find the column [Time]. *)
Lemma update_plot_with_advanced dt w sp mv :
  at_ (simulation_data w) (current_index w) "Setpoint" = Some sp →
  at_ (simulation_data w) (current_index w) "Valor Medido" = Some mv →
  plot_reads_ok w = true →
  update_plot_with dt w =
  (Ok (Advanced (current_index w)), step_window dt sp mv w).
Proof.
  intros Hsp Hmv Hok. rewrite (update_plot_with_written dt w sp mv Hsp Hmv).
  rewrite plot_current_data_ok; [done | by rewrite plot_reads_ok_step_written | ..];
    rewrite step_written_columns.
  - apply at_Some in Hsp as [Hc _]. by do 2 apply elem_of_union_r.
  - apply elem_of_union_r, elem_of_union_l. by apply elem_of_singleton.
  - apply elem_of_union_l. by apply elem_of_singleton.
Qed.

(** When they do not, the step ends with a [KeyError] for [Time]: the row is
    written, both errors are updated, and the cursor stays. *)
Lemma update_plot_with_time_error dt w sp mv :
  at_ (simulation_data w) (current_index w) "Setpoint" = Some sp →
  at_ (simulation_data w) (current_index w) "Valor Medido" = Some mv →
  plot_reads_ok w = false →
  update_plot_with dt w = (Raise (KeyError "Time"), step_written dt sp mv w).
Proof.
  intros Hsp Hmv Hno. rewrite (update_plot_with_written dt w sp mv Hsp Hmv).
  by rewrite plot_current_data_time by by rewrite plot_reads_ok_step_written.
Qed.

(** Either way the frame and the two errors are those of the step. *)
Lemma update_plot_with_frame dt w sp mv :
  at_ (simulation_data w) (current_index w) "Setpoint" = Some sp →
  at_ (simulation_data w) (current_index w) "Valor Medido" = Some mv →
  simulation_data (update_plot_with dt w).2
  = simulation_data (step_window dt sp mv w).
Proof.
  intros Hsp Hmv. destruct (plot_reads_ok w) eqn:Hok.
  - by rewrite (update_plot_with_advanced dt w sp mv Hsp Hmv Hok).
  - by rewrite (update_plot_with_time_error dt w sp mv Hsp Hmv Hok).
Qed.

Lemma update_plot_with_integral dt w sp mv :
  at_ (simulation_data w) (current_index w) "Setpoint" = Some sp →
  at_ (simulation_data w) (current_index w) "Valor Medido" = Some mv →
  integral_error (update_plot_with dt w).2 = step_integral dt sp mv w.
Proof.
  intros Hsp Hmv. destruct (plot_reads_ok w) eqn:Hok.
  - by rewrite (update_plot_with_advanced dt w sp mv Hsp Hmv Hok).
  - by rewrite (update_plot_with_time_error dt w sp mv Hsp Hmv Hok).
Qed.

(** A row that lacks one of the two columns stops the step with a
    [KeyError], before anything is written. *)
Lemma update_plot_with_key_error dt w :
  finished w = false →
  at_ (simulation_data w) (current_index w) "Setpoint" = None ∨
  at_ (simulation_data w) (current_index w) "Valor Medido" = None →
  ∃ label, update_plot_with dt w = (Raise (KeyError label), w).
Proof.
  intros Hfin Hnone. unfold update_plot_with, finished in *.
  unfold mbind, action_bind, get. rewrite Hfin. unfold read_at.
  destruct (at_ _ _ "Setpoint") as [sp|]; [|by eexists].
  destruct Hnone as [|Hmv]; [done |]. rewrite Hmv. by eexists.
Qed.

(** The four ways a step can end. *)
Lemma update_plot_with_cases dt w :
  update_plot_with dt w = (Ok Done, set_timer_active false w) ∧ finished w = true
  ∨ (∃ label, update_plot_with dt w = (Raise (KeyError label), w))
  ∨ (∃ sp mv,
       at_ (simulation_data w) (current_index w) "Setpoint" = Some sp ∧
       at_ (simulation_data w) (current_index w) "Valor Medido" = Some mv ∧
       (update_plot_with dt w =
        (Ok (Advanced (current_index w)), step_window dt sp mv w)
        ∧ plot_reads_ok w = true
        ∨ update_plot_with dt w =
          (Raise (KeyError "Time"), step_written dt sp mv w)
          ∧ plot_reads_ok w = false)).
Proof.
  destruct (finished w) eqn:Hfin.
  { left. split; [by apply update_plot_with_done | done]. }
  right.
  destruct (at_ (simulation_data w) (current_index w) "Setpoint") as [sp|] eqn:Hsp;
    [| left; apply update_plot_with_key_error; auto].
  destruct (at_ (simulation_data w) (current_index w) "Valor Medido") as [mv|] eqn:Hmv;
    [| left; apply update_plot_with_key_error; auto].
  right. exists sp, mv. split; [done |]. split; [done |].
  destruct (plot_reads_ok w) eqn:Hok.
  - left. by rewrite (update_plot_with_advanced _ _ _ _ Hsp Hmv Hok).
  - right. by rewrite (update_plot_with_time_error _ _ _ _ Hsp Hmv Hok).
Qed.

End update_plot_facts.

(** ** What a processed row holds, and what the step leaves alone *)

Section step_window_facts.
Import DataFrame DataFrameFacts.
Variables (dt sp mv : float) (w : MainWindow).

(** The frame of a step is written before the lines are drawn. *)
Lemma step_written_data :
  simulation_data (step_written dt sp mv w)
  = simulation_data (step_window dt sp mv w).
Proof. done. Qed.

Lemma step_written_fixed_gain p :
  fixed_gain (step_written dt sp mv w) p = fixed_gain w p.
Proof. done. Qed.

Lemma step_window_current_index :
  current_index (step_window dt sp mv w) = current_index w + 1.
Proof. done. Qed.

Lemma step_window_previous_error :
  previous_error (step_window dt sp mv w) = step_error sp mv.
Proof. done. Qed.

Lemma step_window_integral_error :
  integral_error (step_window dt sp mv w) = step_integral dt sp mv w.
Proof. done. Qed.

Lemma step_window_fixed_pid_values :
  fixed_pid_values (step_window dt sp mv w) = fixed_pid_values w.
Proof. done. Qed.

Lemma step_window_fixed_gain p :
  fixed_gain (step_window dt sp mv w) p = fixed_gain w p.
Proof. done. Qed.

Lemma step_window_timer : timer (step_window dt sp mv w) = timer w.
Proof. done. Qed.

Lemma step_window_len :
  len (simulation_data (step_window dt sp mv w)) = len (simulation_data w).
Proof. cbn. by rewrite !len_set_at. Qed.

Lemma step_window_columns :
  columns (simulation_data (step_window dt sp mv w)) =
  {["Error"]} ∪ ({["Valor Medido"]} ∪ columns (simulation_data w)).
Proof. done. Qed.

Lemma step_window_measured :
  current_index w < len (simulation_data w) →
  at_ (simulation_data (step_window dt sp mv w)) (current_index w) "Valor Medido"
  = Some (step_measured dt sp mv w).
Proof.
  intros Hi. cbn. apply at_set_at_other; [by right |].
  by apply at_set_at_eq.
Qed.

Lemma step_window_error :
  current_index w < len (simulation_data w) →
  at_ (simulation_data (step_window dt sp mv w)) (current_index w) "Error"
  = Some (step_error sp mv).
Proof. intros Hi. cbn. apply at_set_at_eq. by rewrite len_set_at. Qed.

(** Every cell but the two written keeps its value ... *)
Lemma step_window_other i c x :
  i ≠ current_index w ∨ (c ≠ "Valor Medido" ∧ c ≠ "Error") →
  at_ (simulation_data w) i c = Some x →
  at_ (simulation_data (step_window dt sp mv w)) i c = Some x.
Proof.
  intros Hne Hx. cbn.
  apply at_set_at_other; [tauto |]. apply at_set_at_other; [tauto | done].
Qed.

(** ... and no column appears but those two. *)
Lemma step_window_absent i c :
  c ≠ "Valor Medido" → c ≠ "Error" →
  c ∉ columns (simulation_data w) →
  at_ (simulation_data (step_window dt sp mv w)) i c = None.
Proof.
  intros H1 H2 Hc. apply at_absent. rewrite step_window_columns.
  by rewrite !not_elem_of_union, !elem_of_singleton.
Qed.

End step_window_facts.

(** ** Starting a run *)

Section start_facts.
Import DataFrame DataFrameFacts.

Lemma fix_column_columns df item : columns (fix_column df item) = columns df.
Proof.
  unfold fix_column. case_decide as Hc; [| done].
  unfold set_column; cbn. apply subseteq_union_1_L.
  by apply singleton_subseteq_l.
Qed.

Lemma fix_column_len df item : len (fix_column df item) = len df.
Proof.
  unfold fix_column. case_decide; [apply len_set_column | done].
Qed.

Lemma at_fix_column_eq df p v i :
  param_name p ∈ columns df → i < len df →
  at_ (fix_column df (p, v)) i (param_name p) = Some v.
Proof.
  intros Hc Hi. unfold fix_column; cbn. rewrite decide_True by done.
  by apply at_set_column_eq.
Qed.

Lemma at_fix_column_ne df item i c :
  c ≠ param_name item.1 → at_ (fix_column df item) i c = at_ df i c.
Proof.
  intros Hne. unfold fix_column. case_decide; [| done].
  by apply at_set_column_ne.
Qed.

Lemma fixed_frame_columns w :
  columns (fixed_frame w) = columns (simulation_data w).
Proof.
  unfold fixed_frame, ui_pid_items; cbn. by rewrite !fix_column_columns.
Qed.

Lemma fixed_frame_len w : len (fixed_frame w) = len (simulation_data w).
Proof.
  unfold fixed_frame, ui_pid_items; cbn. by rewrite !fix_column_len.
Qed.

(** A gain column of the frame holds the value read from the UI, in every row. *)
Lemma at_fixed_frame_gain w p i :
  param_name p ∈ columns (simulation_data w) → i < len (simulation_data w) →
  at_ (fixed_frame w) i (param_name p) = Some (get_pid_value_from_ui w p).
Proof.
  intros Hc Hi. unfold fixed_frame, ui_pid_items; cbn.
  destruct p.
  - rewrite !at_fix_column_ne by done. by apply (at_fix_column_eq _ param_P).
  - rewrite at_fix_column_ne by done.
    apply (at_fix_column_eq _ param_I);
      [by rewrite fix_column_columns | by rewrite fix_column_len].
  - apply (at_fix_column_eq _ param_D);
      [by rewrite !fix_column_columns | by rewrite !fix_column_len].
Qed.

(** The other columns are not touched. *)
Lemma at_fixed_frame_other w i c :
  (∀ p, c ≠ param_name p) → at_ (fixed_frame w) i c = at_ (simulation_data w) i c.
Proof.
  intros Hne. unfold fixed_frame, ui_pid_items; cbn.
  rewrite !at_fix_column_ne; [done | apply Hne ..].
Qed.

Lemma start_simulation_data w :
  empty (simulation_data w) = false → start_simulation w = started w.
Proof. intros H. unfold start_simulation. by rewrite H. Qed.

Lemma start_simulation_no_data w :
  empty (simulation_data w) = true → start_simulation w = print msg_no_data w.
Proof. intros H. unfold start_simulation. by rewrite H. Qed.

(** The gains of the run are the values of the UI: 0.0 for an axis that is
    not enabled. *)
Lemma started_fixed_gain w p :
  fixed_gain (started w) p = get_pid_value_from_ui w p.
Proof. by destruct p. Qed.

Lemma get_pid_value_disabled w p :
  pid_enabled w p = false → get_pid_value_from_ui w p = 0%float.
Proof. intros H. unfold get_pid_value_from_ui. by rewrite H. Qed.

End start_facts.

(** ** The redrawing at the end of a reset *)

Section reset_facts.
Import DataFrame DataFrameFacts.

Lemma truthy_b2z (b : bool) : truthy (Z.b2z b) = b.
Proof. by destruct b. Qed.

(** The window a reset leaves behind: the three calls of
    [toggle_plot_visibility] return, and leave every flag as it was. *)
Lemma reset_simulation_window w :
  reset_simulation w =
  {| simulation_data := new; fixed_pid_values := ∅;
     current_index := 0; previous_error := 0%float; integral_error := 0%float;
     timer := {| interval := interval (timer w); isActive := false |};
     pid_enabled := pid_enabled w; pid_sliders := pid_sliders w;
     plot_lines := plot_lines w;
     running := running w; console := console w |}.
Proof.
  destruct w as [df gains index previous integral [ms active] enabled sliders
                   [[] [] []] run out]; reflexivity.
Qed.

Lemma reset_simulation_returns w :
  (redraw_plot_lines
     (set_simulation_data new
        (set_fixed_pid_values ∅
           (set_integral_error 0
              (set_previous_error 0
                 (set_current_index 0 (set_timer_active false w))))))).1 = Ok tt.
Proof.
  destruct w as [df gains index previous integral [ms active] enabled sliders
                   [[] [] []] run out]; reflexivity.
Qed.

End reset_facts.

(** ** What every step of a run keeps *)

Section run_gains.
Import DataFrame DataFrameFacts.

Lemma run_ticks_invariant (Q : MainWindow → Prop) dt :
  (∀ w, Q w → Q (update_plot_with dt w).2) →
  ∀ n w, Q w → Q (run_ticks dt n w).
Proof.
  intros Hstep n. induction n as [|n IH]; intros w Hw; [done |].
  cbn. apply IH. by apply Hstep.
Qed.

Lemma update_plot_with_fixed_pid_values dt w :
  fixed_pid_values (update_plot_with dt w).2 = fixed_pid_values w.
Proof.
  destruct (update_plot_with_cases dt w)
    as [[-> _] | [[label ->] | (sp & mv & _ & _ & [[-> _] | [-> _]])]]; done.
Qed.

Lemma run_ticks_fixed_pid_values dt n w :
  fixed_pid_values (run_ticks dt n w) = fixed_pid_values w.
Proof.
  apply (run_ticks_invariant (λ w', fixed_pid_values w' = fixed_pid_values w));
    [| done].
  intros w' Hw'. by rewrite update_plot_with_fixed_pid_values.
Qed.

Lemma run_ticks_fixed_gain dt n w p :
  fixed_gain (run_ticks dt n w) p = fixed_gain w p.
Proof. unfold fixed_gain. by rewrite run_ticks_fixed_pid_values. Qed.

End run_gains.

(** ** The first steps of a run *)

Section first_step.
Import DataFrame DataFrameFacts.

(** C1. Started on the one-row frame with only P enabled (gain 1.0) and the
    timer at 100 ms (dt = 0.1), the first step computes error 10 and output
    10, writes 41 as the measured value of row 0 and moves the cursor to 1,
    and the second step is [Done].  In general a step on a row whose set
    point and measured value can be read computes
    error = setpoint - measured,
    output = Kp*error + Ki*integral + Kd*derivative, with the gains fixed at
    the start (0.0 for a disabled axis), and writes measured + output*dt;
    it leaves the gains as they are, so that every step of a run uses those
    of its start.  The step then draws the lines that are shown: it moves
    the cursor on when they find the column Time (or none is shown), and
    ends with [KeyError] for Time, the cursor where it was, when they do
    not. *)
Theorem C1_first_step_and_formula :
  (let w1 := start_simulation scenario_window in
   let dt := timer_dt w1 in
   let first := update_plot w1 in
   dt = (1 / 10)%float
   ∧ step_error 50 40 = 10%float
   ∧ step_output dt 50 40 w1 = 10%float
   ∧ first.1 = Ok (Advanced 0)
   ∧ at_ (simulation_data first.2) 0 "Error" = Some 10%float
   ∧ at_ (simulation_data first.2) 0 "Valor Medido" = Some 41%float
   ∧ current_index first.2 = 1
   ∧ (update_plot first.2).1 = Ok Done)
  ∧ (∀ (dt : float) (w : MainWindow) (setpoint measured : float),
       at_ (simulation_data w) (current_index w) "Setpoint" = Some setpoint →
       at_ (simulation_data w) (current_index w) "Valor Medido" = Some measured →
       let error := (setpoint - measured)%float in
       let integral := (integral_error w + error * dt)%float in
       let derivative :=
         if (0 <? dt)%float then ((error - previous_error w) / dt)%float
         else 0%float in
       let output :=
         (fixed_gain w param_P * error + fixed_gain w param_I * integral
          + fixed_gain w param_D * derivative)%float in
       let after := update_plot_with dt w in
       at_ (simulation_data after.2) (current_index w) "Error" = Some error
       ∧ at_ (simulation_data after.2) (current_index w) "Valor Medido"
         = Some (measured + output * dt)%float
       ∧ integral_error after.2 = integral
       ∧ previous_error after.2 = error
       ∧ fixed_pid_values after.2 = fixed_pid_values w
       ∧ (plots_shown w = false ∨ "Time" ∈ columns (simulation_data w) →
          after = (Ok (Advanced (current_index w)), step_window dt setpoint measured w)
          ∧ current_index after.2 = current_index w + 1)
       ∧ (plots_shown w = true → "Time" ∉ columns (simulation_data w) →
          after = (Raise (KeyError "Time"), step_written dt setpoint measured w)
          ∧ current_index after.2 = current_index w))
  ∧ (∀ (w : MainWindow) (p : param) (dt : float) (n : nat),
       empty (simulation_data w) = false →
       fixed_gain (start_simulation w) p =
       (if pid_enabled w p then get_pid_value_from_ui w p else 0%float)
       ∧ fixed_gain (run_ticks dt n (start_simulation w)) p
         = fixed_gain (start_simulation w) p).
Proof.
  split; [| split].
  - vm_compute. repeat split; reflexivity.
  - intros dt w sp mv Hsp Hmv. cbn zeta.
    pose proof (at_lt _ _ _ _ Hsp) as Hi.
    assert (at_ (simulation_data (step_written dt sp mv w)) (current_index w) "Error"
            = Some (sp - mv)%float
            ∧ at_ (simulation_data (step_written dt sp mv w)) (current_index w)
                  "Valor Medido" = Some (step_measured dt sp mv w)) as [He Hm].
    { split; [by apply step_window_error | by apply step_window_measured]. }
    destruct (plot_reads_ok w) eqn:Hok.
    + rewrite (update_plot_with_advanced dt w sp mv Hsp Hmv Hok).
      do 5 (split; [done |]). split; [done |].
      intros Hshown Htime. apply plot_reads_ok_true in Hok as [Hok | Hok];
        [by rewrite Hok in Hshown | done].
    + rewrite (update_plot_with_time_error dt w sp mv Hsp Hmv Hok).
      do 5 (split; [done |]). split; [| done].
      apply plot_reads_ok_false in Hok as [Hshown Htime].
      intros [H | H]; [by rewrite H in Hshown | done].
  - intros w p dt n Hdata. rewrite run_ticks_fixed_gain. split; [| done].
    rewrite start_simulation_data, started_fixed_gain by done.
    destruct (pid_enabled w p) eqn:Hp; [done |].
    by apply get_pid_value_disabled.
Qed.

(** The general step of C1 at the started scenario, and the gain of a disabled
    axis there. *)
Lemma C1_witness :
  (let after := update_plot_with (1 / 10)%float (start_simulation scenario_window) in
   after.1 = Ok (Advanced 0)
   ∧ at_ (simulation_data after.2) 0 "Error" = Some (50 - 40)%float
   ∧ at_ (simulation_data after.2) 0 "Valor Medido"
     = Some (40 + (1 * (50 - 40) + 0 * (0 + (50 - 40) * (1 / 10))
                   + 0 * ((50 - 40 - 0) / (1 / 10))) * (1 / 10))%float)
  ∧ fixed_gain (start_simulation scenario_window) param_I = 0%float.
Proof.
  split.
  - destruct (proj1 (proj2 C1_first_step_and_formula)
                (1 / 10)%float (start_simulation scenario_window) 50%float 40%float)
      as (H1 & H2 & _ & _ & _ & H3 & _).
    + vm_compute. reflexivity.
    + vm_compute. reflexivity.
    + cbv zeta. split; [| split; [exact H1 | exact H2]].
      destruct H3 as [H3 _]; [right; refine (bool_decide_unpack _ _); vm_compute; exact I |].
      by rewrite H3.
  - apply (proj2 (proj2 C1_first_step_and_formula) scenario_window param_I
             (1 / 10)%float 0%nat).
    vm_compute. reflexivity.
Defined.

End first_step.

Section finished_step.
Import DataFrame DataFrameFacts.

(** C6. With the cursor at or past the end of the frame, the step is [Done]
    and changes nothing of the frame or of the controller: the frame (its
    length and every row), [previous_error], [integral_error], the cursor and
    the gains are the same before and after; only the timer is stopped. *)
Theorem C6_done_without_mutation (dt : float) (w : MainWindow) :
  len (simulation_data w) ≤ current_index w →
  ∃ w',
    update_plot_with dt w = (Ok Done, w')
    ∧ update_plot w = (Ok Done, w')
    ∧ simulation_data w' = simulation_data w
    ∧ previous_error w' = previous_error w
    ∧ integral_error w' = integral_error w
    ∧ current_index w' = current_index w
    ∧ fixed_pid_values w' = fixed_pid_values w
    ∧ isActive (timer w') = false.
Proof.
  intros Hend.
  assert (finished w = true) as Hfin.
  { unfold finished. rewrite orb_true_iff. right. by apply bool_decide_eq_true. }
  exists (set_timer_active false w). split; [| split].
  - by apply update_plot_with_done.
  - unfold update_plot. by apply update_plot_with_done.
  - done.
Qed.

(** C6 on a frame of one row with the cursor at 1. *)
Lemma C6_witness :
  ∃ w',
    update_plot_with (1 / 10)%float (set_current_index 1 scenario_window)
    = (Ok Done, w')
    ∧ simulation_data w' = simulation_data scenario_window
    ∧ current_index w' = 1.
Proof.
  destruct (C6_done_without_mutation (1 / 10)%float
              (set_current_index 1 scenario_window))
    as (w' & H1 & _ & H2 & _ & _ & H3 & _).
  - vm_compute. lia.
  - exists w'. split; [exact H1 |]. split; [exact H2 | exact H3].
Defined.

End finished_step.

Section derivative_guard.
Import DataFrame DataFrameFacts.

(** C7. For a time step [dt <= 0] the derivative of line 523 is 0.0 whatever
    the error and the previous error are, and a step on a readable row then
    uses 0.0 for it in the measured value it writes (whether or not the
    drawing that follows finds the column Time); for no [dt] at all does the
    derivative or the step raise [ZeroDivisionError]. *)
Theorem C7_derivative_guard (dt error previous : float) (w : MainWindow) :
  ((dt <=? 0)%float = true →
     derivative_error dt error previous = Ok 0%float
     ∧ ∀ sp mv,
         at_ (simulation_data w) (current_index w) "Setpoint" = Some sp →
         at_ (simulation_data w) (current_index w) "Valor Medido" = Some mv →
         step_derivative dt sp mv w = 0%float
         ∧ at_ (simulation_data (update_plot_with dt w).2) (current_index w)
               "Valor Medido"
           = Some (mv + pid_output (fixed_gain w param_P) (fixed_gain w param_I)
                          (fixed_gain w param_D) (sp - mv)
                          (integral_error w + (sp - mv) * dt) 0 * dt)%float
         ∧ ((update_plot_with dt w).1 = Ok (Advanced (current_index w))
            ∨ (update_plot_with dt w).1 = Raise (KeyError "Time")))
  ∧ derivative_error dt error previous ≠ Raise ZeroDivisionError
  ∧ (update_plot_with dt w).1 ≠ Raise ZeroDivisionError.
Proof.
  split; [| split].
  - intros Hdt. pose proof (nonpositive_not_positive _ Hdt) as Hgt.
    split.
    + rewrite derivative_error_total. by rewrite Hgt.
    + intros sp mv Hsp Hmv.
      split; [unfold step_derivative; by rewrite Hgt |].
      pose proof (at_lt _ _ _ _ Hsp) as Hi.
      assert (at_ (simulation_data (step_written dt sp mv w)) (current_index w)
                  "Valor Medido"
              = Some (mv + pid_output (fixed_gain w param_P) (fixed_gain w param_I)
                             (fixed_gain w param_D) (sp - mv)
                             (integral_error w + (sp - mv) * dt) 0 * dt)%float) as Hm.
      { etrans; [by apply step_window_measured |].
        unfold step_measured, step_output, step_derivative. by rewrite Hgt. }
      destruct (plot_reads_ok w) eqn:Hok.
      * rewrite (update_plot_with_advanced dt w sp mv Hsp Hmv Hok).
        split; [exact Hm | by left].
      * rewrite (update_plot_with_time_error dt w sp mv Hsp Hmv Hok).
        split; [exact Hm | by right].
  - by rewrite derivative_error_total.
  - destruct (update_plot_with_cases dt w)
      as [[-> _] | [[label ->] | (sp & mv & _ & _ & [[-> _] | [-> _]])]]; done.
Qed.

(** C7 at [dt = 0] and at [dt = -1], on the started scenario. *)
Lemma C7_witness :
  derivative_error 0 10 0 = Ok 0%float
  ∧ derivative_error (-1) 10 0 = Ok 0%float
  ∧ at_ (simulation_data (update_plot_with 0 (start_simulation scenario_window)).2)
        0 "Valor Medido" = Some 40%float
  ∧ (update_plot_with 0 (start_simulation scenario_window)).1
    ≠ Raise ZeroDivisionError.
Proof.
  split; [| split; [| split]].
  - apply (C7_derivative_guard 0 10 0 scenario_window). vm_compute. reflexivity.
  - apply (C7_derivative_guard (-1) 10 0 scenario_window). vm_compute. reflexivity.
  - destruct (proj1 (C7_derivative_guard 0 10 0 (start_simulation scenario_window)))
      as [_ H]; [vm_compute; reflexivity |].
    destruct (H 50%float 40%float) as (_ & Hm & _);
      [vm_compute; reflexivity | vm_compute; reflexivity |].
    etrans; [exact Hm |]. vm_compute. reflexivity.
  - apply (C7_derivative_guard 0 10 0 (start_simulation scenario_window)).
Defined.

End derivative_guard.

(** ** Start, pause and reset *)

Section start_pause_reset.
Import DataFrame DataFrameFacts.

(** C3 as the specification states it fails: a run on two rows is paused after its
    first step, with the cursor at 1; the next start puts the cursor at 0. *)
Lemma C3_start_moves_cursor_back :
  let paused :=
    pause_simulation (update_plot (start_simulation two_row_window)).2 in
  current_index paused = 1
  ∧ current_index (start_simulation paused) = 0
  ∧ current_index (start_simulation paused) ≠ current_index paused.
Proof. vm_compute. repeat split; [reflexivity .. | discriminate]. Qed.

(** C3, amended. On a frame with data, start sets [previous_error] and
    [integral_error] to 0 and the cursor to 0 as well, whatever they were (so
    also after a pause); on an empty frame start only prints that there is no
    data.  Pause stops the timer and keeps the frame, the cursor and both
    errors.  Reset sets the cursor and both errors to 0 too, and empties the
    frame and the gains. *)
Theorem C3_start_pause_reset (w : MainWindow) :
  (empty (simulation_data w) = false →
     previous_error (start_simulation w) = 0%float
     ∧ integral_error (start_simulation w) = 0%float
     ∧ current_index (start_simulation w) = 0
     ∧ current_index (start_simulation (pause_simulation w)) = 0
     ∧ isActive (timer (start_simulation w)) = true)
  ∧ (empty (simulation_data w) = true →
       start_simulation w = print msg_no_data w)
  ∧ (simulation_data (pause_simulation w) = simulation_data w
     ∧ current_index (pause_simulation w) = current_index w
     ∧ previous_error (pause_simulation w) = previous_error w
     ∧ integral_error (pause_simulation w) = integral_error w
     ∧ isActive (timer (pause_simulation w)) = false)
  ∧ (current_index (reset_simulation w) = 0
     ∧ previous_error (reset_simulation w) = 0%float
     ∧ integral_error (reset_simulation w) = 0%float
     ∧ simulation_data (reset_simulation w) = DataFrame.new
     ∧ fixed_pid_values (reset_simulation w) = ∅).
Proof.
  split; [| split; [| split]].
  - intros Hdata.
    assert (empty (simulation_data (pause_simulation w)) = false) as Hp by done.
    by rewrite (start_simulation_data _ Hp), start_simulation_data.
  - apply start_simulation_no_data.
  - done.
  - by rewrite reset_simulation_window.
Qed.

(** C3 amended, at the paused run of two rows. *)
Lemma C3_witness :
  let paused :=
    pause_simulation (update_plot (start_simulation two_row_window)).2 in
  previous_error (start_simulation paused) = 0%float
  ∧ integral_error (start_simulation paused) = 0%float
  ∧ current_index (start_simulation paused) = 0.
Proof.
  cbv zeta.
  destruct (proj1 (C3_start_pause_reset
              (pause_simulation (update_plot (start_simulation two_row_window)).2)))
    as (H1 & H2 & H3 & _).
  - vm_compute. reflexivity.
  - split; [exact H1 |]. split; [exact H2 | exact H3].
Defined.

End start_pause_reset.

(** ** Ingestion *)

Section ingestion_facts.
Import DataFrame DataFrameFacts.

(** A dict is appended, and the step of line 736 runs on the result; an
    exception of the step leaves [process_received_data]. *)
Lemma process_received_data_dict d w :
  process_received_data (json_dict d) w =
  match update_plot (appended d w) with
  | (Ok _, w') => (Ok tt, w')
  | (Raise e, w') => (Raise e, w')
  end.
Proof.
  unfold process_received_data, mbind, action_bind, modify, appended.
  by destruct (update_plot _) as [[r|e] w'].
Qed.

Lemma process_received_data_other w :
  process_received_data json_other w = (Ok tt, print msg_invalid_format w).
Proof. done. Qed.

(** The cursor never moves back in a step. *)
Lemma update_plot_with_cursor dt w :
  current_index w ≤ current_index (update_plot_with dt w).2.
Proof.
  destruct (update_plot_with_cases dt w)
    as [[-> _] | [[label ->] | (sp & mv & _ & _ & [[-> _] | [-> _]])]]; cbn; lia.
Qed.

(** A step keeps the length of the frame ... *)
Lemma update_plot_with_len dt w :
  len (simulation_data (update_plot_with dt w).2) = len (simulation_data w).
Proof.
  destruct (update_plot_with_cases dt w)
    as [[-> _] | [[label ->] | (sp & mv & _ & _ & [[-> _] | [-> _]])]];
    [done | done | apply step_window_len ..].
Qed.

(** ... and every cell of every row but the one at the cursor. *)
Lemma update_plot_with_other_rows dt w i c v :
  i ≠ current_index w →
  at_ (simulation_data w) i c = Some v →
  at_ (simulation_data (update_plot_with dt w).2) i c = Some v.
Proof.
  intros Hi Hv.
  destruct (update_plot_with_cases dt w)
    as [[-> _] | [[label ->] | (sp & mv & _ & _ & [[-> _] | [-> _]])]];
    [done | done | ..].
  all: apply step_window_other; [by left | done].
Qed.

End ingestion_facts.

Section ingestion_frame.
Import DataFrame DataFrameFacts.

(** C2 as the specification states it fails: the first record received by a fresh
    window is appended and processed at once; the cursor moves from 0 to 1
    and the previous error is no longer 0. *)
Lemma C2_ingestion_moves_cursor :
  let after := process_received_data (json_dict scenario_row) init in
  after.1 = Ok tt
  ∧ current_index init = 0
  ∧ current_index after.2 = 1
  ∧ current_index after.2 ≠ current_index init
  ∧ previous_error after.2 = 10%float
  ∧ integral_error after.2 = 1%float.
Proof. vm_compute. repeat split; try reflexivity. discriminate. Qed.

Lemma plot_reads_ok_appended d w :
  plot_reads_ok (appended d w) = true ↔
  plots_shown w = false ∨ "Time" ∈ columns (simulation_data w) ∪ dom d.
Proof.
  unfold plot_reads_ok. rewrite orb_true_iff, negb_true_iff, bool_decide_eq_true.
  done.
Qed.

(** C2, amended. An ingested record (a dict of floats) becomes one new last
    row; the rows
    already processed (those before the cursor), and every row other than
    the one at the cursor, keep each of their cells, and the gains stay.  The
    ingestion then runs one step, so the cursor never moves back.  When the
    row at the cursor has a set point and a measured value, that row is
    processed: its error and measured value are written and both errors
    become those of the step; the cursor then moves forward by one when the
    frame has the column Time or no line is shown, and [KeyError] for Time
    leaves [process_received_data] with the cursor where it was otherwise.
    When the row lacks one of the two, the frame is the one after the
    append, and the cursor and both errors are as they were. *)
Theorem C2_ingestion_appends_and_steps (w : MainWindow) (d : gmap string float) :
  let after := process_received_data (json_dict d) w in
  let df := concat (simulation_data w) (of_record d) in
  let index := current_index w in
  len (simulation_data after.2) = S (len (simulation_data w))
  ∧ (∀ i c v, i < index →
       at_ (simulation_data w) i c = Some v →
       at_ (simulation_data after.2) i c = Some v)
  ∧ (∀ i c v, i ≠ index →
       at_ (simulation_data w) i c = Some v →
       at_ (simulation_data after.2) i c = Some v)
  ∧ index ≤ current_index after.2
  ∧ fixed_pid_values after.2 = fixed_pid_values w
  ∧ (∀ sp mv,
       at_ df index "Setpoint" = Some sp →
       at_ df index "Valor Medido" = Some mv →
       previous_error after.2 = (sp - mv)%float
       ∧ integral_error after.2
         = (integral_error w + (sp - mv) * timer_dt w)%float
       ∧ at_ (simulation_data after.2) index "Error" = Some (sp - mv)%float
       ∧ at_ (simulation_data after.2) index "Valor Medido"
         = Some (step_measured (timer_dt w) sp mv w)
       ∧ (plots_shown w = false ∨ "Time" ∈ columns (simulation_data w) ∪ dom d →
          after.1 = Ok tt ∧ current_index after.2 = index + 1)
       ∧ (plots_shown w = true → "Time" ∉ columns (simulation_data w) ∪ dom d →
          after.1 = Raise (KeyError "Time") ∧ current_index after.2 = index))
  ∧ (at_ df index "Setpoint" = None ∨ at_ df index "Valor Medido" = None →
       simulation_data after.2 = df
       ∧ current_index after.2 = index
       ∧ previous_error after.2 = previous_error w
       ∧ integral_error after.2 = integral_error w).
Proof.
  cbv zeta. rewrite process_received_data_dict. unfold update_plot.
  pose proof (update_plot_with_len (timer_dt (appended d w)) (appended d w)) as Hlen.
  pose proof (update_plot_with_other_rows (timer_dt (appended d w)) (appended d w))
    as Hrows.
  pose proof (update_plot_with_cursor (timer_dt (appended d w)) (appended d w))
    as Hcursor.
  pose proof (update_plot_with_fixed_pid_values (timer_dt (appended d w))
                (appended d w)) as Hgains.
  assert (∀ i c v, i ≠ current_index w →
            at_ (simulation_data w) i c = Some v →
            at_ (simulation_data (update_plot_with (timer_dt (appended d w))
                                    (appended d w)).2) i c = Some v) as Hkeep.
  { intros i c v Hi Hv. apply Hrows; [done |]. by apply at_concat_old. }
  clear Hrows.
  change (simulation_data (appended d w))
    with (concat (simulation_data w) (of_record d)) in *.
  change (current_index (appended d w)) with (current_index w) in *.
  change (fixed_pid_values (appended d w)) with (fixed_pid_values w) in *.
  change (timer_dt (appended d w)) with (timer_dt w) in *.
  assert (∀ r w',
            update_plot_with (timer_dt w) (appended d w) = (r, w') →
            match r with
            | Ok _ => (Ok tt, w')
            | Raise e => (Raise e, w')
            end.2 = w') as Hsnd by (by intros [|] w' _).
  destruct (update_plot_with (timer_dt w) (appended d w)) as [r w'] eqn:Heq.
  rewrite (Hsnd r w' eq_refl). cbn [snd] in *.
  split; [etrans; [apply Hlen | apply len_concat] |].
  split; [intros i c v Hi; apply Hkeep; lia |].
  split; [exact Hkeep |]. split; [exact Hcursor |]. split; [exact Hgains |].
  split.
  - intros sp mv Hsp Hmv. pose proof (at_lt _ _ _ _ Hsp) as Hi.
    assert (at_ (simulation_data (step_written (timer_dt w) sp mv (appended d w)))
                (current_index w) "Error" = Some (sp - mv)%float
            ∧ at_ (simulation_data (step_written (timer_dt w) sp mv (appended d w)))
                  (current_index w) "Valor Medido"
              = Some (step_measured (timer_dt w) sp mv w)) as [He Hm].
    { split; [by apply (step_window_error _ _ _ (appended d w))
             | by apply (step_window_measured _ _ _ (appended d w))]. }
    destruct (plot_reads_ok (appended d w)) eqn:Hok.
    + rewrite (update_plot_with_advanced _ (appended d w) sp mv Hsp Hmv Hok) in Heq.
      injection Heq as <- <-.
      do 4 (split; [done |]). split; [done |].
      intros Hshown Htime. apply plot_reads_ok_appended in Hok as [Hok | Hok];
        [by rewrite Hok in Hshown | done].
    + rewrite (update_plot_with_time_error _ (appended d w) sp mv Hsp Hmv Hok) in Heq.
      injection Heq as <- <-.
      do 4 (split; [done |]). split; [| done].
      intros Hcan. apply plot_reads_ok_appended in Hcan. congruence.
  - intros Hnone.
    destruct (update_plot_with_cases (timer_dt w) (appended d w))
      as [[Hd _] | [[label Hd] | (sp & mv & Hsp & Hmv & _)]].
    + rewrite Hd in Heq. by injection Heq as <- <-.
    + rewrite Hd in Heq. by injection Heq as <- <-.
    + change (simulation_data (appended d w))
        with (concat (simulation_data w) (of_record d)) in *.
      change (current_index (appended d w)) with (current_index w) in *.
      destruct Hnone as [H | H]; congruence.
Qed.

(** C2 amended, at a second record received after the first was processed:
    the processed row keeps its cells, and the frame has two rows. *)
Lemma C2_witness :
  let w := (process_received_data (json_dict scenario_row) init).2 in
  let after := process_received_data (json_dict second_row) w in
  len (simulation_data after.2) = 2
  ∧ at_ (simulation_data after.2) 0 "Error" = Some 10%float
  ∧ after.1 = Ok tt
  ∧ current_index after.2 = 2.
Proof.
  cbv zeta.
  destruct (C2_ingestion_appends_and_steps
              (process_received_data (json_dict scenario_row) init).2 second_row)
    as (H1 & H2 & _ & _ & _ & H3 & _).
  split; [etrans; [exact H1 |]; vm_compute; reflexivity |].
  split; [apply H2; [vm_compute; lia | vm_compute; reflexivity] |].
  destruct (H3 50%float 45%float) as (_ & _ & _ & _ & H4 & _);
    [vm_compute; reflexivity | vm_compute; reflexivity |].
  destruct H4 as [H4 H5];
    [right; refine (bool_decide_unpack _ _); vm_compute; exact I |].
  split; [exact H4 |]. etrans; [exact H5 |]. vm_compute. reflexivity.
Defined.

End ingestion_frame.

Section missing_fields.
Import DataFrame DataFrameFacts.

Lemma nan_not_zero : nan ≠ 0%float.
Proof.
  intros H. apply (f_equal PrimFloat.is_nan) in H. vm_compute in H. discriminate.
Qed.

(** C5 as the specification states it fails: after a full record, a record without
    the gain fields is received; in its row the three gains are NaN, not 0.0.
    Received by a fresh window, the same record gives a row with no gain
    field at all. *)
Lemma C5_missing_fields_not_zero :
  let w1 := (process_received_data (json_dict full_record) init).2 in
  let w2 := (process_received_data (json_dict partial_record) w1).2 in
  let w3 := (process_received_data (json_dict partial_record) init).2 in
  len (simulation_data w2) = 2
  ∧ at_ (simulation_data w2) 1 "Time" = Some 1%float
  ∧ at_ (simulation_data w2) 1 "P" = Some nan
  ∧ at_ (simulation_data w2) 1 "I" = Some nan
  ∧ at_ (simulation_data w2) 1 "D" = Some nan
  ∧ at_ (simulation_data w2) 1 "P" ≠ Some 0%float
  ∧ at_ (simulation_data w3) 0 "P" = None.
Proof.
  vm_compute. repeat split; try reflexivity.
  intros H. apply nan_not_zero. congruence.
Qed.

(** C5, amended. The row appended for a received record holds the values of
    the record; a field the record lacks is NaN when the frame has that
    column already, and is absent from the row (the frame gets no such
    column) otherwise: no field is set to 0.0.  This is the frame after the
    append of line 733, and, for every field other than the two that the step
    of line 736 writes, the frame [process_received_data] leaves. *)
Theorem C5_missing_fields_are_nan
    (w : MainWindow) (d : gmap string float) (c : string) :
  let row := len (simulation_data w) in
  let df := concat (simulation_data w) (of_record d) in
  let after := (process_received_data (json_dict d) w).2 in
  (∀ v, d !! c = Some v →
     at_ df row c = Some v
     ∧ (c ≠ "Valor Medido" → c ≠ "Error" →
        at_ (simulation_data after) row c = Some v))
  ∧ (d !! c = None → c ∈ columns (simulation_data w) →
     at_ df row c = Some nan
     ∧ (c ≠ "Valor Medido" → c ≠ "Error" →
        at_ (simulation_data after) row c = Some nan))
  ∧ (d !! c = None → c ∉ columns (simulation_data w) →
     at_ df row c = None
     ∧ (c ≠ "Valor Medido" → c ≠ "Error" →
        at_ (simulation_data after) row c = None)).
Proof.
  cbv zeta. rewrite process_received_data_dict. unfold update_plot.
  assert (∀ x, c ≠ "Valor Medido" → c ≠ "Error" →
            at_ (concat (simulation_data w) (of_record d))
                (len (simulation_data w)) c = Some x →
            at_ (simulation_data
                   (update_plot_with (timer_dt (appended d w)) (appended d w)).2)
                (len (simulation_data w)) c = Some x) as Hsome.
  { intros x H1 H2 Hx.
    destruct (update_plot_with_cases (timer_dt (appended d w)) (appended d w))
      as [[-> _] | [[label ->] | (sp & mv & _ & _ & [[-> _] | [-> _]])]];
      [done | done | ..].
    all: apply step_window_other; [by right | done]. }
  assert (c ≠ "Valor Medido" → c ≠ "Error" →
          c ∉ columns (concat (simulation_data w) (of_record d)) →
          at_ (simulation_data
                 (update_plot_with (timer_dt (appended d w)) (appended d w)).2)
              (len (simulation_data w)) c = None) as Hnone.
  { intros H1 H2 Hc.
    destruct (update_plot_with_cases (timer_dt (appended d w)) (appended d w))
      as [[-> _] | [[label ->] | (sp & mv & _ & _ & [[-> _] | [-> _]])]];
      [by apply at_absent | by apply at_absent | ..].
    all: by apply step_window_absent. }
  destruct (update_plot_with (timer_dt (appended d w)) (appended d w))
    as [[r|e] w'] eqn:Heq; cbn [snd] in *.
  all: split; [| split].
  all: try (intros v Hv; pose proof (at_concat_new_given (simulation_data w) d c v Hv);
            split; [done | intros; by apply Hsome]).
  all: try (intros Hv Hc;
            pose proof (at_concat_new_missing (simulation_data w) d c Hv Hc);
            split; [done | intros; by apply Hsome]).
  all: intros Hv Hc; split; [by apply at_concat_new_absent |];
    intros; apply Hnone; [done | done |];
    rewrite columns_concat, not_elem_of_union; split; [done |];
    by apply not_elem_of_dom.
Qed.

(** C5 amended, at the record without gains received after a full one. *)
Lemma C5_witness :
  let w1 := (process_received_data (json_dict full_record) init).2 in
  let w2 := (process_received_data (json_dict partial_record) w1).2 in
  at_ (simulation_data w2) (len (simulation_data w1)) "P" = Some nan.
Proof.
  cbv zeta.
  apply (C5_missing_fields_are_nan
           (process_received_data (json_dict full_record) init).2
           partial_record "P").
  - vm_compute. reflexivity.
  - refine (bool_decide_unpack _ _). vm_compute. exact I.
  - discriminate.
  - discriminate.
Defined.

End missing_fields.

(** ** What a run keeps *)

Section run_facts.
Import DataFrame DataFrameFacts.

Lemma param_name_not_written p :
  param_name p ≠ "Valor Medido" ∧ param_name p ≠ "Error".
Proof. by destruct p. Qed.

Lemma update_plot_with_gain_recorded dt p w :
  gain_recorded p w → gain_recorded p (update_plot_with dt w).2.
Proof.
  intros Hw.
  destruct (update_plot_with_cases dt w)
    as [[-> _] | [[label ->] | (sp & mv & _ & _ & [[-> _] | [-> _]])]];
    [done | done | ..].
  all: intros i Hi; cbn [snd] in *; rewrite ?step_written_data in *;
    rewrite step_window_len in Hi;
    rewrite ?step_window_fixed_gain, ?step_written_fixed_gain;
    apply step_window_other; [right; apply param_name_not_written | by apply Hw].
Qed.

Lemma update_plot_with_gain_absent dt p w :
  param_name p ∉ columns (simulation_data w) →
  param_name p ∉ columns (simulation_data (update_plot_with dt w).2).
Proof.
  intros Hw.
  destruct (update_plot_with_cases dt w)
    as [[-> _] | [[label ->] | (sp & mv & _ & _ & [[-> _] | [-> _]])]];
    [done | done | ..].
  all: cbn [snd]; rewrite ?step_written_data, step_window_columns;
    rewrite !not_elem_of_union, !elem_of_singleton;
    destruct (param_name_not_written p); done.
Qed.

Lemma started_gain_recorded p w :
  param_name p ∈ columns (simulation_data w) → gain_recorded p (started w).
Proof.
  intros Hc i Hi. rewrite started_fixed_gain. cbn [simulation_data started] in *.
  rewrite fixed_frame_len in Hi. by apply at_fixed_frame_gain.
Qed.

Lemma started_gain_absent p w :
  param_name p ∉ columns (simulation_data w) →
  param_name p ∉ columns (simulation_data (started w)).
Proof. intros Hc. cbn [simulation_data started]. by rewrite fixed_frame_columns. Qed.

End run_facts.

Section row_written_back.
Import DataFrame DataFrameFacts.

(** C4 as the specification states it fails: in the scenario of one row, whose
    frame has no gain columns, the step that processes row 0 applies the
    gains 1.0, 0.0, 0.0 and leaves the row without a P, I or D field. *)
Lemma C4_row_without_gain_fields :
  let w := start_simulation scenario_window in
  let after := update_plot w in
  after.1 = Ok (Advanced 0)
  ∧ fixed_gain w param_P = 1%float
  ∧ fixed_gain w param_I = 0%float
  ∧ fixed_gain w param_D = 0%float
  ∧ at_ (simulation_data after.2) 0 "P" = None
  ∧ at_ (simulation_data after.2) 0 "I" = None
  ∧ at_ (simulation_data after.2) 0 "D" = None
  ∧ at_ (simulation_data after.2) 0 "P" ≠ Some (fixed_gain w param_P).
Proof. vm_compute. repeat split; try reflexivity. discriminate. Qed.

(** A step that advances read the row at the cursor and drew the lines. *)
Lemma update_plot_with_advanced_inv dt w index w' :
  update_plot_with dt w = (Ok (Advanced index), w') →
  index = current_index w
  ∧ ∃ sp mv,
      at_ (simulation_data w) index "Setpoint" = Some sp
      ∧ at_ (simulation_data w) index "Valor Medido" = Some mv
      ∧ w' = step_window dt sp mv w
      ∧ plot_reads_ok w = true.
Proof.
  intros Heq.
  destruct (update_plot_with_cases dt w)
    as [[H _] | [[label H] | (sp & mv & Hsp & Hmv & [[H Hok] | [H _]])]];
    rewrite H in Heq; try discriminate.
  injection Heq as <- <-. split; [done |]. by exists sp, mv.
Qed.

(** C4, amended. A step that advances writes the updated measured value and
    the computed error into the row at the cursor, and writes no gain field:
    each P, I, D cell of the row is what it was, no gain column is made, and
    the gains of the run stay.  When the step is one of a run (a start
    followed by timer steps) the gains applied are the values read from the
    UI at the start, and each gain column the frame had at the start holds
    that value in the row, so that field reflects the gain used; a gain
    column the frame did not have at the start is not made. *)
Theorem C4_row_written_back
    (dt : float) (w w' : MainWindow) (index : nat) :
  update_plot_with dt w = (Ok (Advanced index), w') →
  index = current_index w
  ∧ (∃ sp mv,
       at_ (simulation_data w) index "Setpoint" = Some sp
       ∧ at_ (simulation_data w) index "Valor Medido" = Some mv
       ∧ at_ (simulation_data w') index "Error" = Some (sp - mv)%float
       ∧ at_ (simulation_data w') index "Valor Medido"
         = Some (mv + pid_output (fixed_gain w param_P) (fixed_gain w param_I)
                        (fixed_gain w param_D)
                        (sp - mv) (integral_error w + (sp - mv) * dt)
                        (if (0 <? dt)%float
                         then ((sp - mv - previous_error w) / dt)%float
                         else 0%float) * dt)%float)
  ∧ (∀ p x, at_ (simulation_data w) index (param_name p) = Some x →
            at_ (simulation_data w') index (param_name p) = Some x)
  ∧ (∀ p, param_name p ∈ columns (simulation_data w')
          ↔ param_name p ∈ columns (simulation_data w))
  ∧ fixed_pid_values w' = fixed_pid_values w
  ∧ (∀ dt0 n w0,
       empty (simulation_data w0) = false →
       w = run_ticks dt0 n (start_simulation w0) →
       let gain := get_pid_value_from_ui w0 in
       (∀ p, fixed_gain w p = gain p)
       ∧ (∀ p, param_name p ∈ columns (simulation_data w0) →
               at_ (simulation_data w') index (param_name p) = Some (gain p))
       ∧ (∀ p, param_name p ∉ columns (simulation_data w0) →
               at_ (simulation_data w') index (param_name p) = None)).
Proof.
  intros Heq.
  destruct (update_plot_with_advanced_inv _ _ _ _ Heq)
    as (-> & sp & mv & Hsp & Hmv & -> & _).
  pose proof (at_lt _ _ _ _ Hsp) as Hi.
  assert (∀ p x, at_ (simulation_data w) (current_index w) (param_name p) = Some x →
                 at_ (simulation_data (step_window dt sp mv w)) (current_index w)
                     (param_name p) = Some x) as Hcells.
  { intros p x Hx. destruct (param_name_not_written p) as [H1 H2].
    apply step_window_other; [by right | done]. }
  assert (∀ p, param_name p ∈ columns (simulation_data (step_window dt sp mv w))
               ↔ param_name p ∈ columns (simulation_data w)) as Hcols.
  { intros p. rewrite step_window_columns, !elem_of_union, !elem_of_singleton.
    destruct (param_name_not_written p). tauto. }
  split; [done |].
  split.
  { exists sp, mv. split; [done |]. split; [done |].
    split; [by apply step_window_error |].
    by rewrite step_window_measured. }
  split; [exact Hcells |]. split; [exact Hcols |]. split; [done |].
  intros dt0 n w0 Hdata -> gain. rewrite start_simulation_data in * by done.
  assert (∀ p, fixed_gain (run_ticks dt0 n (started w0)) p
               = get_pid_value_from_ui w0 p) as Hgain.
  { intros p. by rewrite run_ticks_fixed_gain, started_fixed_gain. }
  split; [exact Hgain |]. split.
  - intros p Hp. apply Hcells. unfold gain. rewrite <-Hgain.
    apply (run_ticks_invariant (gain_recorded p) dt0
             (update_plot_with_gain_recorded dt0 p) n (started w0));
      [by apply started_gain_recorded | done].
  - intros p Hp. apply at_absent. rewrite Hcols.
    apply (run_ticks_invariant
             (λ w', param_name p ∉ columns (simulation_data w')) dt0
             (update_plot_with_gain_absent dt0 p) n (started w0)).
    by apply started_gain_absent.
Qed.

End row_written_back.

Section gain_columns_example.
Import DataFrame DataFrameFacts.

(** C4 amended, at the second step of a run on the first two records of the
    server, whose frame has the three gain columns. *)
Lemma C4_witness :
  let w := run_ticks (1 / 10)%float 1 (start_simulation full_window) in
  let w' := (update_plot_with (1 / 10)%float w).2 in
  at_ (simulation_data w') 1 "P" = Some 1%float
  ∧ at_ (simulation_data w') 1 "I" = Some 0%float
  ∧ at_ (simulation_data w') 1 "D" = Some 0%float.
Proof.
  cbv zeta.
  destruct (C4_row_written_back (1 / 10)%float
              (run_ticks (1 / 10)%float 1 (start_simulation full_window))
              (update_plot_with (1 / 10)%float
                 (run_ticks (1 / 10)%float 1 (start_simulation full_window))).2
              1)
    as (_ & _ & _ & _ & _ & H).
  - vm_compute. reflexivity.
  - destruct (H (1 / 10)%float 1%nat full_window) as (_ & H1 & _).
    + vm_compute. reflexivity.
    + reflexivity.
    + split; [| split].
      * etrans; [apply (H1 param_P) |]; [| vm_compute; reflexivity].
        refine (bool_decide_unpack _ _). vm_compute. exact I.
      * etrans; [apply (H1 param_I) |]; [| vm_compute; reflexivity].
        refine (bool_decide_unpack _ _). vm_compute. exact I.
      * etrans; [apply (H1 param_D) |]; [| vm_compute; reflexivity].
        refine (bool_decide_unpack _ _). vm_compute. exact I.
Defined.

End gain_columns_example.

(** ** The integral over a run *)

Section integral_over_run.
Import DataFrame DataFrameFacts.

(** The rows before the cursor are not written again. *)
Lemma run_ticks_processed_rows dt n w i c v :
  i < current_index w →
  at_ (simulation_data w) i c = Some v →
  at_ (simulation_data (run_ticks dt n w)) i c = Some v.
Proof.
  revert w. induction n as [|n IH]; intros w Hi Hv; [done |].
  cbn. apply IH.
  - pose proof (update_plot_with_cursor dt w). lia.
  - apply update_plot_with_other_rows; [lia | done].
Qed.

Lemma accumulate_S e dt n acc :
  accumulate e dt n (acc + e * dt)%float = accumulate e dt (S n) acc.
Proof. unfold accumulate. by rewrite Nat.iter_succ_r. Qed.

(** C8 as the specification states it fails in binary64: six steps at dt = 0.1 that
    each see the error 1, with only I enabled at gain 1, leave the integral
    at 0.1 added six times, which is one unit in the last place below
    [1 * dt * 6]; the measured value the sixth step writes differs from the
    one the stated output gives. *)
Lemma C8_six_steps_differ_from_product :
  let w := start_simulation constant_error_window in
  let dt := timer_dt w in
  let w6 := run_ticks dt 6 w in
  dt = (1 / 10)%float
  ∧ (0 <? dt)%float = true
  ∧ (fixed_gain w param_P, fixed_gain w param_I, fixed_gain w param_D)
    = (0%float, 1%float, 0%float)
  ∧ (λ j, at_ (simulation_data w) j "Setpoint") <$> seq 0 6
    = replicate 6 (Some 1%float)
  ∧ (λ j, at_ (simulation_data w) j "Valor Medido") <$> seq 0 6
    = replicate 6 (Some 0%float)
  ∧ current_index w6 = 6
  ∧ integral_error w6 = (dt + dt + dt + dt + dt + dt)%float
  ∧ (1 * dt * 6 - integral_error w6)%float = 0x1p-53%float
  ∧ integral_error w6 ≠ (1 * dt * 6)%float
  ∧ at_ (simulation_data w6) 5 "Valor Medido"
    ≠ Some (0 + (1 * 1 * dt * 6) * dt)%float.
Proof.
  vm_compute. repeat split; try reflexivity; discriminate.
Qed.

(** C8, amended. On a frame that has the column Time (or with no line of the
    plot shown), so that every step moves the cursor on: over [n] steps that
    each see the error [e], whatever the
    gains and whichever axes are enabled, the integral grows by the rounded
    addition of [e * dt] at every step: after the [n] steps it is the
    accumulator it started from (0 after a start) with [e * dt] added [n]
    times, and the cursor is [n] rows further.  Step [j + 1] writes
    measured + output * dt into its row, with
    output = Kp*e + Ki*(integral after j + 1 additions) + Kd*derivative; with
    Kp = Kd = 0 and Ki = k this is 0*e + k*integral + 0*derivative. *)
Theorem C8_integral_accumulates (dt e : float) (n : nat) (w : MainWindow) :
  plots_shown w = false ∨ "Time" ∈ columns (simulation_data w) →
  (∀ j, j < n →
     ∃ sp mv,
       at_ (simulation_data w) (current_index w + j) "Setpoint" = Some sp
       ∧ at_ (simulation_data w) (current_index w + j) "Valor Medido" = Some mv
       ∧ (sp - mv)%float = e) →
  integral_error (run_ticks dt n w) = accumulate e dt n (integral_error w)
  ∧ current_index (run_ticks dt n w) = current_index w + n
  ∧ ∀ j mv,
      j < n →
      at_ (simulation_data w) (current_index w + j) "Valor Medido" = Some mv →
      at_ (simulation_data (run_ticks dt n w)) (current_index w + j) "Valor Medido"
      = Some (mv + pid_output (fixed_gain w param_P) (fixed_gain w param_I)
                     (fixed_gain w param_D) e
                     (accumulate e dt (S j) (integral_error w))
                     (if (0 <? dt)%float
                      then ((e - match j with
                                 | 0 => previous_error w
                                 | S _ => e
                                 end) / dt)%float
                      else 0%float) * dt)%float.
Proof.
  intros Hplot. apply plot_reads_ok_intro in Hplot. revert Hplot.
  revert w. induction n as [|n IH]; intros w Hplot Hrows.
  { cbn. split; [done |]. split; [lia |]. intros j mv Hj. lia. }
  destruct (Hrows 0) as (sp0 & mv0 & Hsp0 & Hmv0 & He0); [lia |].
  rewrite Nat.add_0_r in Hsp0, Hmv0.
  cbn [run_ticks]. rewrite (update_plot_with_advanced dt w sp0 mv0 Hsp0 Hmv0 Hplot).
  cbn [snd]. set (w1 := step_window dt sp0 mv0 w).
  assert (∀ j c v, at_ (simulation_data w) (current_index w + S j) c = Some v →
                   at_ (simulation_data w1) (current_index w1 + j) c = Some v)
    as Hlater.
  { intros j c v Hv. unfold w1. rewrite step_window_current_index.
    replace (current_index w + 1 + j) with (current_index w + S j) by lia.
    apply step_window_other; [left; lia | done]. }
  destruct (IH w1) as (Hint & Hcur & Hcells).
  { unfold w1. by rewrite plot_reads_ok_step_window. }
  { intros j Hj. destruct (Hrows (S j)) as (sp & mv & Hsp & Hmv & He); [lia |].
    exists sp, mv. split; [by apply Hlater |]. split; [by apply Hlater | done]. }
  assert (integral_error w1 = (integral_error w + e * dt)%float) as Hint1.
  { unfold w1. rewrite step_window_integral_error.
    unfold step_integral, step_error. by rewrite He0. }
  assert (previous_error w1 = e) as Hprev1.
  { unfold w1. rewrite step_window_previous_error. unfold step_error. done. }
  split; [| split].
  - rewrite Hint, Hint1. apply accumulate_S.
  - rewrite Hcur. unfold w1. rewrite step_window_current_index. lia.
  - intros [|j] mv Hj Hmv.
    + rewrite Nat.add_0_r in Hmv |- *.
      assert (mv = mv0) as -> by congruence.
      apply run_ticks_processed_rows.
      { unfold w1. rewrite step_window_current_index. lia. }
      unfold w1. rewrite step_window_measured by by eapply at_lt.
      unfold step_measured, step_output, step_integral, step_derivative, step_error.
      rewrite He0. done.
    + replace (current_index w + S j) with (current_index w1 + j)
        by (unfold w1; rewrite step_window_current_index; lia).
      rewrite (Hcells j mv); [| lia | by apply Hlater].
      unfold w1 at 1 2 3. rewrite !step_window_fixed_gain.
      rewrite Hint1, accumulate_S, Hprev1. by destruct j.
Qed.

(** C8 amended, at the six steps of the run above. *)
Lemma C8_witness :
  let w := start_simulation constant_error_window in
  let dt := (1 / 10)%float in
  integral_error (run_ticks dt 6 w) = accumulate 1 dt 6 0
  ∧ current_index (run_ticks dt 6 w) = 6.
Proof.
  cbv zeta.
  destruct (C8_integral_accumulates (1 / 10)%float 1%float 6
              (start_simulation constant_error_window)) as (H1 & H2 & _).
  - right. refine (bool_decide_unpack _ _). vm_compute. exact I.
  - intros j Hj. exists 1%float, 0%float.
    do 6 (destruct j as [|j]; [vm_compute; repeat split; reflexivity |]).
    lia.
  - split; [exact H1 | exact H2].
Defined.

End integral_over_run.

(** ** The receive loop *)

Section undecodable_chunk.
Import DataFrame DataFrameFacts.

(** One pass of the loop on a chunk that is text but no JSON: two lines are
    printed, nothing else changes, and the loop goes on with the next chunk. *)
Lemma receive_loop_not_json rest w :
  running w = true →
  receive_loop (chunk_not_json :: rest) w
  = receive_loop rest
      (print msg_json_error (print msg_chunk (print msg_waiting w))).
Proof.
  intros Hrun. cbn [receive_loop]. unfold mbind, action_bind, get, modify.
  by rewrite Hrun.
Qed.

(** One pass on a chunk that is not UTF-8: the exception of line 711 leaves
    the loop. *)
Lemma receive_loop_not_utf8 rest w :
  running w = true →
  receive_loop (chunk_not_utf8 :: rest) w
  = (Raise UnicodeDecodeError, print msg_waiting w).
Proof.
  intros Hrun. cbn [receive_loop]. unfold mbind, action_bind, get, modify, raise.
  by rewrite Hrun.
Qed.

(** C9 does not hold of the code for a chunk that is not valid UTF-8: the
    connection handler prints the error and returns, whatever chunks follow;
    the frame is as it was.  With a valid record as the next chunk the frame
    of a fresh window stays empty, where the specification has it gain one row. *)
Theorem C9_undecodable_chunk_ends_the_loop :
  (∀ (rest : list chunk) (w : MainWindow),
     start_socket_connection (connected (chunk_not_utf8 :: rest)) w
     = print (msg_socket_error UnicodeDecodeError)
         (print msg_waiting
            (print msg_connected (print msg_connecting (set_running true w)))))
  ∧ (let after :=
       start_socket_connection
         (connected [chunk_not_utf8; chunk_json (json_dict full_record)]) init in
     len (simulation_data after) = 0
     ∧ console after
       = [msg_connecting; msg_connected; msg_waiting;
          msg_socket_error UnicodeDecodeError])
  ∧ (let after :=
       start_socket_connection
         (connected [chunk_json (json_dict full_record)]) init in
     len (simulation_data after) = 1).
Proof.
  split; [| split].
  - intros rest w. unfold start_socket_connection, receive_data.
    by rewrite receive_loop_not_utf8.
  - vm_compute. split; reflexivity.
  - vm_compute. reflexivity.
Qed.

End undecodable_chunk.

Section receive_loop_facts.
Import DataFrame DataFrameFacts.

(** A chunk of text that is no JSON is reported and dropped, and the loop
    goes on: the frame, the cursor and the errors are untouched by it, and a
    valid record that follows is appended.  Received by a fresh window, the
    two chunks leave one row, the record's, and no socket error is printed. *)
Theorem malformed_json_chunk_is_skipped (rest : list chunk) (w : MainWindow) :
  running w = true →
  (∃ w',
     receive_loop (chunk_not_json :: rest) w = receive_loop rest w'
     ∧ console w' = console w ++ [msg_waiting; msg_chunk; msg_json_error]
     ∧ simulation_data w' = simulation_data w
     ∧ current_index w' = current_index w
     ∧ previous_error w' = previous_error w
     ∧ integral_error w' = integral_error w
     ∧ running w' = running w)
  ∧ (let after :=
       start_socket_connection
         (connected [chunk_not_json; chunk_json (json_dict full_record)]) init in
     len (simulation_data after) = 1
     ∧ at_ (simulation_data after) 0 "Setpoint" = Some 50%float
     ∧ console after
       = [msg_connecting; msg_connected; msg_waiting; msg_chunk; msg_json_error;
          msg_waiting; msg_chunk; msg_record; msg_waiting]).
Proof.
  intros Hrun. split.
  - eexists. split; [by apply receive_loop_not_json |].
    cbn. by rewrite <-!app_assoc.
  - vm_compute. repeat split; reflexivity.
Qed.

Lemma malformed_json_chunk_is_skipped_witness :
  ∃ w',
    receive_loop [chunk_not_json; chunk_json (json_dict full_record)]
                 (set_running true init)
    = receive_loop [chunk_json (json_dict full_record)] w'
    ∧ simulation_data w' = simulation_data init.
Proof.
  destruct (proj1 (malformed_json_chunk_is_skipped
                     [chunk_json (json_dict full_record)] (set_running true init)
                     eq_refl))
    as (w' & H1 & _ & H2 & _).
  exists w'. split; [exact H1 | exact H2].
Defined.

Lemma update_plot_with_in_range dt w :
  cursor_in_range w → cursor_in_range (update_plot_with dt w).2.
Proof.
  unfold cursor_in_range. intros Hw.
  destruct (update_plot_with_cases dt w)
    as [[-> _] | [[label ->] | (sp & mv & Hsp & _ & [[-> _] | [-> _]])]];
    [done | done | ..].
  - cbn [snd]. rewrite step_window_len, step_window_current_index.
    apply at_lt in Hsp. lia.
  - cbn [snd]. rewrite step_written_data, step_window_len. done.
Qed.

Lemma process_received_data_in_range v w :
  cursor_in_range w → cursor_in_range (process_received_data v w).2.
Proof.
  intros Hw. destruct v as [d|]; [| done].
  rewrite process_received_data_dict. unfold update_plot.
  assert (cursor_in_range (appended d w)) as Ha.
  { unfold cursor_in_range, appended in *. cbn [simulation_data set_simulation_data
      current_index print]. rewrite len_concat. lia. }
  pose proof (update_plot_with_in_range (timer_dt (appended d w)) _ Ha) as H.
  by destruct (update_plot_with _ _) as [[r|e] w'].
Qed.

Lemma receive_loop_in_range chunks w :
  cursor_in_range w → cursor_in_range (receive_loop chunks w).2.
Proof.
  revert w. induction chunks as [|data rest IH]; intros w Hw.
  - cbn. unfold mbind, action_bind, get. by destruct (running w).
  - cbn [receive_loop]. unfold mbind, action_bind, get, modify, raise.
    destruct (running w); [| done].
    destruct data as [| | |v]; [done | done | by apply IH |].
    pose proof (process_received_data_in_range v
                  (print msg_chunk (print msg_waiting w)) Hw) as Hv.
    destruct (process_received_data v _) as [[r|e] w']; [by apply IH | done].
Qed.

(** A row that cannot be read raises for the first of the two columns it
    lacks. *)
Lemma update_plot_with_unreadable dt w :
  finished w = false →
  at_ (simulation_data w) (current_index w) "Setpoint" = None ∨
  at_ (simulation_data w) (current_index w) "Valor Medido" = None →
  update_plot_with dt w = (Raise (KeyError "Setpoint"), w)
  ∨ update_plot_with dt w = (Raise (KeyError "Valor Medido"), w).
Proof.
  intros Hfin Hnone. unfold update_plot_with, finished in *.
  unfold mbind, action_bind, get. rewrite Hfin. unfold read_at.
  destruct (at_ _ _ "Setpoint") as [sp|]; [| by left].
  destruct Hnone as [|Hmv]; [done |]. rewrite Hmv. by right.
Qed.

(** Steps follow the cursor.  A step that advances processed the row at the
    cursor, which is a row of the frame, and moved the cursor to the next
    one.  A step that is [Done] leaves the cursor, the frame and both errors
    as they were.  A step that raises keeps the cursor and the length of the
    frame: it raises [KeyError] for Setpoint or Valor Medido before anything
    is written, the window as it was, or [KeyError] for Time after the row at
    the cursor was written and both errors were updated, so that the next
    step processes the same row again. *)
Theorem steps_follow_the_cursor (dt : float) (w : MainWindow) :
  match update_plot_with dt w with
  | (Ok (Advanced i), w') =>
      i = current_index w
      ∧ i < len (simulation_data w)
      ∧ current_index w' = i + 1
      ∧ len (simulation_data w') = len (simulation_data w)
  | (Ok Done, w') =>
      current_index w' = current_index w
      ∧ simulation_data w' = simulation_data w
      ∧ previous_error w' = previous_error w
      ∧ integral_error w' = integral_error w
  | (Raise e, w') =>
      current_index w' = current_index w
      ∧ len (simulation_data w') = len (simulation_data w)
      ∧ (w' = w ∧ (e = KeyError "Setpoint" ∨ e = KeyError "Valor Medido")
         ∨ e = KeyError "Time"
           ∧ plots_shown w = true
           ∧ ("Time" ∉ columns (simulation_data w))
           ∧ ∃ sp mv,
               at_ (simulation_data w) (current_index w) "Setpoint" = Some sp
               ∧ at_ (simulation_data w) (current_index w) "Valor Medido" = Some mv
               ∧ w' = step_written dt sp mv w
               ∧ at_ (simulation_data w') (current_index w) "Error"
                 = Some (sp - mv)%float
               ∧ previous_error w' = (sp - mv)%float
               ∧ integral_error w' = (integral_error w + (sp - mv) * dt)%float)
  end.
Proof.
  destruct (finished w) eqn:Hfin.
  { by rewrite (update_plot_with_done dt w Hfin). }
  destruct (at_ (simulation_data w) (current_index w) "Setpoint") as [sp|] eqn:Hsp;
    [| destruct (update_plot_with_unreadable dt w Hfin) as [-> | ->]; auto 6].
  destruct (at_ (simulation_data w) (current_index w) "Valor Medido") as [mv|] eqn:Hmv;
    [| destruct (update_plot_with_unreadable dt w Hfin) as [-> | ->]; auto 6].
  pose proof (at_lt _ _ _ _ Hsp) as Hi.
  destruct (plot_reads_ok w) eqn:Hok.
  - rewrite (update_plot_with_advanced dt w sp mv Hsp Hmv Hok).
    split; [done |]. split; [done |]. split; [done | apply step_window_len].
  - rewrite (update_plot_with_time_error dt w sp mv Hsp Hmv Hok).
    apply plot_reads_ok_false in Hok as [Hshown Htime].
    split; [done |].
    split; [rewrite step_written_data; apply step_window_len |].
    right. split; [done |]. split; [done |]. split; [done |].
    exists sp, mv. split; [done |]. split; [done |]. split; [done |].
    split; [by apply step_window_error | done].
Qed.

(** The cursor stays within the frame: it is so in a fresh window, and every
    operation keeps it so (a step, a start, a pause, a reset, a received
    record, a whole connection). *)
Theorem cursor_stays_in_range (w : MainWindow) :
  cursor_in_range init
  ∧ (cursor_in_range w →
     (∀ dt, cursor_in_range (update_plot_with dt w).2)
     ∧ cursor_in_range (update_plot w).2
     ∧ cursor_in_range (start_simulation w)
     ∧ cursor_in_range (pause_simulation w)
     ∧ cursor_in_range (reset_simulation w)
     ∧ (∀ v, cursor_in_range (process_received_data v w).2)
     ∧ (∀ c, cursor_in_range (start_socket_connection c w))).
Proof.
  split; [unfold cursor_in_range; cbn; lia |].
  intros Hw. split; [intros dt; by apply update_plot_with_in_range |].
  split; [unfold update_plot; by apply update_plot_with_in_range |].
  split.
  { unfold start_simulation. destruct (empty (simulation_data w)); [done |].
    unfold cursor_in_range. cbn. lia. }
  split; [done |].
  split; [rewrite reset_simulation_window; unfold cursor_in_range; cbn; lia |].
  split; [intros v; by apply process_received_data_in_range |].
  intros [|chunks]; [done |].
  unfold start_socket_connection, receive_data.
  pose proof (receive_loop_in_range chunks
                (print msg_connected (print msg_connecting (set_running true w)))
                Hw) as H.
  by destruct (receive_loop chunks _) as [[r|e] w'].
Qed.

Lemma cursor_stays_in_range_witness :
  cursor_in_range (update_plot (start_simulation two_row_window)).2
  ∧ cursor_in_range
      (start_socket_connection
         (connected [chunk_json (json_dict full_record)])
         (start_simulation two_row_window)).
Proof.
  assert (cursor_in_range (start_simulation two_row_window)) as Hw.
  { vm_compute. lia. }
  destruct (proj2 (cursor_stays_in_range (start_simulation two_row_window)) Hw)
    as (_ & H1 & _ & _ & _ & _ & H2).
  split; [exact H1 | apply H2].
Defined.

End receive_loop_facts.

(** * Further properties *)

(** ** A run over the rows of the frame *)

Section whole_run.
Import DataFrame DataFrameFacts.

Lemma finished_set_timer_active b w :
  finished (set_timer_active b w) = finished w.
Proof. done. Qed.

(** Once past the last row, the timer may fire any number of times: only the
    first step after the end does something, and all it does is stop the
    timer. *)
Theorem finished_run_stays_finished (dt : float) (n : nat) (w : MainWindow) :
  finished w = true →
  run_ticks dt (S n) w = set_timer_active false w.
Proof.
  intros Hfin. revert w Hfin. induction n as [|n IH]; intros w Hfin.
  - cbn. by rewrite update_plot_with_done.
  - change (run_ticks dt (S (S n)) w)
      with (run_ticks dt (S n) (update_plot_with dt w).2).
    rewrite update_plot_with_done by done. cbn [snd].
    by rewrite IH.
Qed.

Lemma finished_run_stays_finished_witness :
  run_ticks (1 / 10)%float 3 (set_current_index 1 scenario_window)
  = set_timer_active false (set_current_index 1 scenario_window).
Proof.
  apply (finished_run_stays_finished (1 / 10)%float 2
           (set_current_index 1 scenario_window)).
  vm_compute. reflexivity.
Defined.

(** On a frame that has the column Time (or with no line of the plot shown)
    the steps of the timer over the rows from the cursor on compute the
    recurrence [pid_trace] on the set points and measured values of those
    rows: after as many steps as there are samples the cursor is past them,
    each row holds the error and the new measured value of its sample and
    its set point as before, and the previous error and the integral are
    those of the recurrence.  If these were the last rows, the next step is
    [Done] and stops the timer. *)
Theorem run_ticks_computes_pid_trace
    (dt : float) (samples : list (float * float)) (w : MainWindow) :
  plots_shown w = false ∨ "Time" ∈ columns (simulation_data w) →
  (∀ j sp mv, samples !! j = Some (sp, mv) →
     at_ (simulation_data w) (current_index w + j) "Setpoint" = Some sp
     ∧ at_ (simulation_data w) (current_index w + j) "Valor Medido" = Some mv) →
  let w' := run_ticks dt (length samples) w in
  let trace :=
    pid_trace (fixed_gain w param_P) (fixed_gain w param_I) (fixed_gain w param_D)
              dt (previous_error w) (integral_error w) samples in
  current_index w' = current_index w + length samples
  ∧ len (simulation_data w') = len (simulation_data w)
  ∧ (previous_error w', integral_error w')
    = pid_final dt (previous_error w) (integral_error w) samples
  ∧ (∀ j e m, trace !! j = Some (e, m) →
       at_ (simulation_data w') (current_index w + j) "Error" = Some e
       ∧ at_ (simulation_data w') (current_index w + j) "Valor Medido" = Some m)
  ∧ (∀ j sp mv, samples !! j = Some (sp, mv) →
       at_ (simulation_data w') (current_index w + j) "Setpoint" = Some sp)
  ∧ (current_index w + length samples = len (simulation_data w) →
     update_plot_with dt w' = (Ok Done, set_timer_active false w')).
Proof.
  cbv zeta. intros Hplot. apply plot_reads_ok_intro in Hplot. revert Hplot.
  revert w. induction samples as [|[sp0 mv0] rest IH]; intros w Hplot Hrows.
  { cbn. split; [lia |]. split; [done |]. split; [done |].
    split; [done |]. split; [done |].
    intros Hend. apply update_plot_with_done. unfold finished.
    rewrite orb_true_iff. right. apply bool_decide_eq_true. lia. }
  destruct (Hrows 0 sp0 mv0 eq_refl) as [Hsp0 Hmv0].
  rewrite Nat.add_0_r in Hsp0, Hmv0.
  cbn [length run_ticks].
  rewrite (update_plot_with_advanced dt w sp0 mv0 Hsp0 Hmv0 Hplot). cbn [snd].
  set (w1 := step_window dt sp0 mv0 w).
  assert (current_index w1 = current_index w + 1) as Hcur1 by done.
  assert (∀ j c v, at_ (simulation_data w) (current_index w + S j) c = Some v →
                   at_ (simulation_data w1) (current_index w1 + j) c = Some v)
    as Hlater.
  { intros j c v Hv. rewrite Hcur1.
    replace (current_index w + 1 + j) with (current_index w + S j) by lia.
    apply step_window_other; [left; lia | done]. }
  destruct (IH w1) as (Hcur & Hlen & Hfinal & Hcells & Hsps & Hdone).
  { unfold w1. by rewrite plot_reads_ok_step_window. }
  { intros j sp mv Hj. destruct (Hrows (S j) sp mv Hj) as [Hsp Hmv].
    split; by apply Hlater. }
  pose proof (at_lt _ _ _ _ Hsp0) as Hi0.
  split; [rewrite Hcur, Hcur1; lia |].
  split; [rewrite Hlen; apply step_window_len |].
  split; [exact Hfinal |].
  split; [| split].
  - intros [|j] e m Hj.
    + cbn in Hj. injection Hj as <- <-. rewrite Nat.add_0_r.
      split; (apply run_ticks_processed_rows; [rewrite Hcur1; lia |]).
      * by apply step_window_error.
      * by apply step_window_measured.
    + replace (current_index w + S j) with (current_index w1 + j)
        by (rewrite Hcur1; lia).
      by apply Hcells.
  - intros [|j] sp mv Hj.
    + cbn in Hj. injection Hj as <- <-. rewrite Nat.add_0_r.
      apply run_ticks_processed_rows; [rewrite Hcur1; lia |].
      apply step_window_other; [by right | done].
    + replace (current_index w + S j) with (current_index w1 + j)
        by (rewrite Hcur1; lia).
      by eapply Hsps.
  - intros Hend. apply Hdone.
    rewrite Hcur1. unfold w1. rewrite step_window_len. lia.
Qed.

(** The two rows of [two_row_window] after a start: the run of two steps. *)
Lemma run_ticks_computes_pid_trace_witness :
  let w := start_simulation two_row_window in
  let w' := run_ticks (1 / 10)%float 2 w in
  current_index w' = 2
  ∧ at_ (simulation_data w') 1 "Error" = Some 5%float
  ∧ update_plot_with (1 / 10)%float w' = (Ok Done, set_timer_active false w').
Proof.
  cbv zeta.
  destruct (run_ticks_computes_pid_trace (1 / 10)%float
              [(50%float, 40%float); (50%float, 45%float)]
              (start_simulation two_row_window))
    as (H1 & _ & _ & H2 & _ & H3).
  - right. refine (bool_decide_unpack _ _). vm_compute. exact I.
  - intros [|[|j]] sp mv Hj; try done;
      injection Hj as <- <-; vm_compute; split; reflexivity.
  - split; [exact H1 |]. split.
    + apply (H2 1 5%float _ eq_refl).
    + apply H3. vm_compute. reflexivity.
Defined.

End whole_run.

(** ** Records that can and cannot be processed *)

Section record_processing.
Import DataFrame DataFrameFacts.

Lemma reindex_total cols (r : gmap string float) c :
  c ∈ cols → is_Some (reindex cols r !! c).
Proof.
  intros Hc. destruct (r !! c) as [v|] eqn:Hr.
  - exists v. by apply reindex_lookup_Some.
  - exists nan. by apply reindex_lookup_nan.
Qed.

(** After an append every row has a cell in every column. *)
Lemma at_concat_total df d i c :
  c ∈ columns df ∪ dom d → i < S (len df) →
  is_Some (at_ (concat df (of_record d)) i c).
Proof.
  intros Hc Hi.
  assert (is_Some ((rows df ++ [d]) !! i)) as [r Hr].
  { apply lookup_lt_is_Some. rewrite length_app. cbn. unfold len in Hi. lia. }
  destruct (reindex_total (columns df ∪ dom d) r c Hc) as [v Hv].
  exists v. apply at_Some. split; [done |].
  exists (reindex (columns df ∪ dom d) r). split; [| done].
  unfold concat, of_record; cbn. by rewrite list_lookup_fmap, Hr.
Qed.

Lemma appended_current_index d w : current_index (appended d w) = current_index w.
Proof. done. Qed.

Lemma appended_len d w :
  len (simulation_data (appended d w)) = S (len (simulation_data w)).
Proof. apply len_concat. Qed.

Lemma appended_columns d w :
  columns (simulation_data (appended d w)) = columns (simulation_data w) ∪ dom d.
Proof. done. Qed.

(** With the two columns there and the cursor within the frame, the row at
    the cursor of the appended frame can be read. *)
Lemma appended_row_readable w d :
  cursor_in_range w →
  "Setpoint" ∈ columns (simulation_data w) ∪ dom d →
  "Valor Medido" ∈ columns (simulation_data w) ∪ dom d →
  ∃ sp mv,
    at_ (simulation_data (appended d w)) (current_index w) "Setpoint" = Some sp
    ∧ at_ (simulation_data (appended d w)) (current_index w) "Valor Medido"
      = Some mv.
Proof.
  intros Hrange Hsp Hmv. unfold cursor_in_range in Hrange.
  destruct (at_concat_total (simulation_data w) d (current_index w) _ Hsp)
    as [sp Hsp']; [lia |].
  destruct (at_concat_total (simulation_data w) d (current_index w) _ Hmv)
    as [mv Hmv']; [lia |].
  by exists sp, mv.
Qed.

(** It is processed when the lines that are shown find the column Time. *)
Lemma process_dict_advances w d :
  cursor_in_range w →
  "Setpoint" ∈ columns (simulation_data w) ∪ dom d →
  "Valor Medido" ∈ columns (simulation_data w) ∪ dom d →
  plots_shown w = false ∨ "Time" ∈ columns (simulation_data w) ∪ dom d →
  ∃ sp mv,
    at_ (simulation_data (appended d w)) (current_index w) "Setpoint" = Some sp
    ∧ at_ (simulation_data (appended d w)) (current_index w) "Valor Medido"
      = Some mv
    ∧ process_received_data (json_dict d) w
      = (Ok tt, step_window (timer_dt w) sp mv (appended d w)).
Proof.
  intros Hrange Hsp Hmv Hplot.
  destruct (appended_row_readable w d Hrange Hsp Hmv) as (sp & mv & Hsp' & Hmv').
  exists sp, mv. split; [done |]. split; [done |].
  rewrite process_received_data_dict. unfold update_plot.
  apply plot_reads_ok_appended in Hplot.
  by rewrite (update_plot_with_advanced _ (appended d w) sp mv Hsp' Hmv' Hplot).
Qed.

(** When they do not, [KeyError] for Time leaves [process_received_data]
    after the row was written. *)
Lemma process_dict_time_error w d :
  cursor_in_range w →
  "Setpoint" ∈ columns (simulation_data w) ∪ dom d →
  "Valor Medido" ∈ columns (simulation_data w) ∪ dom d →
  plots_shown w = true →
  "Time" ∉ columns (simulation_data w) ∪ dom d →
  ∃ sp mv,
    at_ (simulation_data (appended d w)) (current_index w) "Setpoint" = Some sp
    ∧ at_ (simulation_data (appended d w)) (current_index w) "Valor Medido"
      = Some mv
    ∧ process_received_data (json_dict d) w
      = (Raise (KeyError "Time"), step_written (timer_dt w) sp mv (appended d w)).
Proof.
  intros Hrange Hsp Hmv Hshown Htime.
  destruct (appended_row_readable w d Hrange Hsp Hmv) as (sp & mv & Hsp' & Hmv').
  exists sp, mv. split; [done |]. split; [done |].
  rewrite process_received_data_dict. unfold update_plot.
  assert (plot_reads_ok (appended d w) = false) as Hno.
  { destruct (plot_reads_ok (appended d w)) eqn:Hok; [| done].
    apply plot_reads_ok_appended in Hok as [Hok | Hok]; [congruence | done]. }
  by rewrite (update_plot_with_time_error _ (appended d w) sp mv Hsp' Hmv' Hno).
Qed.

(** A row that lacks one of the two columns the step reads first: the step
    raises before it writes. *)
Lemma process_dict_key_error w d label :
  cursor_in_range w →
  columns (simulation_data w) ∪ dom d ≠ ∅ →
  (label = "Setpoint" ∧ "Setpoint" ∉ columns (simulation_data w) ∪ dom d
   ∨ label = "Valor Medido"
     ∧ "Setpoint" ∈ columns (simulation_data w) ∪ dom d
     ∧ "Valor Medido" ∉ columns (simulation_data w) ∪ dom d) →
  process_received_data (json_dict d) w = (Raise (KeyError label), appended d w).
Proof.
  intros Hrange Hcols Hlabel. unfold cursor_in_range in Hrange.
  rewrite process_received_data_dict. unfold update_plot.
  assert (finished (appended d w) = false) as Hfin.
  { unfold finished. rewrite orb_false_iff. split.
    - apply empty_false. rewrite appended_columns. split; [| done].
      unfold appended, concat, of_record; cbn.
      by destruct (rows (simulation_data w)).
    - apply bool_decide_eq_false.
      rewrite appended_len, appended_current_index. lia. }
  unfold update_plot_with, finished in *.
  unfold mbind, action_bind, get. rewrite Hfin. unfold read_at.
  destruct Hlabel as [[-> Hno] | (-> & Hsp & Hno)].
  - rewrite at_absent; [done |]. by rewrite appended_columns.
  - destruct (at_concat_total (simulation_data w) d (current_index w) _ Hsp)
      as [sp Hsp']; [lia |].
    rewrite appended_current_index.
    change (simulation_data (appended d w))
      with (concat (simulation_data w) (of_record d)).
    rewrite Hsp'. rewrite at_absent; [done |].
    by rewrite ?appended_columns, ?columns_concat.
Qed.

(** The empty record on a frame without columns: the frame stays empty, and
    the step only stops the timer. *)
Lemma process_dict_no_columns w d :
  columns (simulation_data w) ∪ dom d = ∅ →
  process_received_data (json_dict d) w
  = (Ok tt, set_timer_active false (appended d w)).
Proof.
  intros Hcols. rewrite process_received_data_dict. unfold update_plot.
  rewrite update_plot_with_done; [done |].
  unfold finished. rewrite orb_true_iff. left.
  unfold empty. rewrite orb_true_iff. right. apply bool_decide_eq_true.
  by rewrite appended_columns.
Qed.

(** An exception that leaves [process_received_data] ends the connection. *)
Lemma connection_ends_at_raise v rest w e w1 :
  process_received_data v
    (print msg_chunk
       (print msg_waiting
          (print msg_connected (print msg_connecting (set_running true w)))))
  = (Raise e, w1) →
  start_socket_connection (connected (chunk_json v :: rest)) w
  = print (msg_socket_error e) w1.
Proof.
  intros Hraise. unfold start_socket_connection, receive_data.
  cbn [receive_loop]. unfold mbind at 1, action_bind at 1, get. cbn [running
    print set_running].
  unfold mbind, action_bind, modify.
  by rewrite Hraise.
Qed.

Lemma step_window_appended_ready dt sp mv d w :
  cursor_in_range w →
  "Setpoint" ∈ columns (simulation_data w) ∪ dom d →
  plots_shown w = false ∨ "Time" ∈ columns (simulation_data w) ∪ dom d →
  feed_ready (step_window dt sp mv (appended d w)).
Proof.
  intros Hrange Hsp Hplot. unfold cursor_in_range in Hrange.
  split; [| split; [| split]].
  - unfold cursor_in_range.
    rewrite step_window_len, appended_len, step_window_current_index,
      appended_current_index. lia.
  - rewrite step_window_columns, appended_columns.
    apply elem_of_union_r, elem_of_union_r. done.
  - rewrite step_window_columns. apply elem_of_union_r, elem_of_union_l.
    by apply elem_of_singleton.
  - rewrite plot_reads_ok_step_window. by apply plot_reads_ok_appended.
Qed.

(** A record of floats received when, counting its own fields, the frame has
    the columns Setpoint and Valor Medido, and the column Time unless no
    line of the plot is shown, and the cursor is within the frame: the
    record becomes the last row and the row at the cursor is processed.
    Nothing is raised, the frame is one row longer, the cursor one further,
    and the next record will find the window ready again. *)
Theorem record_is_appended_and_one_row_processed
    (w : MainWindow) (d : gmap string float) :
  cursor_in_range w →
  "Setpoint" ∈ columns (simulation_data w) ∪ dom d →
  "Valor Medido" ∈ columns (simulation_data w) ∪ dom d →
  plots_shown w = false ∨ "Time" ∈ columns (simulation_data w) ∪ dom d →
  ∃ sp mv,
    at_ (simulation_data (appended d w)) (current_index w) "Setpoint" = Some sp
    ∧ at_ (simulation_data (appended d w)) (current_index w) "Valor Medido"
      = Some mv
    ∧ process_received_data (json_dict d) w
      = (Ok tt, step_window (timer_dt w) sp mv (appended d w))
    ∧ len (simulation_data (process_received_data (json_dict d) w).2)
      = S (len (simulation_data w))
    ∧ current_index (process_received_data (json_dict d) w).2
      = S (current_index w)
    ∧ feed_ready (process_received_data (json_dict d) w).2.
Proof.
  intros Hrange Hsp Hmv Hplot.
  destruct (process_dict_advances w d Hrange Hsp Hmv Hplot)
    as (sp & mv & H1 & H2 & Heq).
  exists sp, mv. split; [done |]. split; [done |].
  rewrite Heq. cbn [snd]. split; [done |].
  split; [by rewrite step_window_len, appended_len |].
  split; [rewrite step_window_current_index, appended_current_index; lia |].
  by apply step_window_appended_ready.
Qed.

Lemma record_is_appended_and_one_row_processed_witness :
  ∃ sp mv,
    process_received_data (json_dict (server_record 3)) init
    = (Ok tt, step_window (timer_dt init) sp mv (appended (server_record 3) init)).
Proof.
  destruct (record_is_appended_and_one_row_processed init (server_record 3))
    as (sp & mv & _ & _ & H & _).
  - vm_compute. lia.
  - refine (bool_decide_unpack _ _). vm_compute. exact I.
  - refine (bool_decide_unpack _ _). vm_compute. exact I.
  - right. refine (bool_decide_unpack _ _). vm_compute. exact I.
  - by exists sp, mv.
Defined.

(** A received record of floats ends the connection exactly when, after it
    is appended, the frame lacks a column the step needs.  With the cursor
    within the frame: when the frame then has columns but not Setpoint, or
    has Setpoint but not Valor Medido, the step raises [KeyError] for that
    label before it writes anything, and the window is the one after the
    append; when it has both but not Time, and a line of the plot is shown,
    the step raises [KeyError] for Time after it wrote the row at the
    cursor and updated both errors.  In each case the cursor stays, the
    exception leaves [process_received_data], and the connection handler
    prints it and returns without reading the chunks that follow.  With
    Setpoint, Valor Medido and, unless no line is shown, Time, nothing is
    raised.  (Nor for the empty record on a frame without columns: the frame
    stays empty and the step only stops the timer.) *)
Theorem record_without_read_column_ends_the_connection
    (w : MainWindow) (d : gmap string float) (rest : list chunk) :
  cursor_in_range w →
  let cols := columns (simulation_data w) ∪ dom d in
  let w0 := print msg_chunk
              (print msg_waiting
                 (print msg_connected
                    (print msg_connecting (set_running true w)))) in
  let ends_before_writing (label : string) :=
    process_received_data (json_dict d) w = (Raise (KeyError label), appended d w)
    ∧ current_index (appended d w) = current_index w
    ∧ len (simulation_data (appended d w)) = S (len (simulation_data w))
    ∧ start_socket_connection (connected (chunk_json (json_dict d) :: rest)) w
      = print (msg_socket_error (KeyError label)) (appended d w0) in
  (cols ≠ ∅ → "Setpoint" ∉ cols → ends_before_writing "Setpoint")
  ∧ ("Setpoint" ∈ cols → "Valor Medido" ∉ cols →
     ends_before_writing "Valor Medido")
  ∧ ("Setpoint" ∈ cols → "Valor Medido" ∈ cols →
     plots_shown w = true → "Time" ∉ cols →
     ∃ sp mv,
       at_ (simulation_data (appended d w)) (current_index w) "Setpoint" = Some sp
       ∧ at_ (simulation_data (appended d w)) (current_index w) "Valor Medido"
         = Some mv
       ∧ process_received_data (json_dict d) w
         = (Raise (KeyError "Time"),
            step_written (timer_dt w) sp mv (appended d w))
       ∧ current_index (step_written (timer_dt w) sp mv (appended d w))
         = current_index w
       ∧ start_socket_connection (connected (chunk_json (json_dict d) :: rest)) w
         = print (msg_socket_error (KeyError "Time"))
             (step_written (timer_dt w) sp mv (appended d w0)))
  ∧ ("Setpoint" ∈ cols → "Valor Medido" ∈ cols →
     plots_shown w = false ∨ "Time" ∈ cols →
     (process_received_data (json_dict d) w).1 = Ok tt)
  ∧ (cols = ∅ →
     process_received_data (json_dict d) w
     = (Ok tt, set_timer_active false (appended d w))).
Proof.
  intros Hrange. cbv zeta.
  set (w0 := print msg_chunk
               (print msg_waiting
                  (print msg_connected
                     (print msg_connecting (set_running true w))))).
  assert (cursor_in_range w0) as Hrange0 by done.
  assert (∀ label,
            columns (simulation_data w) ∪ dom d ≠ ∅ →
            (label = "Setpoint" ∧ "Setpoint" ∉ columns (simulation_data w) ∪ dom d
             ∨ label = "Valor Medido"
               ∧ "Setpoint" ∈ columns (simulation_data w) ∪ dom d
               ∧ "Valor Medido" ∉ columns (simulation_data w) ∪ dom d) →
            process_received_data (json_dict d) w
            = (Raise (KeyError label), appended d w)
            ∧ current_index (appended d w) = current_index w
            ∧ len (simulation_data (appended d w)) = S (len (simulation_data w))
            ∧ start_socket_connection
                (connected (chunk_json (json_dict d) :: rest)) w
              = print (msg_socket_error (KeyError label)) (appended d w0)) as Hends.
  { intros label Hcols Hlabel.
    split; [by apply process_dict_key_error |].
    split; [done |]. split; [apply appended_len |].
    apply connection_ends_at_raise. fold w0.
    by apply (process_dict_key_error w0 d label). }
  split; [intros Hcols Hno; apply Hends; [done | by left] |].
  split.
  { intros Hsp Hno. apply Hends; [| by right].
    intros Hempty. rewrite Hempty in Hsp. by apply not_elem_of_empty in Hsp. }
  split; [| split; [| apply process_dict_no_columns]].
  2: { intros Hsp Hmv Hplot.
       destruct (process_dict_advances w d Hrange Hsp Hmv Hplot)
         as (sp & mv & _ & _ & ->). done. }
  intros Hsp Hmv Hshown Htime.
  destruct (process_dict_time_error w d Hrange Hsp Hmv Hshown Htime)
    as (sp & mv & Hsp' & Hmv' & Heq).
  destruct (process_dict_time_error w0 d Hrange0 Hsp Hmv Hshown Htime)
    as (sp0 & mv0 & Hsp0 & Hmv0 & Heq0).
  assert (sp0 = sp) as -> by (unfold w0 in Hsp0; cbn in Hsp0, Hsp'; congruence).
  assert (mv0 = mv) as -> by (unfold w0 in Hmv0; cbn in Hmv0, Hmv'; congruence).
  exists sp, mv. split; [done |]. split; [done |]. split; [done |].
  split; [done |].
  apply connection_ends_at_raise. by fold w0.
Qed.

Lemma record_without_read_column_ends_the_connection_witness :
  (process_received_data
     (json_dict (<["Time" := 1%float]> ∅)) init).1 = Raise (KeyError "Setpoint")
  ∧ (process_received_data
       (json_dict (<["Setpoint" := 1%float]> ∅)) init).1
    = Raise (KeyError "Valor Medido")
  ∧ (process_received_data
       (json_dict (<["Setpoint" := 50%float]> (<["Valor Medido" := 40%float]> ∅)))
       init).1
    = Raise (KeyError "Time").
Proof.
  assert (cursor_in_range init) as Hinit by (vm_compute; lia).
  split; [| split].
  - destruct (proj1 (record_without_read_column_ends_the_connection
                       init (<["Time" := 1%float]> ∅) [] Hinit))
      as (H & _).
    + intros H. apply (f_equal (λ X : gset string, bool_decide ("Time" ∈ X))) in H.
      vm_compute in H. discriminate.
    + intros H. apply (bool_decide_pack _) in H. vm_compute in H. done.
    + by rewrite H.
  - destruct (proj1 (proj2 (record_without_read_column_ends_the_connection
                              init (<["Setpoint" := 1%float]> ∅) [] Hinit)))
      as (H & _).
    + refine (bool_decide_unpack _ _). vm_compute. exact I.
    + intros H. apply (bool_decide_pack _) in H. vm_compute in H. done.
    + by rewrite H.
  - destruct (proj1 (proj2 (proj2 (record_without_read_column_ends_the_connection
                init
                (<["Setpoint" := 50%float]> (<["Valor Medido" := 40%float]> ∅))
                [] Hinit))))
      as (sp & mv & _ & _ & H & _).
    + refine (bool_decide_unpack _ _). vm_compute. exact I.
    + refine (bool_decide_unpack _ _). vm_compute. exact I.
    + reflexivity.
    + intros H. apply (bool_decide_pack _) in H. vm_compute in H. done.
    + by rewrite H.
Defined.

End record_processing.

(** ** Whole connections *)

Section connections.
Import DataFrame DataFrameFacts.

Lemma receive_loop_stopped chunks w :
  running w = false → receive_loop chunks w = (Ok tt, w).
Proof.
  intros Hrun. destruct chunks; cbn [receive_loop];
    unfold mbind, action_bind, get; by rewrite Hrun.
Qed.

Lemma receive_loop_nil w :
  running w = true → receive_loop [] w = (Ok tt, print msg_waiting w).
Proof.
  intros Hrun. cbn [receive_loop]. unfold mbind, action_bind, get, modify.
  by rewrite Hrun.
Qed.

Lemma receive_loop_empty rest w :
  running w = true →
  receive_loop (chunk_empty :: rest) w
  = (Ok tt, print msg_closed_by_server (print msg_waiting w)).
Proof.
  intros Hrun. cbn [receive_loop]. unfold mbind, action_bind, get, modify.
  by rewrite Hrun.
Qed.

Lemma receive_loop_json v rest w :
  running w = true →
  receive_loop (chunk_json v :: rest) w
  = match process_received_data v (print msg_chunk (print msg_waiting w)) with
    | (Ok _, w') => receive_loop rest w'
    | (Raise e, w') => (Raise e, w')
    end.
Proof.
  intros Hrun. cbn [receive_loop]. unfold mbind, action_bind, get, modify.
  rewrite Hrun.
  by destruct (process_received_data v _) as [[[]|e] w'].
Qed.

(** Nothing that comes after an empty chunk or a chunk that is not UTF-8 is
    read, wherever in the stream that chunk comes: the loop, and so the
    connection, end as if the stream stopped there. *)
Theorem chunks_after_a_stop_are_not_read
    (stop : chunk) (before after : list chunk) (w : MainWindow) :
  stop = chunk_empty ∨ stop = chunk_not_utf8 →
  receive_loop (before ++ stop :: after) w = receive_loop (before ++ [stop]) w
  ∧ receive_data (connected (before ++ stop :: after)) w
    = receive_data (connected (before ++ [stop])) w.
Proof.
  intros Hstop.
  assert (∀ w0, receive_loop (before ++ stop :: after) w0
                = receive_loop (before ++ [stop]) w0) as Hloop.
  { induction before as [|data before IH]; intros w0.
    - destruct (running w0) eqn:Hrun; [| by rewrite !receive_loop_stopped].
      cbn [app]. destruct Hstop as [-> | ->].
      + by rewrite !receive_loop_empty.
      + by rewrite !receive_loop_not_utf8.
    - destruct (running w0) eqn:Hrun; [| by rewrite !receive_loop_stopped].
      cbn [app]. destruct data as [| | |v].
      + by rewrite !receive_loop_empty.
      + by rewrite !receive_loop_not_utf8.
      + rewrite !receive_loop_not_json by done. apply IH.
      + rewrite !receive_loop_json by done.
        destruct (process_received_data v _) as [[[]|e] w']; [apply IH | done]. }
  split; [apply Hloop |]. unfold receive_data. by rewrite Hloop.
Qed.

Lemma chunks_after_a_stop_are_not_read_witness :
  receive_data
    (connected [chunk_json (json_dict (server_record 0)); chunk_not_utf8;
                chunk_json (json_dict (server_record 1))]) (set_running true init)
  = receive_data
      (connected [chunk_json (json_dict (server_record 0)); chunk_not_utf8])
      (set_running true init).
Proof.
  apply (chunks_after_a_stop_are_not_read chunk_not_utf8
           [chunk_json (json_dict (server_record 0))]
           [chunk_json (json_dict (server_record 1))] (set_running true init)).
  right. reflexivity.
Defined.

Lemma feed_ready_print m w : feed_ready w → feed_ready (print m w).
Proof. done. Qed.

(** On a window that is ready, any decoded value is taken without an
    exception, and the window is ready for the next. *)
Lemma process_received_data_ready v w :
  feed_ready w →
  ∃ w',
    process_received_data v w = (Ok tt, w')
    ∧ feed_ready w'
    ∧ running w' = running w
    ∧ len (simulation_data w')
      = len (simulation_data w) + match v with json_dict _ => 1 | json_other => 0 end
    ∧ current_index w'
      = current_index w + match v with json_dict _ => 1 | json_other => 0 end
    ∧ console w'
      = console w ++ [match v with
                      | json_dict _ => msg_record
                      | json_other => msg_invalid_format
                      end].
Proof.
  intros (Hrange & Hsp & Hmv & Hplot). destruct v as [d|].
  - assert (plots_shown w = false
            ∨ "Time" ∈ columns (simulation_data w) ∪ dom d) as Hplot'.
    { destruct (plot_reads_ok_true w Hplot) as [H | H]; [by left | right].
      by apply elem_of_union_l. }
    destruct (process_dict_advances w d Hrange)
      as (sp & mv & _ & _ & Heq);
      [by apply elem_of_union_l | by apply elem_of_union_l | done |].
    rewrite Heq. eexists. split; [done |].
    split; [apply step_window_appended_ready;
            [done | by apply elem_of_union_l | done] |].
    split; [done |].
    split; [rewrite step_window_len, appended_len; lia |].
    split; [rewrite step_window_current_index, appended_current_index; lia |].
    done.
  - exists (print msg_invalid_format w). split; [done |].
    split; [done |]. split; [done |]. cbn. repeat split; lia.
Qed.

(** The loop on a window that is ready, with the socket flag up. *)
Lemma receive_loop_ready chunks w :
  feed_ready w → running w = true →
  ∃ msgs,
    len (simulation_data (receive_loop chunks w).2)
    = len (simulation_data w) + records_before_stop chunks
    ∧ current_index (receive_loop chunks w).2
      = current_index w + records_before_stop chunks
    ∧ (receive_loop chunks w).1
      = (if stops_undecodable chunks then Raise UnicodeDecodeError else Ok tt)
    ∧ feed_ready (receive_loop chunks w).2
    ∧ console (receive_loop chunks w).2 = console w ++ msgs
    ∧ no_socket_error msgs.
Proof.
  revert w. induction chunks as [|data rest IH]; intros w Hready Hrun.
  - rewrite receive_loop_nil by done. exists [msg_waiting]. cbn.
    repeat split; try lia; try apply Hready. by repeat constructor.
  - destruct data as [| | |v].
    + rewrite receive_loop_empty by done.
      exists [msg_waiting; msg_closed_by_server]. cbn.
      repeat split; try lia; try apply Hready.
      * by rewrite <-app_assoc.
      * by repeat constructor.
    + rewrite receive_loop_not_utf8 by done. exists [msg_waiting]. cbn.
      repeat split; try lia; try apply Hready. by repeat constructor.
    + rewrite receive_loop_not_json by done.
      destruct (IH (print msg_json_error (print msg_chunk (print msg_waiting w))))
        as (msgs & Hlen & Hcur & Hres & Hr' & Hcon & Hno); [done | done |].
      exists ([msg_waiting; msg_chunk; msg_json_error] ++ msgs).
      rewrite Hlen, Hcur, Hres, Hcon. cbn [records_before_stop stops_undecodable].
      split; [done |]. split; [done |]. split; [done |]. split; [done |].
      split; [cbn; by rewrite <-!app_assoc |].
      apply Forall_app. split; [by repeat constructor | done].
    + rewrite receive_loop_json by done.
      destruct (process_received_data_ready v
                  (print msg_chunk (print msg_waiting w)))
        as (w' & Heq & Hready' & Hrun' & Hlen' & Hcur' & Hcon'); [done |].
      rewrite Heq.
      destruct (IH w') as (msgs & Hlen & Hcur & Hres & Hr' & Hcon & Hno);
        [done | by rewrite Hrun' |].
      exists ([msg_waiting; msg_chunk;
               match v with
               | json_dict _ => msg_record
               | json_other => msg_invalid_format
               end] ++ msgs).
      rewrite Hlen, Hcur, Hres, Hcon, Hlen', Hcur', Hcon'.
      cbn [simulation_data current_index print console].
      split; [destruct v; cbn [records_before_stop]; lia |].
      split; [destruct v; cbn [records_before_stop]; lia |].
      split; [by destruct v |]. split; [done |].
      split; [by rewrite <-!app_assoc |].
      apply Forall_app. split; [| done].
      destruct v; by repeat constructor.
Qed.

(** A connection to a window that is ready (the cursor is within the frame,
    which has the columns Setpoint and Valor Medido, and the column Time
    unless no line of the plot is shown): every dict of floats that comes
    before the stream stops becomes a row and moves the cursor by one row,
    whichever fields it has.  A socket error is printed only if a chunk that
    is not UTF-8 stopped the stream, and then as the last line. *)
Theorem every_record_before_the_stop_lands
    (chunks : list chunk) (w : MainWindow) :
  feed_ready w →
  let w' := start_socket_connection (connected chunks) w in
  len (simulation_data w')
  = len (simulation_data w) + records_before_stop chunks
  ∧ current_index w' = current_index w + records_before_stop chunks
  ∧ feed_ready w'
  ∧ ∃ msgs,
      no_socket_error msgs
      ∧ console w'
        = console w ++ msgs
            ++ (if stops_undecodable chunks
                then [msg_socket_error UnicodeDecodeError] else []).
Proof.
  cbv zeta. intros Hready. unfold start_socket_connection, receive_data.
  set (w0 := print msg_connected (print msg_connecting (set_running true w))).
  destruct (receive_loop_ready chunks w0)
    as (msgs & Hlen & Hcur & Hres & Hr' & Hcon & Hno); [done | done |].
  destruct (receive_loop chunks w0) as [[[]|e] w'] eqn:Heq; cbn [fst snd] in *.
  - split; [done |]. split; [done |]. split; [done |].
    exists ([msg_connecting; msg_connected] ++ msgs).
    split; [apply Forall_app; split; [by repeat constructor | done] |].
    rewrite Hcon. destruct (stops_undecodable chunks); [done |].
    unfold w0. cbn. by rewrite <-!app_assoc, app_nil_r.
  - split; [done |]. split; [done |]. split; [done |].
    exists ([msg_connecting; msg_connected] ++ msgs).
    split; [apply Forall_app; split; [by repeat constructor | done] |].
    cbn [console print]. rewrite Hcon.
    destruct (stops_undecodable chunks); [| done].
    injection Hres as ->. unfold w0. cbn. by rewrite <-!app_assoc.
Qed.

Lemma every_record_before_the_stop_lands_witness :
  let w := (process_received_data (json_dict (server_record 0)) init).2 in
  let w' :=
    start_socket_connection
      (connected [chunk_not_json; chunk_json (json_dict partial_record);
                  chunk_empty; chunk_json (json_dict full_record)]) w in
  len (simulation_data w') = 2 ∧ current_index w' = 2.
Proof.
  cbv zeta.
  destruct (every_record_before_the_stop_lands
              [chunk_not_json; chunk_json (json_dict partial_record);
               chunk_empty; chunk_json (json_dict full_record)]
              (process_received_data (json_dict (server_record 0)) init).2)
    as (H1 & H2 & _).
  - split; [vm_compute; lia |].
    split; [refine (bool_decide_unpack _ _); vm_compute; exact I |].
    split; [refine (bool_decide_unpack _ _); vm_compute; exact I |].
    vm_compute. reflexivity.
  - split; [etrans; [exact H1 | vm_compute; reflexivity] |].
    etrans; [exact H2 | vm_compute; reflexivity].
Defined.

Lemma server_record_fields k :
  "Setpoint" ∈ dom (server_record k) ∧ "Valor Medido" ∈ dom (server_record k)
  ∧ "Time" ∈ dom (server_record k).
Proof. repeat split; apply elem_of_dom; eexists; reflexivity. Qed.

Lemma server_feed_count steps :
  records_before_stop (server_feed steps) = length steps
  ∧ stops_undecodable (server_feed steps) = false.
Proof.
  unfold server_feed.
  induction steps as [|k l [IH1 IH2]]; [done |]. cbn. by rewrite IH1, IH2.
Qed.

(** A connection to the test server, whatever the steps it sends, from any
    window whose cursor is within its frame: every record becomes a row and
    is followed by one step of the cursor, and no socket error is printed. *)
Theorem server_feed_lands (steps : list Z) (w : MainWindow) :
  cursor_in_range w →
  let w' := start_socket_connection (connected (server_feed steps)) w in
  len (simulation_data w') = len (simulation_data w) + length steps
  ∧ current_index w' = current_index w + length steps
  ∧ ∃ msgs, console w' = console w ++ msgs ∧ no_socket_error msgs.
Proof.
  cbv zeta. intros Hrange. unfold start_socket_connection, receive_data.
  set (w0 := print msg_connected (print msg_connecting (set_running true w))).
  destruct steps as [|k steps].
  { cbn [server_feed fmap list_fmap]. rewrite receive_loop_nil by done.
    cbn [length]. split; [cbn; lia |]. split; [cbn; lia |].
    exists [msg_connecting; msg_connected; msg_waiting].
    split; [unfold w0; cbn; by rewrite <-!app_assoc | by repeat constructor]. }
  cbn [server_feed fmap list_fmap]. rewrite receive_loop_json by done.
  change ((λ k0, chunk_json (json_dict (server_record k0))) <$> steps)
    with (server_feed steps).
  destruct (server_record_fields k) as (Hsp & Hmv & Htime).
  destruct (process_dict_advances (print msg_chunk (print msg_waiting w0))
              (server_record k))
    as (sp & mv & _ & _ & Heq);
    [done | by apply elem_of_union_r | by apply elem_of_union_r
     | right; by apply elem_of_union_r |].
  rewrite Heq.
  set (w1 := step_window _ sp mv _).
  assert (feed_ready w1) as Hready.
  { apply step_window_appended_ready;
      [done | by apply elem_of_union_r | right; by apply elem_of_union_r]. }
  destruct (receive_loop_ready (server_feed steps) w1 Hready)
    as (msgs & Hlen & Hcur & Hres & _ & Hcon & Hno); [done |].
  destruct (server_feed_count steps) as [Hn Hstop].
  rewrite Hn in Hlen, Hcur. rewrite Hstop in Hres.
  destruct (receive_loop (server_feed steps) w1) as [[[]|e] w'];
    cbn [fst snd] in *; [| done].
  split.
  { rewrite Hlen. unfold w1. rewrite step_window_len, appended_len. cbn. lia. }
  split.
  { rewrite Hcur. unfold w1.
    rewrite step_window_current_index, appended_current_index. cbn. lia. }
  exists ([msg_connecting; msg_connected; msg_waiting; msg_chunk; msg_record]
            ++ msgs).
  split.
  - rewrite Hcon. unfold w1, w0. cbn. by rewrite <-!app_assoc.
  - apply Forall_app. split; [by repeat constructor | done].
Qed.

Lemma server_feed_lands_witness :
  let w' := start_socket_connection (connected (server_feed [0; 1; 2]%Z)) init in
  len (simulation_data w') = 3 ∧ current_index w' = 3.
Proof.
  cbv zeta.
  destruct (server_feed_lands [0; 1; 2]%Z init) as (H1 & H2 & _).
  - vm_compute. lia.
  - split; [exact H1 | exact H2].
Defined.

End connections.

(** ** What steps and connections never undo *)

Section only_extends.
Import DataFrame DataFrameFacts.

Lemma extended_by_refl w : extended_by w w.
Proof. unfold extended_by. repeat split; done. Qed.

Lemma extended_by_trans w1 w2 w3 :
  extended_by w1 w2 → extended_by w2 w3 → extended_by w1 w3.
Proof.
  intros (Hl & Hc & Hr & Hcol & Hcon & Hf & Hi & He & Hs & Hp & Hrun)
         (Hl' & Hc' & Hr' & Hcol' & Hcon' & Hf' & Hi' & He' & Hs' & Hp' & Hrun').
  unfold extended_by.
  split; [lia |]. split; [lia |].
  split; [intros i c v Hlt Hv; apply Hr'; [lia | by apply Hr] |].
  split; [by etrans |]. split; [by etrans |].
  split; [congruence |]. split; [congruence |]. split; [congruence |].
  split; [congruence |]. split; congruence.
Qed.

Lemma extended_by_print m w : extended_by w (print m w).
Proof.
  unfold extended_by. cbn. repeat split; try done. by apply prefix_app_r.
Qed.

Lemma extended_by_appended d w : extended_by w (appended d w).
Proof.
  unfold extended_by. rewrite appended_len, appended_columns. cbn.
  split; [lia |]. split; [lia |].
  split; [intros i c v _ Hv; by apply at_concat_old |].
  split; [apply union_subseteq_l |].
  split; [by apply prefix_app_r |]. done.
Qed.

Lemma extended_by_update_plot_with dt w :
  extended_by w (update_plot_with dt w).2.
Proof.
  destruct (update_plot_with_cases dt w)
    as [[-> _] | [[label ->] | (sp & mv & _ & _ & [[-> _] | [-> _]])]]; cbn [snd].
  - unfold extended_by. cbn. repeat split; done.
  - apply extended_by_refl.
  - unfold extended_by.
    rewrite step_window_len, step_window_current_index, step_window_columns.
    split; [lia |]. split; [lia |].
    split; [intros i c v Hi Hv; apply step_window_other; [left; lia | done] |].
    split; [etrans; [| apply union_subseteq_r]; apply union_subseteq_r |].
    done.
  - unfold extended_by.
    rewrite step_written_data, step_window_len, step_window_columns.
    split; [lia |]. split; [done |].
    split; [intros i c v Hi Hv; apply step_window_other; [left; lia | done] |].
    split; [etrans; [| apply union_subseteq_r]; apply union_subseteq_r |].
    done.
Qed.

Lemma extended_by_process_received_data v w :
  extended_by w (process_received_data v w).2.
Proof.
  destruct v as [d|]; [| apply extended_by_print].
  rewrite process_received_data_dict. unfold update_plot.
  pose proof (extended_by_update_plot_with (timer_dt (appended d w)) (appended d w))
    as Hstep.
  assert (extended_by w (update_plot_with (timer_dt (appended d w)) (appended d w)).2)
    as H by (eapply extended_by_trans; [apply extended_by_appended | done]).
  by destruct (update_plot_with _ _) as [[r|e] w'].
Qed.

Lemma extended_by_receive_loop chunks w :
  extended_by w (receive_loop chunks w).2.
Proof.
  revert w. induction chunks as [|data rest IH]; intros w.
  - destruct (running w) eqn:Hrun.
    + rewrite receive_loop_nil by done. apply extended_by_print.
    + rewrite receive_loop_stopped by done. apply extended_by_refl.
  - destruct (running w) eqn:Hrun;
      [| rewrite receive_loop_stopped by done; apply extended_by_refl].
    assert (extended_by w (print msg_waiting w)) as H1 by apply extended_by_print.
    destruct data as [| | |v].
    + rewrite receive_loop_empty by done. cbn [snd].
      eapply extended_by_trans; [exact H1 | apply extended_by_print].
    + by rewrite receive_loop_not_utf8.
    + rewrite receive_loop_not_json by done.
      eapply extended_by_trans; [| apply IH].
      eapply extended_by_trans; [exact H1 |].
      eapply extended_by_trans; apply extended_by_print.
    + rewrite receive_loop_json by done.
      pose proof (extended_by_process_received_data v
                    (print msg_chunk (print msg_waiting w))) as Hv.
      assert (extended_by w (process_received_data v
                               (print msg_chunk (print msg_waiting w))).2) as H2.
      { eapply extended_by_trans; [| exact Hv].
        eapply extended_by_trans; [exact H1 | apply extended_by_print]. }
      destruct (process_received_data v _) as [[[]|e] w']; cbn [snd] in *;
        [| done].
      eapply extended_by_trans; [exact H2 | apply IH].
Qed.

(** Timer steps, received records and whole connections only extend the
    window: no row is ever removed, the cursor never moves back, a row
    before the cursor keeps every cell it has, no column disappears, nothing
    printed is taken back, and the gains of the run, the timer's interval,
    the PID controls and the socket flag are left as they are. *)
Theorem steps_and_connections_only_extend (w : MainWindow) :
  (∀ dt n, extended_by w (run_ticks dt n w))
  ∧ (∀ v, extended_by w (process_received_data v w).2)
  ∧ (∀ c, extended_by w (receive_data c w))
  ∧ (∀ c, extended_by (set_running true w) (start_socket_connection c w)).
Proof.
  assert (∀ c w0, extended_by w0 (receive_data c w0)) as Hrecv.
  { intros [|chunks] w0; unfold receive_data.
    - eapply extended_by_trans; apply extended_by_print.
    - pose proof (extended_by_receive_loop chunks
                    (print msg_connected (print msg_connecting w0))) as Hloop.
      assert (extended_by w0 (receive_loop chunks
                (print msg_connected (print msg_connecting w0))).2) as H.
      { eapply extended_by_trans; [| exact Hloop].
        eapply extended_by_trans; apply extended_by_print. }
      destruct (receive_loop chunks _) as [[[]|e] w']; cbn [snd] in *; [done |].
      eapply extended_by_trans; [exact H | apply extended_by_print]. }
  split; [| split; [| split]].
  - intros dt n. revert w. induction n as [|n IH]; intros w;
      [apply extended_by_refl |].
    cbn [run_ticks]. eapply extended_by_trans;
      [apply extended_by_update_plot_with | apply IH].
  - intros v. apply extended_by_process_received_data.
  - intros c. apply Hrecv.
  - intros c. apply Hrecv.
Qed.

End only_extends.

(** ** How the controls compose *)

Section buttons_compose.
Import DataFrame DataFrameFacts.

Lemma set_column_idem df c v :
  set_column (set_column df c v) c v = set_column df c v.
Proof.
  unfold set_column; cbn. f_equal.
  - by rewrite (assoc_L (∪)), (idemp_L (∪)).
  - rewrite <-list_fmap_compose. apply list_fmap_ext. intros i r _. cbn.
    apply insert_insert_eq.
Qed.

Lemma set_column_comm df c v c' v' :
  c ≠ c' →
  set_column (set_column df c v) c' v' = set_column (set_column df c' v') c v.
Proof.
  intros Hne. unfold set_column; cbn. f_equal.
  - rewrite !(assoc_L (∪)). f_equal. apply (comm_L (∪)).
  - rewrite <-!list_fmap_compose. apply list_fmap_ext. intros i r _. cbn.
    by apply insert_insert_ne.
Qed.

Lemma fix_column_idem df item :
  fix_column (fix_column df item) item = fix_column df item.
Proof.
  unfold fix_column at 2 3. case_decide as Hc.
  - unfold fix_column. rewrite decide_True; [apply set_column_idem |].
    unfold set_column; cbn. by apply elem_of_union_r.
  - unfold fix_column. by rewrite decide_False.
Qed.

Lemma fix_column_comm df item item' :
  param_name item.1 ≠ param_name item'.1 →
  fix_column (fix_column df item) item' = fix_column (fix_column df item') item.
Proof.
  intros Hne.
  assert (∀ df0 it, columns (fix_column df0 it) = columns df0) as Hcols
    by (intros; apply fix_column_columns).
  unfold fix_column at 1 3. rewrite !Hcols.
  unfold fix_column.
  destruct (decide (param_name item.1 ∈ columns df)),
           (decide (param_name item'.1 ∈ columns df)); try done.
  by apply set_column_comm.
Qed.

Lemma fixed_frame_started w : fixed_frame (started w) = fixed_frame w.
Proof.
  unfold fixed_frame. change (ui_pid_items (started w)) with (ui_pid_items w).
  change (simulation_data (started w)) with (fixed_frame w).
  unfold fixed_frame, ui_pid_items; cbn.
  set (p := (param_P, get_pid_value_from_ui w param_P)).
  set (i := (param_I, get_pid_value_from_ui w param_I)).
  set (d := (param_D, get_pid_value_from_ui w param_D)).
  set (df := simulation_data w).
  rewrite (fix_column_comm (fix_column (fix_column df p) i) d p) by done.
  rewrite (fix_column_comm (fix_column df p) i p) by done.
  rewrite (fix_column_idem df p).
  rewrite (fix_column_comm (fix_column (fix_column df p) i) d i) by done.
  rewrite (fix_column_idem (fix_column df p) i).
  by rewrite (fix_column_idem (fix_column (fix_column df p) i) d).
Qed.

Lemma empty_started w :
  empty (simulation_data (started w)) = empty (simulation_data w).
Proof.
  change (simulation_data (started w)) with (fixed_frame w).
  unfold empty. rewrite fixed_frame_columns. f_equal.
  apply bool_decide_ext. rewrite <-!length_zero_iff_nil.
  pose proof (fixed_frame_len w) as H. unfold len in H. by rewrite H.
Qed.

(** The three buttons together.  On a frame with data a second start changes
    nothing that the first has not done, and a reset after a start is the
    reset; a reset brings the frame, the gains, the cursor and both errors
    back to those of a fresh window, so that a start after it only reports
    that there is no data; pause and reset done twice are done once. *)
Theorem controls_compose (w : MainWindow) :
  (empty (simulation_data w) = false →
     start_simulation (start_simulation w) = start_simulation w
     ∧ reset_simulation (start_simulation w) = reset_simulation w)
  ∧ start_simulation (reset_simulation w) = print msg_no_data (reset_simulation w)
  ∧ (simulation_data (reset_simulation w) = simulation_data init
     ∧ fixed_pid_values (reset_simulation w) = fixed_pid_values init
     ∧ current_index (reset_simulation w) = current_index init
     ∧ previous_error (reset_simulation w) = previous_error init
     ∧ integral_error (reset_simulation w) = integral_error init
     ∧ isActive (timer (reset_simulation w)) = isActive (timer init))
  ∧ reset_simulation (reset_simulation w) = reset_simulation w
  ∧ pause_simulation (pause_simulation w) = pause_simulation w
  ∧ reset_simulation (pause_simulation w) = reset_simulation w.
Proof.
  rewrite !reset_simulation_window.
  split; [| split; [| split; [| split; [| split]]]]; try done.
  intros Hdata. split.
  - rewrite (start_simulation_data w Hdata).
    rewrite start_simulation_data by by rewrite empty_started.
    unfold started at 1. rewrite fixed_frame_started. done.
  - by rewrite (start_simulation_data w Hdata).
Qed.

Lemma controls_compose_witness :
  start_simulation (start_simulation full_window) = start_simulation full_window
  ∧ reset_simulation (start_simulation full_window) = reset_simulation full_window.
Proof.
  apply (controls_compose full_window). vm_compute. reflexivity.
Defined.

End buttons_compose.

(** ** The PID controls *)

Section controls_facts.
Import DataFrame DataFrameFacts.

Lemma pid_sliders_set_pid_slider p s w q :
  pid_sliders (set_pid_slider p s w) q = if decide (q = p) then s else pid_sliders w q.
Proof. done. Qed.

Lemma label_after_both_texts p v w :
  pid_sliders (set_value_input p v (set_value_label p v w)) p
  = {| value_label := Some (two_decimals v); value_input := Some (two_decimals v) |}.
Proof.
  unfold set_value_input, set_value_label.
  rewrite !pid_sliders_set_pid_slider. by rewrite !decide_True.
Qed.

Lemma other_axis_after_both_texts p v w q :
  q ≠ p → pid_sliders (set_value_input p v (set_value_label p v w)) q = pid_sliders w q.
Proof.
  intros Hne. unfold set_value_input, set_value_label.
  rewrite !pid_sliders_set_pid_slider. by rewrite !decide_False.
Qed.

Lemma update_pid_in_simulation_data_empty p v w :
  empty (simulation_data w) = true → update_pid_in_simulation_data p v w = w.
Proof. intros H. unfold update_pid_in_simulation_data. by rewrite H. Qed.

Lemma update_pid_in_simulation_data_column p v w i :
  empty (simulation_data w) = false → i < len (simulation_data w) →
  at_ (simulation_data (update_pid_in_simulation_data p v w)) i (param_name p)
  = Some v.
Proof.
  intros H Hi. unfold update_pid_in_simulation_data. rewrite H.
  by apply at_set_column_eq.
Qed.

Lemma update_pid_in_simulation_data_other p v w i c :
  c ≠ param_name p →
  at_ (simulation_data (update_pid_in_simulation_data p v w)) i c
  = at_ (simulation_data w) i c.
Proof.
  intros Hne. unfold update_pid_in_simulation_data.
  destruct (empty (simulation_data w)); [done |]. by apply at_set_column_ne.
Qed.

Lemma update_pid_in_simulation_data_len p v w :
  len (simulation_data (update_pid_in_simulation_data p v w))
  = len (simulation_data w).
Proof.
  unfold update_pid_in_simulation_data.
  destruct (empty (simulation_data w)); [done |]. apply len_set_column.
Qed.

Lemma update_pid_in_simulation_data_has_column p v w :
  empty (simulation_data w) = false →
  param_name p ∈ columns (simulation_data (update_pid_in_simulation_data p v w))
  ∧ empty (simulation_data (update_pid_in_simulation_data p v w)) = false.
Proof.
  intros H. unfold update_pid_in_simulation_data. rewrite H.
  split; [apply elem_of_union_l; by apply elem_of_singleton |].
  apply empty_false in H as [Hrows Hcols]. apply empty_false.
  unfold set_column; cbn. split.
  - by destruct (rows (simulation_data w)).
  - intros Hc. apply (f_equal (λ X : gset string, bool_decide (param_name p ∈ X)))
      in Hc.
    rewrite bool_decide_eq_true_2 in Hc
      by (apply elem_of_union_l; by apply elem_of_singleton).
    by rewrite bool_decide_eq_false_2 in Hc by apply not_elem_of_empty.
Qed.

Lemma two_decimals_zero : two_decimals 0 = 0%float.
Proof. reflexivity. Qed.

(** The window a slider handler leaves, by the state of the checkbox. *)
Lemma update_pid_from_slider_window p pos c :
  window (update_pid_from_slider p pos c)
  = let v := if pid_enabled (window c) p
             then slider_to_value (widgets c p) pos else 0%float in
    update_pid_in_simulation_data p v
      (set_value_input p v (set_value_label p v (window c))).
Proof. unfold update_pid_from_slider. by destruct (pid_enabled (window c) p). Qed.

(** Unchecking an axis sets it to zero everywhere: the label and the value
    field show 0.00, the gain read from the UI is 0.0, and on a frame with
    data the column of the axis is 0.0 in every row (the column is made if
    the frame lacks it) while the other columns keep their cells, so that a
    start fixes the gain 0.0.  The other axes are not touched, and a value
    typed for the unchecked axis is ignored. *)
Theorem unchecked_axis_is_zero_everywhere (p : param) (c : Controls) :
  let c' := toggle_pid_component p 0 c in
  pid_enabled (window c') p = false
  ∧ pid_sliders (window c') p
    = {| value_label := Some 0%float; value_input := Some 0%float |}
  ∧ get_pid_value_from_ui (window c') p = 0%float
  ∧ (∀ q, q ≠ p →
       pid_enabled (window c') q = pid_enabled (window c) q
       ∧ pid_sliders (window c') q = pid_sliders (window c) q)
  ∧ (∀ text_value, update_pid_from_value_input p text_value c' = (slot_returned, c'))
  ∧ (empty (simulation_data (window c)) = true →
       simulation_data (window c') = simulation_data (window c))
  ∧ (empty (simulation_data (window c)) = false →
       (∀ i, i < len (simulation_data (window c)) →
          at_ (simulation_data (window c')) i (param_name p) = Some 0%float)
       ∧ (∀ i col, col ≠ param_name p →
            at_ (simulation_data (window c')) i col
            = at_ (simulation_data (window c)) i col)
       ∧ fixed_gain (start_simulation (window c')) p = 0%float).
Proof.
  cbv zeta. unfold toggle_pid_component. cbn [Z.eqb negb].
  set (c0 := set_window (set_pid_enabled p false (window c)) c).
  assert (pid_enabled (window c0) p = false) as Hoff.
  { unfold c0; cbn. by rewrite decide_True. }
  assert (window (update_pid_from_slider p (slider_value (widgets c0 p)) c0)
          = update_pid_in_simulation_data p 0
              (set_value_input p 0 (set_value_label p 0 (window c0)))) as Hw.
  { rewrite update_pid_from_slider_window. by rewrite Hoff. }
  rewrite Hw.
  set (w1 := set_value_input p 0 (set_value_label p 0 (window c0))).
  assert (∀ w2, pid_enabled (update_pid_in_simulation_data p 0 w2) = pid_enabled w2
                ∧ pid_sliders (update_pid_in_simulation_data p 0 w2) = pid_sliders w2)
    as Hui.
  { intros w2. unfold update_pid_in_simulation_data.
    by destruct (empty (simulation_data w2)). }
  destruct (Hui w1) as [He Hs].
  assert (pid_enabled (update_pid_in_simulation_data p 0 w1) p = false) as Hoff'
    by (rewrite He; exact Hoff).
  split; [done |].
  split; [rewrite Hs; unfold w1; by rewrite label_after_both_texts |].
  split; [unfold get_pid_value_from_ui; by rewrite Hoff' |].
  split.
  { intros q Hq. rewrite He, Hs. split.
    - unfold w1, c0; cbn. by rewrite decide_False.
    - unfold w1. by rewrite other_axis_after_both_texts. }
  split.
  { intros text_value. unfold update_pid_from_value_input.
    rewrite Hw. fold w1. by rewrite Hoff'. }
  split.
  { intros Hempty. by rewrite update_pid_in_simulation_data_empty. }
  intros Hdata. split; [| split].
  - intros i Hi. by apply update_pid_in_simulation_data_column.
  - intros i col Hcol. by rewrite update_pid_in_simulation_data_other.
  - rewrite start_simulation_data
      by (by apply (update_pid_in_simulation_data_has_column p 0 w1)).
    rewrite started_fixed_gain. unfold get_pid_value_from_ui. by rewrite Hoff'.
Qed.

Lemma unchecked_axis_is_zero_everywhere_witness :
  let c' := toggle_pid_component param_P 0 (init_controls full_window) in
  at_ (simulation_data (window c')) 1 "P" = Some 0%float
  ∧ fixed_gain (start_simulation (window c')) param_P = 0%float.
Proof.
  cbv zeta.
  destruct (unchecked_axis_is_zero_everywhere param_P (init_controls full_window))
    as (_ & _ & _ & _ & _ & _ & H).
  destruct H as (H1 & _ & H2).
  - vm_compute. reflexivity.
  - split; [apply (H1 1); vm_compute; lia | exact H2].
Defined.

(** The gain of a run is the value the label shows.  Moving the slider of an
    enabled axis puts the mapped value, rounded to two decimals, into the
    label and the value field, and the mapped value itself into the column of
    the axis; the gain read from the UI is the rounded one, and a start
    fixes it and writes it over the column. *)
Theorem gain_of_a_run_is_the_displayed_value
    (p : param) (pos : Z) (c : Controls) :
  pid_enabled (window c) p = true →
  let value := slider_to_value (widgets c p) pos in
  let c' := update_pid_from_slider p pos c in
  pid_sliders (window c') p
  = {| value_label := Some (two_decimals value);
       value_input := Some (two_decimals value) |}
  ∧ get_pid_value_from_ui (window c') p = two_decimals value
  ∧ (empty (simulation_data (window c)) = false →
       (∀ i, i < len (simulation_data (window c)) →
          at_ (simulation_data (window c')) i (param_name p) = Some value
          ∧ at_ (simulation_data (start_simulation (window c'))) i (param_name p)
            = Some (two_decimals value))
       ∧ fixed_gain (start_simulation (window c')) p = two_decimals value).
Proof.
  cbv zeta. intros Hon. rewrite update_pid_from_slider_window, Hon. cbv zeta.
  set (v := slider_to_value (widgets c p) pos).
  set (w1 := set_value_input p v (set_value_label p v (window c))).
  assert (pid_enabled (update_pid_in_simulation_data p v w1) = pid_enabled (window c)
          ∧ pid_sliders (update_pid_in_simulation_data p v w1) = pid_sliders w1)
    as [He Hs].
  { unfold update_pid_in_simulation_data.
    by destruct (empty (simulation_data w1)). }
  assert (pid_sliders w1 p
          = {| value_label := Some (two_decimals v);
               value_input := Some (two_decimals v) |}) as Hl
    by apply label_after_both_texts.
  assert (get_pid_value_from_ui (update_pid_in_simulation_data p v w1) p
          = two_decimals v) as Hget.
  { unfold get_pid_value_from_ui. by rewrite He, Hon, Hs, Hl. }
  split; [by rewrite Hs |]. split; [done |].
  intros Hdata.
  destruct (update_pid_in_simulation_data_has_column p v w1 Hdata) as [Hcol Hne].
  rewrite (start_simulation_data _ Hne). split.
  - intros i Hi. split; [by apply update_pid_in_simulation_data_column |].
    cbn [simulation_data started]. rewrite <-Hget.
    apply at_fixed_frame_gain; [done |].
    by rewrite update_pid_in_simulation_data_len.
  - by rewrite started_fixed_gain.
Qed.

(** The slider at 50 between the bounds 0 and 0.125: the column holds 0.0625,
    the run uses 0.06. *)
Lemma gain_of_a_run_is_the_displayed_value_witness :
  let c := set_axis_widgets param_P
             {| slider_value := 50; slider_blocked := false;
                min_input := text_number 0; max_input := text_number 0.125 |}
             (init_controls full_window) in
  let c' := update_pid_from_slider param_P 50 c in
  at_ (simulation_data (window c')) 0 "P" = Some 0.0625%float
  ∧ fixed_gain (start_simulation (window c')) param_P = (6 / 100)%float.
Proof.
  cbv zeta.
  destruct (gain_of_a_run_is_the_displayed_value param_P 50
              (set_axis_widgets param_P
                 {| slider_value := 50; slider_blocked := false;
                    min_input := text_number 0; max_input := text_number 0.125 |}
                 (init_controls full_window)))
    as (_ & _ & H).
  - reflexivity.
  - destruct H as (H1 & H2); [vm_compute; reflexivity |].
    split.
    + etrans; [apply (H1 0); vm_compute; lia |]. vm_compute. reflexivity.
    + etrans; [exact H2 |]. vm_compute. reflexivity.
Defined.

End controls_facts.

(** ** Bounds in either order, and a value that is no number *)

Section controls_edge_cases.
Import DataFrame DataFrameFacts.

Lemma SFcompare_Lt_asym x y :
  SFcompare x y = Some Lt → SFcompare y x = Some Gt.
Proof.
  destruct x as [[]|[]| |[] m1 e1], y as [[]|[]| |[] m2 e2]; cbn; try done.
  - rewrite (Z.compare_antisym e1 e2).
    destruct (e1 ?= e2)%Z; cbn; try done.
    pose proof (Pos.compare_cont_antisym m1 m2 Eq) as H. cbn in H.
    rewrite <-H. by destruct (Pos.compare_cont Eq m1 m2).
  - rewrite (Z.compare_antisym e1 e2).
    destruct (e1 ?= e2)%Z; cbn; try done.
    pose proof (Pos.compare_cont_antisym m1 m2 Eq) as H. cbn in H.
    rewrite <-H. by destruct (Pos.compare_cont Eq m1 m2).
Qed.

(** [<] on floats is asymmetric. *)
Lemma ltb_asym (a b : float) : (b <? a)%float = true → (a <? b)%float = false.
Proof.
  rewrite !FloatAxioms.ltb_spec. unfold SFltb.
  destruct (SFcompare (Prim2SF b) (Prim2SF a)) as [[]|] eqn:H; try done.
  intros _. by rewrite (SFcompare_Lt_asym _ _ H).
Qed.



Lemma sub_nan_l (x : float) : (nan - x)%float = nan.
Proof.
  apply Prim2SF_inj. rewrite FloatAxioms.sub_spec.
  by change (Prim2SF nan) with S754_nan.
Qed.


Lemma mul_nan_l (x : float) : (nan * x)%float = nan.
Proof.
  apply Prim2SF_inj. rewrite FloatAxioms.mul_spec.
  by change (Prim2SF nan) with S754_nan.
Qed.

(** Two numbers given as bounds with the larger one in the min field are
    taken in order: the slider maps to the same value, and the handler leaves
    the same window, as with the two texts exchanged. *)
Theorem bounds_are_taken_in_order
    (p : param) (pos : Z) (c : Controls) (a b : float) :
  min_input (widgets c p) = text_number a →
  max_input (widgets c p) = text_number b →
  (b <? a)%float = true →
  read_bounds (widgets c p) = Some (b, a)
  ∧ read_bounds (widgets (exchange_bounds p c) p) = Some (b, a)
  ∧ slider_to_value (widgets c p) pos
    = (b + float_of_Z pos / 100 * (a - b))%float
  ∧ window (update_pid_from_slider p pos (exchange_bounds p c))
    = window (update_pid_from_slider p pos c).
Proof.
  intros Hmin Hmax Hlt.
  assert (read_bounds (widgets c p) = Some (b, a)) as H1.
  { unfold read_bounds. rewrite Hmin, Hmax. cbn. by rewrite Hlt. }
  assert (read_bounds (widgets (exchange_bounds p c) p) = Some (b, a)) as H2.
  { unfold read_bounds, exchange_bounds; cbn. rewrite decide_True by done. cbn.
    rewrite Hmin, Hmax. cbn. by rewrite (ltb_asym _ _ Hlt). }
  split; [done |]. split; [done |].
  split; [unfold slider_to_value; by rewrite H1 |].
  rewrite !update_pid_from_slider_window.
  change (window (exchange_bounds p c)) with (window c).
  unfold slider_to_value. by rewrite H1, H2.
Qed.

Lemma bounds_are_taken_in_order_witness :
  let c := set_axis_widgets param_P
             {| slider_value := 50; slider_blocked := false;
                min_input := text_number 2; max_input := text_number 1 |}
             (init_controls full_window) in
  slider_to_value (widgets c param_P) 50 = (1 + float_of_Z 50 / 100 * (2 - 1))%float.
Proof.
  cbv zeta.
  apply (bounds_are_taken_in_order param_P 50
           (set_axis_widgets param_P
              {| slider_value := 50; slider_blocked := false;
                 min_input := text_number 2; max_input := text_number 1 |}
              (init_controls full_window)) 2 1); reflexivity.
Defined.






End controls_edge_cases.

(** ** Frames stay rectangular *)

Section rectangular_frames.
Import DataFrame DataFrameFacts.

Lemma dom_reindex cols (r : gmap string float) :
  dom (reindex cols r) = dom r ∪ cols.
Proof. unfold reindex. by rewrite dom_union_L, dom_gset_to_gmap. Qed.

Lemma rectangular_new : rectangular new.
Proof. constructor. Qed.

Lemma rectangular_concat df d :
  rectangular df → rectangular (concat df (of_record d)).
Proof.
  unfold rectangular, concat, of_record; cbn. intros Hdf.
  apply Forall_fmap, Forall_app. split.
  - eapply Forall_impl; [exact Hdf |]. intros r Hr. cbn.
    rewrite dom_reindex, Hr. apply subseteq_union_1_L, union_subseteq_l.
  - constructor; [| constructor]. cbn. rewrite dom_reindex.
    apply subseteq_union_1_L, union_subseteq_r.
Qed.

Lemma rectangular_set_at df i c v :
  rectangular df → rectangular (set_at df i c v).
Proof.
  unfold rectangular, set_at; cbn. intros Hdf.
  assert (Forall (λ r : gmap string float, dom r = {[c]} ∪ columns df)
                 (reindex ({[c]} ∪ columns df) <$> rows df)) as H.
  { apply Forall_fmap. eapply Forall_impl; [exact Hdf |]. intros r Hr. cbn.
    rewrite dom_reindex, Hr. apply subseteq_union_1_L, union_subseteq_r. }
  apply Forall_alter; [exact H |].
  intros r _ Hr. rewrite dom_insert_L, Hr.
  by rewrite (assoc_L (∪)), (idemp_L (∪)).
Qed.

Lemma rectangular_set_column df c v :
  rectangular df → rectangular (set_column df c v).
Proof.
  unfold rectangular, set_column; cbn. intros Hdf.
  apply Forall_fmap. eapply Forall_impl; [exact Hdf |]. intros r Hr. cbn.
  by rewrite dom_insert_L, Hr.
Qed.

Lemma rectangular_fix_column df item :
  rectangular df → rectangular (fix_column df item).
Proof.
  intros H. unfold fix_column. case_decide; [by apply rectangular_set_column | done].
Qed.

(** In a rectangular frame a cell is missing only where the column or the row
    is. *)
Lemma rectangular_at df i c :
  rectangular df → c ∈ columns df → i < len df → is_Some (at_ df i c).
Proof.
  intros Hdf Hc Hi.
  destruct (lookup_lt_is_Some_2 (rows df) i Hi) as [r Hr].
  assert (dom r = columns df) as Hdom
    by (eapply (Forall_lookup_1 _ _ _ _ Hdf); exact Hr).
  assert (is_Some (r !! c)) as [v Hv] by (apply elem_of_dom; by rewrite Hdom).
  exists v. apply at_Some. eauto.
Qed.

Lemma rectangular_update_plot_with dt w :
  rectangular (simulation_data w) →
  rectangular (simulation_data (update_plot_with dt w).2).
Proof.
  intros Hw.
  destruct (update_plot_with_cases dt w)
    as [[-> _] | [[label ->] | (sp & mv & _ & _ & [[-> _] | [-> _]])]];
    [done | done | ..].
  all: cbn; by do 2 apply rectangular_set_at.
Qed.

Lemma rectangular_process_received_data v w :
  rectangular (simulation_data w) →
  rectangular (simulation_data (process_received_data v w).2).
Proof.
  intros Hw. destruct v as [d|]; [| done].
  rewrite process_received_data_dict. unfold update_plot.
  pose proof (rectangular_update_plot_with (timer_dt (appended d w)) (appended d w)
                (rectangular_concat _ d Hw)) as H.
  by destruct (update_plot_with _ _) as [[r|e] w'].
Qed.

Lemma rectangular_receive_loop chunks w :
  rectangular (simulation_data w) →
  rectangular (simulation_data (receive_loop chunks w).2).
Proof.
  revert w. induction chunks as [|data rest IH]; intros w Hw.
  - destruct (running w) eqn:Hrun;
      [by rewrite receive_loop_nil | by rewrite receive_loop_stopped].
  - destruct (running w) eqn:Hrun; [| by rewrite receive_loop_stopped].
    destruct data as [| | |v].
    + by rewrite receive_loop_empty.
    + by rewrite receive_loop_not_utf8.
    + rewrite receive_loop_not_json by done. by apply IH.
    + rewrite receive_loop_json by done.
      pose proof (rectangular_process_received_data v
                    (print msg_chunk (print msg_waiting w)) Hw) as Hv.
      destruct (process_received_data v _) as [[[]|e] w']; [by apply IH | done].
Qed.

Lemma rectangular_update_pid_in_simulation_data p v w :
  rectangular (simulation_data w) →
  rectangular (simulation_data (update_pid_in_simulation_data p v w)).
Proof.
  intros Hw. unfold update_pid_in_simulation_data.
  destruct (empty (simulation_data w)); [done |]. by apply rectangular_set_column.
Qed.

(** The frame of a fresh window is rectangular, and every operation keeps it
    so: a step, the three buttons, a received value, a whole connection, and
    the handlers of the PID controls. *)
Theorem frames_stay_rectangular (w : MainWindow) :
  rectangular (simulation_data init)
  ∧ (rectangular (simulation_data w) →
     (∀ dt, rectangular (simulation_data (update_plot_with dt w).2))
     ∧ (∀ dt n, rectangular (simulation_data (run_ticks dt n w)))
     ∧ rectangular (simulation_data (start_simulation w))
     ∧ rectangular (simulation_data (pause_simulation w))
     ∧ rectangular (simulation_data (reset_simulation w))
     ∧ (∀ v, rectangular (simulation_data (process_received_data v w).2))
     ∧ (∀ c, rectangular (simulation_data (start_socket_connection c w)))
     ∧ (∀ widgets0 p pos text_value state,
          let c := {| window := w; widgets := widgets0 |} in
          rectangular (simulation_data (window (update_pid_from_slider p pos c)))
          ∧ rectangular
              (simulation_data (window (update_pid_from_value_input p text_value c).2))
          ∧ rectangular (simulation_data (window (toggle_pid_component p state c))))).
Proof.
  split; [apply rectangular_new |]. intros Hw.
  split; [intros dt; by apply rectangular_update_plot_with |].
  split.
  { intros dt n.
    by apply (run_ticks_invariant (λ w', rectangular (simulation_data w')) dt
                (rectangular_update_plot_with dt)). }
  split.
  { unfold start_simulation. destruct (empty (simulation_data w)); [done |].
    cbn. unfold ui_pid_items; cbn. by do 3 apply rectangular_fix_column. }
  split; [done |].
  split; [rewrite reset_simulation_window; apply rectangular_new |].
  split; [intros v; by apply rectangular_process_received_data |].
  split.
  { intros [|chunks]; [done |]. unfold start_socket_connection, receive_data.
    pose proof (rectangular_receive_loop chunks
                  (print msg_connected (print msg_connecting (set_running true w)))
                  Hw) as H.
    by destruct (receive_loop chunks _) as [[[]|e] w']. }
  intros widgets0 p pos text_value state. cbv zeta.
  assert (∀ c, rectangular (simulation_data (window c)) →
               ∀ pos', rectangular
                         (simulation_data (window (update_pid_from_slider p pos' c))))
    as Hslider.
  { intros c Hc pos'. rewrite update_pid_from_slider_window. cbv zeta.
    by apply rectangular_update_pid_in_simulation_data. }
  split; [by apply Hslider |]. split; [| by apply Hslider].
  unfold update_pid_from_value_input. cbn [window widgets].
  destruct (pid_enabled w p); [| done].
  destruct text_value as [actual|]; [| done].
  cbn [set_window window widgets].
  destruct (read_bounds (widgets0 p)) as [[lo hi]|]; [| done].
  destruct (value_to_position lo hi actual); try done.
  cbn. by apply rectangular_update_pid_in_simulation_data.
Qed.

Lemma frames_stay_rectangular_witness :
  rectangular (simulation_data (process_received_data (json_dict full_record) init).2).
Proof.
  refine (proj1 (proj2 (proj2 (proj2 (proj2 (proj2
            (proj2 (frames_stay_rectangular init) _))))))
            (json_dict full_record)).
  constructor.
Defined.

(** On a rectangular frame a step with a row at the cursor raises only for
    a missing column, and which one decides what it leaves.  Without the
    column Setpoint, or with it and without Valor Medido, it raises
    [KeyError] for that column and the window is as it was.  With both and
    without Time, while a line of the plot is shown, it raises [KeyError]
    for Time after the row was written and both errors updated, the cursor
    where it was.  With all three, or with both and no line shown, it
    processes the row and moves the cursor on. *)
Theorem step_raises_only_for_a_missing_column (dt : float) (w : MainWindow) :
  rectangular (simulation_data w) →
  finished w = false →
  (("Setpoint" ∉ columns (simulation_data w) →
      update_plot_with dt w = (Raise (KeyError "Setpoint"), w))
   ∧ ("Setpoint" ∈ columns (simulation_data w) →
      "Valor Medido" ∉ columns (simulation_data w) →
      update_plot_with dt w = (Raise (KeyError "Valor Medido"), w))
   ∧ ("Setpoint" ∈ columns (simulation_data w) →
      "Valor Medido" ∈ columns (simulation_data w) →
      ∃ sp mv,
        at_ (simulation_data w) (current_index w) "Setpoint" = Some sp
        ∧ at_ (simulation_data w) (current_index w) "Valor Medido" = Some mv
        ∧ (plots_shown w = true → "Time" ∉ columns (simulation_data w) →
           update_plot_with dt w
           = (Raise (KeyError "Time"), step_written dt sp mv w)
           ∧ current_index (update_plot_with dt w).2 = current_index w)
        ∧ (plots_shown w = false ∨ "Time" ∈ columns (simulation_data w) →
           update_plot_with dt w
           = (Ok (Advanced (current_index w)), step_window dt sp mv w)
           ∧ current_index (update_plot_with dt w).2 = current_index w + 1))).
Proof.
  intros Hrect Hfin.
  assert (current_index w < len (simulation_data w)) as Hi.
  { unfold finished in Hfin. apply orb_false_iff in Hfin as [_ Hfin].
    apply bool_decide_eq_false in Hfin. lia. }
  split; [| split].
  - intros Hno. unfold update_plot_with, finished in *.
    unfold mbind, action_bind, get. rewrite Hfin. unfold read_at.
    by rewrite at_absent.
  - intros Hsp Hno.
    destruct (rectangular_at _ _ _ Hrect Hsp Hi) as [sp Hsp'].
    unfold update_plot_with, finished in *.
    unfold mbind, action_bind, get. rewrite Hfin. unfold read_at.
    rewrite Hsp'. by rewrite at_absent.
  - intros Hsp Hmv.
    destruct (rectangular_at _ _ _ Hrect Hsp Hi) as [sp Hsp'].
    destruct (rectangular_at _ _ _ Hrect Hmv Hi) as [mv Hmv'].
    exists sp, mv. split; [done |]. split; [done |]. split.
    + intros Hshown Htime.
      assert (plot_reads_ok w = false) as Hno.
      { destruct (plot_reads_ok w) eqn:Hok; [| done].
        apply plot_reads_ok_true in Hok as [Hok | Hok]; [congruence | done]. }
      by rewrite (update_plot_with_time_error dt w sp mv Hsp' Hmv' Hno).
    + intros Hplot. apply plot_reads_ok_intro in Hplot.
      by rewrite (update_plot_with_advanced dt w sp mv Hsp' Hmv' Hplot).
Qed.

Lemma step_raises_only_for_a_missing_column_witness :
  update_plot_with (1 / 10)%float
    (set_simulation_data (of_record (<["Time" := 1%float]> ∅)) init)
  = (Raise (KeyError "Setpoint"),
     set_simulation_data (of_record (<["Time" := 1%float]> ∅)) init).
Proof.
  apply (step_raises_only_for_a_missing_column (1 / 10)%float
           (set_simulation_data (of_record (<["Time" := 1%float]> ∅)) init)).
  - repeat constructor.
  - vm_compute. reflexivity.
  - intros H. apply (bool_decide_pack _) in H. vm_compute in H. done.
Defined.

End rectangular_frames.

(** ** Values that are no numbers, and gains of zero *)

Section special_values.
Import DataFrame DataFrameFacts.

Lemma sub_nan_r (x : float) : (x - nan)%float = nan.
Proof.
  apply Prim2SF_inj. rewrite FloatAxioms.sub_spec.
  change (Prim2SF nan) with S754_nan. by destruct (Prim2SF x) as [[]|[]| |[]].
Qed.

Lemma mul_nan_r (x : float) : (x * nan)%float = nan.
Proof.
  apply Prim2SF_inj. rewrite FloatAxioms.mul_spec.
  change (Prim2SF nan) with S754_nan. by destruct (Prim2SF x) as [[]|[]| |[]].
Qed.

Lemma add_nan_l (x : float) : (nan + x)%float = nan.
Proof.
  apply Prim2SF_inj. rewrite FloatAxioms.add_spec.
  by change (Prim2SF nan) with S754_nan.
Qed.

Lemma add_nan_r (x : float) : (x + nan)%float = nan.
Proof.
  apply Prim2SF_inj. rewrite FloatAxioms.add_spec.
  change (Prim2SF nan) with S754_nan. by destruct (Prim2SF x) as [[]|[]| |[]].
Qed.

(** With an integral that is no number the output is none, whatever the
    gains are. *)
Lemma pid_output_nan_integral Kp Ki Kd e d :
  pid_output Kp Ki Kd e nan d = nan.
Proof. unfold pid_output. by rewrite mul_nan_r, add_nan_r, add_nan_l. Qed.

Lemma step_integral_nan dt sp mv w :
  sp = nan ∨ mv = nan ∨ integral_error w = nan →
  step_integral dt sp mv w = nan.
Proof.
  unfold step_integral, step_error. intros [-> | [-> | ->]].
  - by rewrite sub_nan_l, mul_nan_l, add_nan_r.
  - by rewrite sub_nan_r, mul_nan_l, add_nan_r.
  - by rewrite add_nan_l.
Qed.

Lemma step_measured_nan dt sp mv w :
  sp = nan ∨ mv = nan ∨ integral_error w = nan →
  step_measured dt sp mv w = nan.
Proof.
  intros H. unfold step_measured, step_output.
  by rewrite (step_integral_nan dt sp mv w H), pid_output_nan_integral,
    mul_nan_l, add_nan_r.
Qed.

Lemma update_plot_with_integral_nan dt w :
  integral_error w = nan → integral_error (update_plot_with dt w).2 = nan.
Proof.
  intros Hw.
  destruct (update_plot_with_cases dt w)
    as [[-> _] | [[label ->] | (sp & mv & _ & _ & [[-> _] | [-> _]])]];
    [done | done | ..].
  all: cbn; apply step_integral_nan; auto.
Qed.

(** A row whose set point or measured value is no number (a field that was
    missing from a record, for one) gets a measured value and an error that
    are no numbers, and spoils the rest of the run: whatever the gains are,
    also when all three are zero, the integral is no number after any number
    of further steps, and every later row that is processed gets a measured
    value that is no number. *)
Theorem not_a_number_spoils_the_rest_of_the_run
    (dt : float) (w : MainWindow) (sp mv : float) :
  at_ (simulation_data w) (current_index w) "Setpoint" = Some sp →
  at_ (simulation_data w) (current_index w) "Valor Medido" = Some mv →
  sp = nan ∨ mv = nan →
  let w1 := (update_plot_with dt w).2 in
  at_ (simulation_data w1) (current_index w) "Valor Medido" = Some nan
  ∧ at_ (simulation_data w1) (current_index w) "Error" = Some nan
  ∧ ∀ n, let w' := run_ticks dt n w1 in
         integral_error w' = nan
         ∧ ∀ sp' mv',
             at_ (simulation_data w') (current_index w') "Setpoint" = Some sp' →
             at_ (simulation_data w') (current_index w') "Valor Medido" = Some mv' →
             at_ (simulation_data (update_plot_with dt w').2) (current_index w')
                 "Valor Medido" = Some nan.
Proof.
  intros Hsp Hmv Hnan. cbv zeta.
  pose proof (at_lt _ _ _ _ Hsp) as Hi.
  rewrite (update_plot_with_frame dt w sp mv Hsp Hmv).
  split.
  { rewrite step_window_measured by done. f_equal.
    apply step_measured_nan. tauto. }
  split.
  { rewrite step_window_error by done. f_equal. unfold step_error.
    destruct Hnan as [-> | ->]; [apply sub_nan_l | apply sub_nan_r]. }
  intros n.
  assert (integral_error (run_ticks dt n (update_plot_with dt w).2) = nan) as Hint.
  { apply (run_ticks_invariant (λ w', integral_error w' = nan) dt
             (update_plot_with_integral_nan dt)).
    rewrite (update_plot_with_integral dt w sp mv Hsp Hmv).
    apply step_integral_nan. tauto. }
  split; [done |]. intros sp' mv' Hsp' Hmv'.
  pose proof (at_lt _ _ _ _ Hsp') as Hi'.
  rewrite (update_plot_with_frame dt _ sp' mv' Hsp' Hmv').
  rewrite step_window_measured by done. f_equal.
  apply step_measured_nan. auto.
Qed.

Lemma not_a_number_spoils_the_rest_of_the_run_witness :
  at_ (simulation_data
         (update_plot_with (1 / 10)%float
            (update_plot_with (1 / 10)%float window_without_setpoint).2).2)
      1 "Valor Medido" = Some nan.
Proof.
  refine (proj2 (proj2 (proj2 (not_a_number_spoils_the_rest_of_the_run
            (1 / 10)%float window_without_setpoint nan 40 _ _ _)) 0%nat)
            50%float 45%float _ _).
  - reflexivity.
  - reflexivity.
  - by left.
  - reflexivity.
  - reflexivity.
Defined.

Lemma mul_zero_l (k x : float) :
  is_zero k = true → is_finite x = true → is_zero (k * x) = true.
Proof.
  unfold is_zero, is_finite. rewrite FloatAxioms.mul_spec.
  by destruct (Prim2SF k) as [[]|[]| |[]], (Prim2SF x) as [[]|[]| |[]].
Qed.

Lemma add_zero_zero (a b : float) :
  is_zero a = true → is_zero b = true → is_zero (a + b) = true.
Proof.
  unfold is_zero. rewrite FloatAxioms.add_spec.
  by destruct (Prim2SF a) as [[]|[]| |[]], (Prim2SF b) as [[]|[]| |[]].
Qed.

(** Adding a zero to a finite number other than zero gives the number. *)
Lemma add_zero_r (x z : float) :
  is_finite x = true → is_zero x = false → is_zero z = true →
  (x + z)%float = x.
Proof.
  unfold is_zero, is_finite. intros Hx Hx0 Hz.
  apply Prim2SF_inj. rewrite FloatAxioms.add_spec.
  by destruct (Prim2SF x) as [[]|[]| |[]], (Prim2SF z) as [[]|[]| |[]].
Qed.

(** Without gains (before the first start, after a reset, or in a run with
    every gain zero) a step shows a row as it is: when the error, its
    integral and its derivative are finite, a measured value that is finite
    and not zero is written back unchanged. *)
Theorem zero_gains_keep_the_measured_value
    (dt : float) (w : MainWindow) (sp mv : float) :
  (∀ p, is_zero (fixed_gain w p) = true) →
  at_ (simulation_data w) (current_index w) "Setpoint" = Some sp →
  at_ (simulation_data w) (current_index w) "Valor Medido" = Some mv →
  is_finite dt = true →
  is_finite (step_error sp mv) = true →
  is_finite (step_integral dt sp mv w) = true →
  is_finite (step_derivative dt sp mv w) = true →
  is_finite mv = true → is_zero mv = false →
  at_ (simulation_data (update_plot_with dt w).2) (current_index w) "Valor Medido"
  = Some mv.
Proof.
  intros Hgains Hsp Hmv Hdt He Hi Hd Hfin Hnz.
  pose proof (at_lt _ _ _ _ Hsp) as Hlt.
  rewrite (update_plot_with_frame dt w sp mv Hsp Hmv).
  rewrite step_window_measured by done. f_equal.
  unfold step_measured. apply add_zero_r; [done | done |].
  apply mul_zero_l; [| done].
  unfold step_output, pid_output.
  apply add_zero_zero; [apply add_zero_zero |]; by apply mul_zero_l.
Qed.

Lemma zero_gains_keep_the_measured_value_witness :
  at_ (simulation_data (update_plot_with (1 / 10)%float scenario_window).2)
      0 "Valor Medido" = Some 40%float.
Proof.
  apply (zero_gains_keep_the_measured_value (1 / 10)%float scenario_window 50 40);
    reflexivity.
Defined.

End special_values.

(** ** A frame without the column Time *)

Section without_time.
Import DataFrame DataFrameFacts.

Lemma plots_shown_step_written dt sp mv w :
  plots_shown (step_written dt sp mv w) = plots_shown w.
Proof. done. Qed.

Lemma time_absent_step_written dt sp mv w :
  "Time" ∉ columns (simulation_data w) →
  "Time" ∉ columns (simulation_data (step_written dt sp mv w)).
Proof.
  intros H. rewrite step_written_columns, !not_elem_of_union, !elem_of_singleton.
  done.
Qed.

(** While a line of the plot is shown, a run on a frame without the column
    Time stays on its row: every step writes the row at the cursor, updates
    both errors and ends with [KeyError] for Time before the cursor moves,
    so the next step reads what this one wrote.  After [n] steps the cursor
    and the length are as they were, the set point of the row and every
    other row are untouched, and the measured value of the row, the previous
    error and the integral are those of [n] passes of the control law over
    that one row. *)
Theorem run_without_time_stays_on_its_row
    (dt : float) (n : nat) (w : MainWindow) (sp mv : float) :
  plots_shown w = true →
  "Time" ∉ columns (simulation_data w) →
  at_ (simulation_data w) (current_index w) "Setpoint" = Some sp →
  at_ (simulation_data w) (current_index w) "Valor Medido" = Some mv →
  let w' := run_ticks dt n w in
  let state :=
    Nat.iter n (reprocess (fixed_gain w param_P) (fixed_gain w param_I)
                          (fixed_gain w param_D) dt sp)
             (mv, previous_error w, integral_error w) in
  current_index w' = current_index w
  ∧ len (simulation_data w') = len (simulation_data w)
  ∧ at_ (simulation_data w') (current_index w) "Setpoint" = Some sp
  ∧ at_ (simulation_data w') (current_index w) "Valor Medido" = Some state.1.1
  ∧ previous_error w' = state.1.2
  ∧ integral_error w' = state.2
  ∧ (∀ i c v, i ≠ current_index w →
       at_ (simulation_data w) i c = Some v →
       at_ (simulation_data w') i c = Some v)
  ∧ (update_plot_with dt w').1 = Raise (KeyError "Time").
Proof.
  cbv zeta. revert w mv. induction n as [|n IH]; intros w mv Hshown Htime Hsp Hmv.
  { cbn [run_ticks Nat.iter fst snd].
    do 6 (split; [done |]). split; [done |].
    assert (plot_reads_ok w = false) as Hno.
    { destruct (plot_reads_ok w) eqn:Hok; [| done].
      apply plot_reads_ok_true in Hok as [Hok | Hok]; [congruence | done]. }
    by rewrite (update_plot_with_time_error dt w sp mv Hsp Hmv Hno). }
  assert (plot_reads_ok w = false) as Hno.
  { destruct (plot_reads_ok w) eqn:Hok; [| done].
    apply plot_reads_ok_true in Hok as [Hok | Hok]; [congruence | done]. }
  pose proof (at_lt _ _ _ _ Hsp) as Hi.
  cbn [run_ticks]. rewrite (update_plot_with_time_error dt w sp mv Hsp Hmv Hno).
  cbn [snd]. rewrite Nat.iter_succ_r.
  set (w1 := step_written dt sp mv w).
  assert (current_index w1 = current_index w) as Hcur by done.
  destruct (IH w1 (step_measured dt sp mv w))
    as (H1 & H2 & H3 & H4 & H5 & H6 & H7 & H8).
  - done.
  - by apply time_absent_step_written.
  - rewrite Hcur. unfold w1. rewrite step_written_data.
    apply step_window_other; [by right | done].
  - rewrite Hcur. unfold w1. rewrite step_written_data.
    by apply step_window_measured.
  - rewrite Hcur in *.
    change (fixed_gain w1) with (fixed_gain w) in *.
    change (previous_error w1) with (step_error sp mv) in *.
    change (integral_error w1) with (step_integral dt sp mv w) in *.
    split; [done |].
    split; [rewrite H2; unfold w1; rewrite step_written_data; apply step_window_len |].
    do 4 (split; [done |]). split; [| done].
    intros i c v Hne Hv. apply H7; [done |].
    unfold w1. rewrite step_written_data.
    apply step_window_other; [by left | done].
Qed.

Lemma run_without_time_stays_on_its_row_witness :
  let w' := run_ticks (1 / 10)%float 2 (start_simulation window_without_time) in
  current_index w' = 0
  ∧ at_ (simulation_data w') 0 "Valor Medido" = Some (41 + 9 * (1 / 10))%float
  ∧ (update_plot_with (1 / 10)%float w').1 = Raise (KeyError "Time").
Proof.
  cbv zeta.
  destruct (run_without_time_stays_on_its_row (1 / 10)%float 2
              (start_simulation window_without_time) 50 40)
    as (H1 & _ & _ & H2 & _ & _ & _ & H3).
  - reflexivity.
  - intros H. apply (bool_decide_pack _) in H. vm_compute in H. done.
  - vm_compute. reflexivity.
  - vm_compute. reflexivity.
  - split; [exact H1 |]. split; [| exact H3].
    etrans; [exact H2 |]. vm_compute. reflexivity.
Defined.

(** A line that is hidden is not drawn. *)
Lemma toggle_plot_visibility_hide name w :
  toggle_plot_visibility name 0 w
  = (Ok tt, set_plot_lines (set_visible name false (plot_lines w)) w).
Proof.
  unfold toggle_plot_visibility, mbind, action_bind, modify, get.
  cbn [truthy Z.eqb negb set_plot_lines plot_lines].
  by destruct name, (plot_lines w) as [a b c].
Qed.

(** Unchecking a line of the plot never fails, and with the three lines
    unchecked a step does not look for the column Time: it processes every
    row whose set point and measured value it can read, also on a frame
    without Time.  Checking a line, on the other hand, on a frame that has
    rows and the column of the line but not Time, raises [KeyError] for
    Time, after the line was marked as shown. *)
Theorem hiding_the_lines_lets_steps_advance (w : MainWindow) :
  let hidden := hide_every_line w in
  hidden.1 = Ok tt
  ∧ plots_shown hidden.2 = false
  ∧ hidden.2
    = set_plot_lines {| Esperado_visible := false; Real_visible := false;
                        Error_visible := false |} w
  ∧ (∀ dt sp mv,
       at_ (simulation_data w) (current_index w) "Setpoint" = Some sp →
       at_ (simulation_data w) (current_index w) "Valor Medido" = Some mv →
       update_plot_with dt hidden.2
       = (Ok (Advanced (current_index w)), step_window dt sp mv hidden.2))
  ∧ (∀ name state,
       state ≠ 0%Z →
       empty (simulation_data w) = false →
       line_column name ∈ columns (simulation_data w) →
       "Time" ∉ columns (simulation_data w) →
       toggle_plot_visibility name state w
       = (Raise (KeyError "Time"),
          set_plot_lines (set_visible name true (plot_lines w)) w)).
Proof.
  cbv zeta.
  assert (hide_every_line w
          = (Ok tt,
             set_plot_lines {| Esperado_visible := false; Real_visible := false;
                               Error_visible := false |} w)) as Heq.
  { unfold hide_every_line, mbind, action_bind.
    rewrite !toggle_plot_visibility_hide. done. }
  rewrite Heq. cbn [fst snd].
  split; [done |]. split; [done |]. split; [done |]. split.
  - intros dt sp mv Hsp Hmv.
    by apply (update_plot_with_advanced dt
                (set_plot_lines {| Esperado_visible := false; Real_visible := false;
                                   Error_visible := false |} w) sp mv).
  - intros name state Hstate Hdata Hcol Htime.
    unfold toggle_plot_visibility, mbind, action_bind, modify, get.
    assert (truthy state = true) as ->.
    { unfold truthy. apply negb_true_iff. by apply Z.eqb_neq. }
    assert (visible (set_visible name true (plot_lines w)) name = true) as Hvis
      by by destruct name.
    cbn [plot_lines set_plot_lines simulation_data current_index].
    rewrite Hvis, Hdata. cbn [negb]. rewrite orb_true_r.
    assert (∀ df : DataFrame.t,
              columns df = columns (simulation_data w) →
              (if decide (line_column name ∈ columns df)
               then setData df "Time" (line_column name)
               else mret tt)
                (set_plot_lines (set_visible name true (plot_lines w)) w)
              = (Raise (KeyError "Time"),
                 set_plot_lines (set_visible name true (plot_lines w)) w)) as Hdraw.
    { intros df Hdf. rewrite decide_True by by rewrite Hdf.
      apply setData_key_error. by rewrite Hdf. }
    destruct (bool_decide (0 < current_index w)); by apply Hdraw.
Qed.

Lemma hiding_the_lines_lets_steps_advance_witness :
  (update_plot_with (1 / 10)%float
     (hide_every_line (start_simulation window_without_time)).2).1
  = Ok (Advanced 0).
Proof.
  destruct (hiding_the_lines_lets_steps_advance
              (start_simulation window_without_time)) as (_ & _ & _ & H & _).
  rewrite (H (1 / 10)%float 50%float 40%float); reflexivity.
Defined.

End without_time.
